(** * FCamCompPhotog: capture-side buffering and persistence

    A shallow embedding of the native layer of the FCameraPRO application
    (directory [fcamerapro/jni]) together with the properties its design
    document states about it:

    - [TripleBuffer.h]        the three-slot hand-off between the capture
                              thread and the renderer,
    - [WorkQueue.h]           the FIFO shared by producers and one consumer,
    - [AsyncImageWriter.cpp]  the box-filter thumbnail downsampler and the
                              routine that persists an image set,
    - [FCamInterface.cpp]     the JNI entry points that queue parameter
                              requests and the dispatch [switch] of the
                              capture thread,
    - [Camera.cpp]            the full-resolution capture that fills an
                              image set.

    Conventions.  A C [int] is a [Z] kept in the signed 32-bit range by
    [wrap32]; an [unsigned char] is a [Z] in [0, 256); a [float] is the
    [Z] of its 32-bit pattern, and the two places that compute with floats
    go through the [Platform] interface, of which [Binary32] is the
    IEEE 754 instance.  Arrays are lists read with stdpp's
    lookup; an access outside the array is undefined behaviour in C++ and is
    [None] here.  Pointers to the three preview buffers are indices into
    [m_viewBuffers]. *)

From Stdlib Require Import ZArith Lia List Bool String Ascii.
From Stdlib Require Import Floats.SpecFloat.
From stdpp Require Import base list strings pretty.

Local Open Scope Z_scope.

(* ====================================================================== *)
(** * Part I: definitions                                                  *)
(* ====================================================================== *)

(** ** TripleBuffer.h

    [TripleBuffer<T>]; [TSTripleBuffer<T>] runs the same bodies between
    [pthread_mutex_lock] and [pthread_mutex_unlock]. *)

Module TripleBuffer.
Section Slots.
(** [T] stands for [T *]: the identity of a buffer, not its contents. *)
Context {T : Type}.

Record t : Type := Make {
  m_frontBuffer : T;
  m_backBuffer : T;
  m_spareBuffer : T;
  m_updateFrontBuffer : bool
}.

(** [TripleBuffer( T * buffers[3] )] *)
Definition create (b0 b1 b2 : T) : t :=
  {| m_frontBuffer := b0; m_backBuffer := b1; m_spareBuffer := b2;
     m_updateFrontBuffer := false |}.

Definition getFrontBuffer (tb : t) : T := m_frontBuffer tb.

Definition getBackBuffer (tb : t) : T := m_backBuffer tb.

(** Returns [rval] and the object after the call. *)
Definition swapFrontBuffer (tb : t) : T * t :=
  if m_updateFrontBuffer tb then
    let rval := m_spareBuffer tb in
    (rval, {| m_frontBuffer := rval;
              m_backBuffer := m_backBuffer tb;
              m_spareBuffer := m_frontBuffer tb;
              m_updateFrontBuffer := false |})
  else
    (m_frontBuffer tb, tb).

Definition swapBackBuffer (tb : t) : T * t :=
  let rval := m_spareBuffer tb in
  (rval, {| m_frontBuffer := m_frontBuffer tb;
            m_backBuffer := rval;
            m_spareBuffer := m_backBuffer tb;
            m_updateFrontBuffer := true |}).

(** [n] consecutive [swapBackBuffer] calls, results discarded. *)
Fixpoint swapBack_times (n : nat) (tb : t) : t :=
  match n with
  | O => tb
  | S k => swapBack_times k (snd (swapBackBuffer tb))
  end.

(** [n] consecutive [swapFrontBuffer] calls; the pointers they return. *)
Fixpoint swapFront_times (n : nat) (tb : t) : list T * t :=
  match n with
  | O => ([], tb)
  | S k =>
      let '(r, tb1) := swapFrontBuffer tb in
      let '(rs, tb2) := swapFront_times k tb1 in
      (r :: rs, tb2)
  end.

(** The buffer the producer has filled when it makes its [k]th call of
    [swapBackBuffer] in a row ([k >= 1]): the back buffer at that call. *)
Definition filled_at (k : nat) (tb : t) : T :=
  getBackBuffer (swapBack_times (k - 1) tb).

(** After [N] calls of [swapBackBuffer] in a row, no call of
    [swapFrontBuffer] ever returns a buffer filled for a call before the
    [N]th. *)
Definition earlier_never_returned (N : nat) (tb : t) : Prop :=
  forall calls k : nat,
    (1 <= k < N)%nat ->
    filled_at k tb ∉ fst (swapFront_times calls (swapBack_times N tb)).
End Slots.
Arguments t : clear implicits.
End TripleBuffer.

(** ** PreviewBuffer (FCamInterface.cpp)

    [class PreviewBuffer : public TripleBuffer<SharedBuffer>] owns the three
    buffers in [m_viewBuffers]; a buffer pointer is its index there.  The
    capture thread fills the back buffer and then calls [swapBackBuffer]
    (lines 1277-1287); the renderer calls [swapFrontBuffer] and reads the
    buffer it gets (line 335). *)

Module PreviewBuffer.
Section Frames.
(** The pixels of one preview frame. *)
Context {frame : Type}.

Record t : Type := Make {
  slots : TripleBuffer.t nat;
  m_viewBuffers : list frame
}.

(** [PreviewBuffer( width, height )]: back, front and spare are
    [m_viewBuffers[0]], [[1]] and [[2]]. *)
Definition create (blank : frame) : t :=
  {| slots := {| TripleBuffer.m_frontBuffer := 1%nat;
                 TripleBuffer.m_backBuffer := 0%nat;
                 TripleBuffer.m_spareBuffer := 2%nat;
                 TripleBuffer.m_updateFrontBuffer := false |};
     m_viewBuffers := [blank; blank; blank] |}.

(** Every slot points into [m_viewBuffers]. *)
Definition valid (pb : t) : Prop :=
  (TripleBuffer.m_frontBuffer (slots pb) < length (m_viewBuffers pb))%nat /\
  (TripleBuffer.m_backBuffer (slots pb) < length (m_viewBuffers pb))%nat /\
  (TripleBuffer.m_spareBuffer (slots pb) < length (m_viewBuffers pb))%nat.

(** "update framebuffer", for a preview buffer that exists and has the
    extents of the captured image: copy the image into the back buffer,
    then [swapBackBuffer()]. *)
Definition publish (image : frame) (pb : t) : t :=
  let captureBuffer := TripleBuffer.getBackBuffer (slots pb) in
  {| slots := snd (TripleBuffer.swapBackBuffer (slots pb));
     m_viewBuffers := <[captureBuffer := image]> (m_viewBuffers pb) |}.

(** One published frame after the other, no consumer call in between. *)
Definition publish_all (images : list frame) (pb : t) : t :=
  fold_left (fun acc image => publish image acc) images pb.

(** The renderer's [swapFrontBuffer()] and what it then finds in the
    buffer. *)
Definition acquire (pb : t) : option frame * t :=
  let '(buffer, s) := TripleBuffer.swapFrontBuffer (slots pb) in
  (m_viewBuffers pb !! buffer,
   {| slots := s; m_viewBuffers := m_viewBuffers pb |}).

(** [n] consecutive calls by the renderer; what each one delivered. *)
Fixpoint acquire_times (n : nat) (pb : t) : list (option frame) * t :=
  match n with
  | O => ([], pb)
  | S k =>
      let '(image, pb1) := acquire pb in
      let '(images, pb2) := acquire_times k pb1 in
      (image :: images, pb2)
  end.
End Frames.
Arguments t : clear implicits.
End PreviewBuffer.

(** ** WorkQueue.h *)

Module WorkQueue.
Section Queue.
Context {T : Type}.

(** [m_queue] with its head first, and the value of the counting
    semaphore [m_counterSem]. *)
Record t : Type := Make {
  m_queue : list T;
  m_counterSem : nat
}.

(** [WorkQueue( void )]: [sem_init( &m_counterSem, 0, 0 )]. *)
Definition create : t := {| m_queue := []; m_counterSem := 0 |}.

Definition produce (elem : T) (q : t) : t :=
  {| m_queue := m_queue q ++ [elem];
     m_counterSem := S (m_counterSem q) |}.

(** What a [consume] call does to its caller. *)
Inductive outcome : Type :=
| Consumed (elem : T) (q' : t)  (* returns true, [elem] written *)
| Empty (q' : t)                (* returns false, [elem] untouched *)
| Blocks                        (* [sem_wait] suspends the caller *)
| Undefined.                    (* [front()] of an empty [std::queue] *)

Definition consume (blocking : bool) (q : t) : outcome :=
  match m_counterSem q with
  | O => if blocking then Blocks else Empty q
  | S n =>
      match m_queue q with
      | [] => Undefined
      | elem :: rest => Consumed elem {| m_queue := rest; m_counterSem := n |}
      end
  end.

(** [queue = m_queue] assigns: the former contents of the caller's
    [queue] are lost.  Returns the caller's queue and the work queue. *)
Definition consumeAll (queue : list T) (q : t) : list T * t :=
  (m_queue q,
   match m_queue q with
   | [] => q
   | _ :: _ => {| m_queue := []; m_counterSem := 0 |}
   end).

Definition size (q : t) : nat := length (m_queue q).

(** The semaphore counts the queued elements. *)
Definition balanced (q : t) : Prop := m_counterSem q = length (m_queue q).

(** A history of calls by any number of producers and one consumer. *)
Inductive call : Type :=
| Produce (elem : T)
| Consume (blocking : bool).

(** Runs a history; [consumed] accumulates what the consumer received
    (oldest first).  [None]: some call blocked or was undefined. *)
Fixpoint run (calls : list call) (consumed : list T) (q : t)
  : option (list T * t) :=
  match calls with
  | [] => Some (consumed, q)
  | Produce elem :: rest => run rest consumed (produce elem q)
  | Consume blocking :: rest =>
      match consume blocking q with
      | Consumed elem q' => run rest (consumed ++ [elem]) q'
      | Empty q' => run rest consumed q'
      | Blocks | Undefined => None
      end
  end.

(** The elements handed to [produce] in a history, in call order. *)
Fixpoint produced (calls : list call) : list T :=
  match calls with
  | [] => []
  | Produce elem :: rest => elem :: produced rest
  | Consume _ :: rest => produced rest
  end.
End Queue.
Arguments t : clear implicits.
Arguments outcome : clear implicits.
Arguments call : clear implicits.
End WorkQueue.

(** ** Machine integers and bytes *)

Definition INT_MIN : Z := - 2 ^ 31.
Definition INT_MAX : Z := 2 ^ 31 - 1.

(** The value an [int] holds after an operation whose exact result is [z]
    (two's complement, as on the ARM target). *)
Definition wrap32 (z : Z) : Z := (z + 2 ^ 31) mod 2 ^ 32 - 2 ^ 31.

Definition add32 (a b : Z) : Z := wrap32 (a + b).
Definition sub32 (a b : Z) : Z := wrap32 (a - b).
Definition mul32 (a b : Z) : Z := wrap32 (a * b).
Definition shl32 (a n : Z) : Z := wrap32 (Z.shiftl a n).

(** [a >> n] on an [int]: arithmetic shift. *)
Definition sar32 (a n : Z) : Z := Z.shiftr a n.

(** [a / b] on [int]s truncates towards zero; it has no value when [b] is
    zero or the quotient is not an [int]. *)
Definition div32 (a b : Z) : option Z :=
  if b =? 0 then None
  else if (a =? INT_MIN) && (b =? -1) then None
  else Some (Z.quot a b).

(** Conversion of an [int] to [unsigned char]. *)
Definition to_uchar (z : Z) : Z := z mod 256.

(** [p[k]] for a pointer [p = a + base] into the array [a]. *)
Definition load (a : list Z) (base k : Z) : option Z :=
  if 0 <=? base + k then a !! Z.to_nat (base + k) else None.

(** [p[k] = v] for a pointer [p = a + base] into the array [a]. *)
Definition store (a : list Z) (base k v : Z) : option (list Z) :=
  if (0 <=? base + k) && (base + k <? Z.of_nat (length a))
  then Some (<[Z.to_nat (base + k) := v]> a)
  else None.

(** ** AsyncImageWriter.cpp: the thumbnail downsampler *)

Module Thumbnail.

Definition THUMBNAIL_WIDTH : Z := 384.
Definition THUMBNAIL_HEIGHT : Z := 288.
Definition THUMBNAIL_QUALITY : Z := 95.

Definition THUMBNAIL_BLUR_RADIUS : Z := 5.
Definition THUMBNAIL_BLUR_NORM : Z :=
  Z.quot 65536 (THUMBNAIL_BLUR_RADIUS * THUMBNAIL_BLUR_RADIUS).

(** [for ( x = 0; x < THUMBNAIL_BLUR_RADIUS; x++ ) sum += src[srcindex + x];]
    with [n] iterations left. *)
Fixpoint blur_x (src : list Z) (srcbase srcindex : Z)
    (n : nat) (x sum : Z) : option Z :=
  match n with
  | O => Some sum
  | S n' =>
      match load src srcbase (add32 srcindex x) with
      | None => None
      | Some p => blur_x src srcbase srcindex n' (add32 x 1) (add32 sum p)
      end
  end.

(** [for ( y = 0; y < THUMBNAIL_BLUR_RADIUS; y++ ) { ...; srcindex += srcWidth; }]
    with [n] iterations left. *)
Fixpoint blur_y (src : list Z) (srcbase srcWidth : Z)
    (n : nat) (srcindex sum : Z) : option Z :=
  match n with
  | O => Some sum
  | S n' =>
      match blur_x src srcbase srcindex
              (Z.to_nat THUMBNAIL_BLUR_RADIUS) 0 sum with
      | None => None
      | Some sum' =>
          blur_y src srcbase srcWidth n' (add32 srcindex srcWidth) sum'
      end
  end.

(** The loop over [j] with [n] iterations left; threads [dest], [dstindex]
    and [tx]. *)
Fixpoint columns (src : list Z) (srcbase srcWidth : Z) (dstbase : Z)
    (rowindex ax : Z) (n : nat) (dest : list Z) (dstindex tx : Z)
    : option (list Z * Z) :=
  match n with
  | O => Some (dest, dstindex)
  | S n' =>
      let srcindex := add32 rowindex (sar32 tx 16) in
      match blur_y src srcbase srcWidth
              (Z.to_nat THUMBNAIL_BLUR_RADIUS) srcindex 0 with
      | None => None
      | Some sum =>
          let pixel := to_uchar (sar32 (mul32 sum THUMBNAIL_BLUR_NORM) 16) in
          match store dest dstbase dstindex pixel with
          | None => None
          | Some dest' =>
              columns src srcbase srcWidth dstbase rowindex ax n'
                dest' (add32 dstindex 1) (add32 tx ax)
          end
      end
  end.

(** The loop over [i] with [n] iterations left; threads [dest], [dstindex]
    and [ty]. *)
Fixpoint rows (src : list Z) (srcbase srcWidth : Z) (dstbase dstWidth : Z)
    (ax ay : Z) (n : nat) (dest : list Z) (dstindex ty : Z)
    : option (list Z) :=
  match n with
  | O => Some dest
  | S n' =>
      let rowindex := mul32 (sar32 ty 16) srcWidth in
      match columns src srcbase srcWidth dstbase rowindex ax
              (Z.to_nat dstWidth) dest dstindex 0 with
      | None => None
      | Some (dest', dstindex') =>
          rows src srcbase srcWidth dstbase dstWidth ax ay n'
            dest' dstindex' (add32 ty ay)
      end
  end.

(** [DownsampleChannel( dest, dstWidth, dstHeight, src, srcWidth, srcHeight )]
    where [dest] and [src] point [dstbase] and [srcbase] elements into their
    arrays.  Returns the destination array, or [None] when the call divides
    by zero or touches memory outside either array. *)
Definition DownsampleChannel (dest : list Z) (dstbase dstWidth dstHeight : Z)
    (src : list Z) (srcbase srcWidth srcHeight : Z) : option (list Z) :=
  let margin := Z.land THUMBNAIL_BLUR_RADIUS (Z.lnot 1) in
  match div32 (shl32 (sub32 srcWidth margin) 16) dstWidth,
        div32 (shl32 (sub32 srcHeight margin) 16) dstHeight with
  | Some ax, Some ay =>
      rows src srcbase srcWidth dstbase dstWidth ax ay
        (Z.to_nat dstHeight) dest 0 0
  | _, _ => None
  end.

(** Every pixel of [src] has the value [V]. *)
Definition uniform (src : list Z) (V : Z) : Prop :=
  forall (k : nat) (p : Z), src !! k = Some p -> p = V.

(** A call on a plane and a destination of exactly the stated extents
    stays inside both arrays. *)
Definition in_bounds (dstWidth dstHeight srcWidth srcHeight : Z) : Prop :=
  forall dest src : list Z,
    Z.of_nat (length src) = srcWidth * srcHeight ->
    Z.of_nat (length dest) = dstWidth * dstHeight ->
    is_Some (DownsampleChannel dest 0 dstWidth dstHeight
               src 0 srcWidth srcHeight).

(** A plane of the uniform value [V] comes out as a plane of the uniform
    value [(25 * V * (0x10000 / 25)) >> 16]. *)
Definition uniform_output (dstWidth dstHeight srcWidth srcHeight V : Z)
  : Prop :=
  forall dest : list Z,
    Z.of_nat (length dest) = dstWidth * dstHeight ->
    DownsampleChannel dest 0 dstWidth dstHeight
      (replicate (Z.to_nat (srcWidth * srcHeight)) V) 0 srcWidth srcHeight
    = Some (replicate (Z.to_nat (dstWidth * dstHeight))
              (Z.shiftr (25 * V * Z.quot 65536 25) 16)).

(** [FCam::ImageFormat] and the part of [FCam::Image] the writer uses: the
    pixel format, the extents and the bytes starting at [image( 0, 0 )]. *)
Inductive ImageFormat : Type :=
  RGB24 | RGB16 | UYVY | YUV24 | RAW | YUV420p | UNKNOWN.

Record Image : Type := MakeImage {
  type : ImageFormat;
  width : Z;
  height : Z;
  data : list Z
}.

Definition is_YUV420p (f : ImageFormat) : bool :=
  match f with YUV420p => true | _ => false end.

(** [CreateThumbnail( dest, source )]: the pixels of [dest] afterwards. *)
Definition CreateThumbnail (dest source : Image) : option Image :=
  if negb (is_YUV420p (type source)) then Some dest
  else
    let swidth := width source in
    let sheight := height source in
    let dwidth := width dest in
    let dheight := height dest in
    let csize := mul32 swidth sheight in
    let dcsize := mul32 dwidth dheight in
    (* Y *)
    match DownsampleChannel (data dest) 0 dwidth dheight
            (data source) 0 swidth sheight with
    | None => None
    | Some d1 =>
        (* U *)
        let dstdata := dcsize in
        let srcdata := csize in
        let dwidth := sar32 dwidth 1 in
        let dheight := sar32 dheight 1 in
        let swidth := sar32 swidth 1 in
        let sheight := sar32 sheight 1 in
        match DownsampleChannel d1 dstdata dwidth dheight
                (data source) srcdata swidth sheight with
        | None => None
        | Some d2 =>
            (* V *)
            let dstdata := dstdata + sar32 dcsize 2 in
            let srcdata := srcdata + sar32 csize 2 in
            match DownsampleChannel d2 dstdata dwidth dheight
                    (data source) srcdata swidth sheight with
            | None => None
            | Some d3 =>
                Some {| type := type dest; width := width dest;
                        height := height dest; data := d3 |}
            end
        end
    end.

End Thumbnail.

(** ** The C library calls the writer relies on *)

Module Stdio.

Definition dquote : string := String "034"%char EmptyString.
Definition newline : string := String "010"%char EmptyString.

Fixpoint zeros (n : nat) : string :=
  match n with
  | O => EmptyString
  | S k => String "0"%char (zeros k)
  end.

(** The conversion ["%0<w>i"]: sign, then zeros up to [w] characters, then
    the decimal digits. *)
Definition printf_0i (w : nat) (z : Z) : string :=
  let digits := pretty (Z.abs_N z) in
  if z <? 0
  then "-" +:+ zeros (w - 1 - String.length digits) +:+ digits
  else zeros (w - String.length digits) +:+ digits.

(** The conversion ["%i"]. *)
Definition printf_i (z : Z) : string := printf_0i 0 z.

(** Texts printed one after the other. *)
Definition lines (l : list string) : string :=
  fold_right String.append EmptyString l.

(** [sprintf] into a [char[128]]: the text and its terminator have to
    fit; writing past the array has no defined result. *)
Definition sprintf (text : string) : option string :=
  if (String.length text <? 128)%nat then Some text else None.

End Stdio.

(** ** Floating point

    A [float] is its IEEE 754 single-precision bit pattern.  Comparing with
    zero is decided on the pattern; the product with an integer and decimal
    printing are operations of the platform. *)

Definition float : Type := Z.

(** [f > 0.0f]: positive and not a NaN. *)
Definition float_gt_zero (f : float) : bool :=
  (0 <? f) && (f <=? 2139095040).

Class Platform : Type := {
  (** [( int )( f * n )] *)
  float_times_int : float -> Z -> Z;
  (** the conversion ["%.2f"] *)
  printf_2f : float -> string
}.

(** The platform the application runs on: single-precision arithmetic
    rounding to nearest, ties to even. *)

Module Binary32.

(** The value a bit pattern stands for. *)
Definition of_bits (f : float) : spec_float :=
  let sign := Z.testbit f 31 in
  let exponent := Z.land (Z.shiftr f 23) 255 in
  let fraction := Z.land f 8388607 in
  if exponent =? 255 then
    if fraction =? 0 then S754_infinity sign else S754_nan
  else if exponent =? 0 then
    match fraction with
    | Zpos m => S754_finite sign m (-149)
    | _ => S754_zero sign
    end
  else
    match fraction + 8388608 with
    | Zpos m => S754_finite sign m (exponent - 150)
    | _ => S754_nan
    end.

(** [( float ) n] *)
Definition of_int (n : Z) : spec_float := binary_normalize 24 128 n 0 false.

(** [( int ) x]: the value with its fraction dropped.  The conversion of
    an infinity, a NaN or a value outside [int] is undefined; 0 stands in
    for it. *)
Definition to_int (x : spec_float) : Z :=
  match x with
  | S754_finite s m e =>
      let magnitude :=
        if 0 <=? e then Zpos m * 2 ^ e else Zpos m / 2 ^ (- e) in
      let v := if s then - magnitude else magnitude in
      if (INT_MIN <=? v) && (v <=? INT_MAX) then v else 0
  | _ => 0
  end.

Definition times_int (f : float) (n : Z) : Z :=
  to_int (SFmul 24 128 (of_bits f) (of_int n)).

(** [m * 2 ^ e] in hundredths, rounded to nearest, ties to even. *)
Definition hundredths (m : positive) (e : Z) : Z :=
  if 0 <=? e then Zpos m * 100 * 2 ^ e
  else
    let d := 2 ^ (- e) in
    let q := Zpos m * 100 / d in
    let r := Zpos m * 100 mod d in
    if 2 * r <? d then q
    else if d <? 2 * r then q + 1
    else if Z.even q then q else q + 1.

Definition sign_text (s : bool) : string := if s then "-" else "".

(** The conversion ["%.2f"] of the value, which [printf] receives as a
    [double]. *)
Definition print_2f (f : float) : string :=
  match of_bits f with
  | S754_zero s => sign_text s +:+ "0.00"
  | S754_infinity s => sign_text s +:+ "inf"
  | S754_nan => "nan"
  | S754_finite s m e =>
      let h := hundredths m e in
      sign_text s +:+ pretty (Z.to_N (h / 100)) +:+ "."
      +:+ Stdio.printf_0i 2 (h mod 100)
  end.
End Binary32.

Definition binary32_platform : Platform :=
  {| float_times_int := Binary32.times_int;
     printf_2f := Binary32.print_2f |}.

(** ** Camera.h: capture parameters *)

Module Camera.

Definition FCAM_MAX_PICTURES_PER_SHOT : Z := 16.
Definition HISTOGRAM_SIZE : Z := 256.

Record ShotParams : Type := MakeShotParams {
  exposure : float;
  focus : float;
  gain : float;
  wb : float;
  flashOn : Z
}.

Record Preview : Type := MakePreview {
  evaluated : ShotParams;
  user : ShotParams;
  autoExposure : bool;
  autoFocus : bool;
  autoGain : bool;
  autoWB : bool;
  histogramData : list float
}.

Record CaptureState : Type := MakeCaptureState {
  preview : Preview;
  pendingImages : list ShotParams;
  pendingImagesCount : Z
}.

Inductive Mode : Type := Front | Back | Stereo.

(** The state a [Camera] starts with: its constructor ends with
    [memset( &m_currentState, 0, sizeof( CaptureState ) )]. *)
Definition zeroShotParams : ShotParams :=
  {| exposure := 0; focus := 0; gain := 0; wb := 0; flashOn := 0 |}.

Definition zeroState : CaptureState :=
  {| preview :=
       {| evaluated := zeroShotParams; user := zeroShotParams;
          autoExposure := false; autoFocus := false;
          autoGain := false; autoWB := false;
          histogramData := replicate (Z.to_nat HISTOGRAM_SIZE) 0 |};
     pendingImages :=
       replicate (Z.to_nat FCAM_MAX_PICTURES_PER_SHOT) zeroShotParams;
     pendingImagesCount := 0 |}.

(** Field assignments. *)
Definition set_exposure (v : float) (p : ShotParams) : ShotParams :=
  {| exposure := v; focus := focus p; gain := gain p; wb := wb p;
     flashOn := flashOn p |}.
Definition set_focus (v : float) (p : ShotParams) : ShotParams :=
  {| exposure := exposure p; focus := v; gain := gain p; wb := wb p;
     flashOn := flashOn p |}.
Definition set_gain (v : float) (p : ShotParams) : ShotParams :=
  {| exposure := exposure p; focus := focus p; gain := v; wb := wb p;
     flashOn := flashOn p |}.
Definition set_wb (v : float) (p : ShotParams) : ShotParams :=
  {| exposure := exposure p; focus := focus p; gain := gain p; wb := v;
     flashOn := flashOn p |}.

Definition set_evaluated (f : ShotParams -> ShotParams) (p : Preview)
  : Preview :=
  {| evaluated := f (evaluated p); user := user p;
     autoExposure := autoExposure p; autoFocus := autoFocus p;
     autoGain := autoGain p; autoWB := autoWB p;
     histogramData := histogramData p |}.
Definition set_user (f : ShotParams -> ShotParams) (p : Preview) : Preview :=
  {| evaluated := evaluated p; user := f (user p);
     autoExposure := autoExposure p; autoFocus := autoFocus p;
     autoGain := autoGain p; autoWB := autoWB p;
     histogramData := histogramData p |}.
Definition set_autoExposure (b : bool) (p : Preview) : Preview :=
  {| evaluated := evaluated p; user := user p;
     autoExposure := b; autoFocus := autoFocus p;
     autoGain := autoGain p; autoWB := autoWB p;
     histogramData := histogramData p |}.
Definition set_autoFocus (b : bool) (p : Preview) : Preview :=
  {| evaluated := evaluated p; user := user p;
     autoExposure := autoExposure p; autoFocus := b;
     autoGain := autoGain p; autoWB := autoWB p;
     histogramData := histogramData p |}.
Definition set_autoGain (b : bool) (p : Preview) : Preview :=
  {| evaluated := evaluated p; user := user p;
     autoExposure := autoExposure p; autoFocus := autoFocus p;
     autoGain := b; autoWB := autoWB p;
     histogramData := histogramData p |}.
Definition set_autoWB (b : bool) (p : Preview) : Preview :=
  {| evaluated := evaluated p; user := user p;
     autoExposure := autoExposure p; autoFocus := autoFocus p;
     autoGain := autoGain p; autoWB := b;
     histogramData := histogramData p |}.

Definition set_preview (f : Preview -> Preview) (s : CaptureState)
  : CaptureState :=
  {| preview := f (preview s); pendingImages := pendingImages s;
     pendingImagesCount := pendingImagesCount s |}.
Definition set_pendingImages (l : list ShotParams) (s : CaptureState)
  : CaptureState :=
  {| preview := preview s; pendingImages := l;
     pendingImagesCount := pendingImagesCount s |}.
Definition set_pendingImagesCount (n : Z) (s : CaptureState) : CaptureState :=
  {| preview := preview s; pendingImages := pendingImages s;
     pendingImagesCount := n |}.

End Camera.

(** ** The part of [FCam::Frame] the writer reads *)

Module Frame.
Record t : Type := Make {
  valid : bool;
  (** [FCam::Flash::Tags( frame ).brightness] *)
  flash_brightness : float;
  gain : float;
  exposure : Z;
  whiteBalance : Z;
  (** [FCam::Lens::Tags( frame ).focus] *)
  lens_focus : float
}.
End Frame.

(** ** AsyncImageWriter.h: FileFormatDescriptor *)

Module FileFormatDescriptor.
Inductive EFormats : Type := EFormatJPEG | EFormatTIFF | EFormatDNG | EFormatRAW.

Record t : Type := Make {
  m_format : EFormats;
  m_quality : Z
}.

Definition getFormat (ff : t) : EFormats := m_format ff.
Definition getQuality (ff : t) : Z := m_quality ff.
End FileFormatDescriptor.

(** ** AsyncImageWriter.cpp: ImageSet *)

Module ImageSet.
Import Stdio.

(** The one function ever installed as [ASYNC_IMAGE_WRITER_CALLBACK]; a
    null pointer is [None]. *)
Inductive callback : Type := OnFileSystemChanged.

(** What [dumpToFileSystem] does to the outside world, in order.  Pixel
    data is not part of the record: encoding and thumbnail pixels belong
    to [FCam::saveJPEG] and [CreateThumbnail]. *)
Inductive event : Type :=
| WriteFile (path : string) (content : string)  (* fopen "wb" ... fclose *)
| SaveFrame (path : string) (index : Z) (quality : Z)
| SaveThumbnail (path : string) (quality : Z)
| Invoke (cb : callback).

Record t : Type := Make {
  m_frames : list Frame.t;
  m_frameFormat : list FileFormatDescriptor.t;
  m_outputDirPrefix : string;
  m_fileId : Z
}.

(** [ImageSet( id, outputDirPrefix )] *)
Definition create (id : Z) (outputDirPrefix : string) : t :=
  {| m_frames := []; m_frameFormat := [];
     m_outputDirPrefix := outputDirPrefix; m_fileId := id |}.

Definition add (ff : FileFormatDescriptor.t) (frame : Frame.t) (s : t) : t :=
  {| m_frames := m_frames s ++ [frame];
     m_frameFormat := m_frameFormat s ++ [ff];
     m_outputDirPrefix := m_outputDirPrefix s;
     m_fileId := m_fileId s |}.

Definition sJpegExt : string := "jpg".

(** ["img_%04i.xml"] *)
Definition sXmlName (id : Z) : string :=
  "img_" +:+ printf_0i 4 id +:+ ".xml".

(** ["img_%04i_%02i.%s"] *)
Definition sImageName (id i : Z) (ext : string) : string :=
  "img_" +:+ printf_0i 4 id +:+ "_" +:+ printf_0i 2 i +:+ "." +:+ ext.

(** ["thumb_%04i_%02i.jpg"] *)
Definition sThumbnailName (id i : Z) : string :=
  "thumb_" +:+ printf_0i 4 id +:+ "_" +:+ printf_0i 2 i +:+ ".jpg".

Definition is_invoke (e : event) : bool :=
  match e with Invoke _ => true | _ => false end.

Definition is_write_file (e : event) : bool :=
  match e with WriteFile _ _ => true | _ => false end.

(** How often the callback is invoked in a run. *)
Definition invocations (events : list event) : nat :=
  length (List.filter is_invoke events).

(** [if ( onFileSystemChange != 0 ) onFileSystemChange();] *)
Definition notify (onFileSystemChange : option callback) : list event :=
  match onFileSystemChange with
  | Some cb => [Invoke cb]
  | None => []
  end.

(** The first loop: [icount] after the frames still to visit. *)
Fixpoint count_valid (frames : list Frame.t) (icount : Z) : Z :=
  match frames with
  | [] => icount
  | frame :: rest =>
      count_valid rest (if Frame.valid frame then add32 icount 1 else icount)
  end.

Section Dump.
Context {platform : Platform}.

(** The attributes of one [<image ... />] line in the order they are
    printed, given the two names already formatted. *)
Definition image_attributes (name thumbnail : string) (frame : Frame.t)
  : list (string * string) :=
  [ ("name", name);
    ("thumbnail", thumbnail);
    ("flash", printf_i (if float_gt_zero (Frame.flash_brightness frame)
                        then 1 else 0));
    ("gain", printf_i (float_times_int (Frame.gain frame) 100));
    ("exposure", printf_i (Frame.exposure frame));
    ("wb", printf_i (Frame.whiteBalance frame));
    ("focus", printf_2f (Frame.lens_focus frame)) ].

(** One [fprintf]: the key, an equals sign, the quoted value, a space. *)
Definition attribute (kv : string * string) : string :=
  fst kv +:+ "=" +:+ dquote +:+ snd kv +:+ dquote +:+ " ".

Definition image_element (name thumbnail : string) (frame : Frame.t)
  : string :=
  "<image "
  +:+ lines (map attribute (image_attributes name thumbnail frame))
  +:+ "/>" +:+ newline.

(** The second loop, from index [i] on: the lines it prints. *)
Fixpoint xml_images (id : Z) (frames : list Frame.t) (i : Z)
  : option string :=
  match frames with
  | [] => Some EmptyString
  | frame :: rest =>
      if Frame.valid frame then
        name ← sprintf (sImageName id i sJpegExt);
        thumbnail ← sprintf (sThumbnailName id i);
        more ← xml_images id rest (add32 i 1);
        Some (image_element name thumbnail frame +:+ more)
      else xml_images id rest (add32 i 1)
  end.

(** The [switch] on the output format: only JPEG is written. *)
Definition write_image (s : t) (i : Z) (ff : FileFormatDescriptor.t)
  : option (list event) :=
  match FileFormatDescriptor.getFormat ff with
  | FileFormatDescriptor.EFormatJPEG =>
      fname ← sprintf (sImageName (m_fileId s) i sJpegExt);
      buf ← sprintf (m_outputDirPrefix s +:+ fname);
      Some [SaveFrame buf i (FileFormatDescriptor.getQuality ff)]
  | _ => Some []
  end.

(** The third loop, from index [i] on. *)
Fixpoint data_files (s : t) (onFileSystemChange : option callback)
    (frames : list Frame.t) (i : Z) : option (list event) :=
  match frames with
  | [] => Some []
  | frame :: rest =>
      if Frame.valid frame then
        ff ← (if 0 <=? i then m_frameFormat s !! Z.to_nat i else None);
        image ← write_image s i ff;
        fname ← sprintf (sThumbnailName (m_fileId s) i);
        buf ← sprintf (m_outputDirPrefix s +:+ fname);
        more ← data_files s onFileSystemChange rest (add32 i 1);
        Some (image
              ++ [SaveThumbnail buf Thumbnail.THUMBNAIL_QUALITY]
              ++ notify onFileSystemChange
              ++ more)
      else data_files s onFileSystemChange rest (add32 i 1)
  end.

Definition xml_header : string :=
  "<?xml version=" +:+ dquote +:+ "1.0" +:+ dquote
  +:+ " encoding=" +:+ dquote +:+ "utf-8" +:+ dquote +:+ "?>" +:+ newline.

Definition imagestack_open (icount : Z) : string :=
  "<imagestack imagecount=" +:+ dquote +:+ printf_i icount +:+ dquote
  +:+ ">" +:+ newline.

Definition imagestack_close : string := "</imagestack>" +:+ newline.

(** [ImageSet::dumpToFileSystem( onFileSystemChange )].  [None]: a file
    name overran its buffer or [m_frameFormat] was read past its end.
    Opening and writing files is taken to succeed (the routine does not
    check). *)
Definition dumpToFileSystem (s : t) (onFileSystemChange : option callback)
  : option (list event) :=
  let icount := count_valid (m_frames s) 0 in
  if icount =? 0 then Some []
  else
    fname ← sprintf (sXmlName (m_fileId s));
    buf ← sprintf (m_outputDirPrefix s +:+ fname);
    images ← xml_images (m_fileId s) (m_frames s) 0;
    files ← data_files s onFileSystemChange (m_frames s) 0;
    Some ([WriteFile buf (xml_header +:+ imagestack_open icount
                          +:+ images +:+ imagestack_close)]
          ++ notify onFileSystemChange
          ++ files).

(** *** The outcome as the design document words it

    The valid frames with the positions they have in the set; one line of
    the descriptor and one group of files per valid frame. *)

Fixpoint indexed_from (i : nat) (frames : list Frame.t)
  : list (nat * Frame.t) :=
  match frames with
  | [] => []
  | frame :: rest => (i, frame) :: indexed_from (S i) rest
  end.

Definition valid_frames (s : t) : list (nat * Frame.t) :=
  List.filter (fun p => Frame.valid (snd p)) (indexed_from 0 (m_frames s)).

Definition descriptor_line (s : t) (p : nat * Frame.t) : string :=
  image_element
    (sImageName (m_fileId s) (Z.of_nat (fst p)) sJpegExt)
    (sThumbnailName (m_fileId s) (Z.of_nat (fst p)))
    (snd p).

Definition descriptor (s : t) : string :=
  xml_header
  +:+ imagestack_open (Z.of_nat (length (valid_frames s)))
  +:+ lines (map (descriptor_line s) (valid_frames s))
  +:+ imagestack_close.

Definition frame_files (s : t) (onFileSystemChange : option callback)
    (p : nat * Frame.t) : list event :=
  match m_frameFormat s !! fst p with
  | Some {| FileFormatDescriptor.m_format := FileFormatDescriptor.EFormatJPEG;
            FileFormatDescriptor.m_quality := quality |} =>
      [SaveFrame
         (m_outputDirPrefix s
          +:+ sImageName (m_fileId s) (Z.of_nat (fst p)) sJpegExt)
         (Z.of_nat (fst p)) quality]
  | _ => []
  end
  ++ [SaveThumbnail
        (m_outputDirPrefix s +:+ sThumbnailName (m_fileId s) (Z.of_nat (fst p)))
        Thumbnail.THUMBNAIL_QUALITY]
  ++ notify onFileSystemChange.

(** A set as [Camera::capture] builds it: one format per frame, an [int]
    can index the frames, and the path of every thumbnail (the longest
    name formed for a frame) fits the 128 bytes of [buf]. *)
Definition well_formed (s : t) : Prop :=
  length (m_frameFormat s) = length (m_frames s) /\
  Z.of_nat (length (m_frames s)) <= INT_MAX /\
  forall p, p ∈ valid_frames s ->
    (String.length
       (m_outputDirPrefix s +:+ sThumbnailName (m_fileId s) (Z.of_nat (fst p)))
     < 128)%nat.
End Dump.

End ImageSet.

(** ** The text of a descriptor file

    What the design document asks of the descriptor, character by
    character.  Nothing here comes from [ImageSet]: a decimal number is the
    one [pretty] prints, and a double quote and the end of a line are
    written by their character codes. *)

Module DescriptorText.

(** [text] between double quotes. *)
Definition quoted (text : string) : string :=
  String "034"%char (text +:+ String "034"%char EmptyString).

Definition end_of_line : string := String "010"%char EmptyString.

(** [z] in decimal, filled up with zeros to [w] characters; the zeros come
    after the sign. *)
Definition padded (w : nat) (z : Z) : string :=
  let sign : string := if z <? 0 then "-" else "" in
  let digits : string := pretty (Z.abs z) in
  sign
  +:+ string_of_list_ascii
        (repeat "0"%char (w - String.length sign - String.length digits))
  +:+ digits.

(** The texts of [l] one after the other. *)
Definition joined (l : list string) : string :=
  foldr String.append EmptyString l.

End DescriptorText.

(** ** ParamSetRequest.h *)

Module ParamSetRequest.

Definition PARAM_SHOT : Z := 0.
Definition PARAM_RESOLUTION : Z := 1.
Definition PARAM_BURST_SIZE : Z := 2.
Definition PARAM_OUTPUT_FORMAT : Z := 3.
Definition PARAM_VIEWER_ACTIVE : Z := 4.
Definition PARAM_OUTPUT_DIRECTORY : Z := 5.
Definition PARAM_OUTPUT_FILE_ID : Z := 6.
Definition PARAM_LUMINANCE_HISTOGRAM : Z := 7.
Definition PARAM_PREVIEW_EXPOSURE : Z := 8.
Definition PARAM_PREVIEW_FOCUS : Z := 9.
Definition PARAM_PREVIEW_GAIN : Z := 10.
Definition PARAM_PREVIEW_WB : Z := 11.
Definition PARAM_PREVIEW_AUTO_EXPOSURE_ON : Z := 12.
Definition PARAM_PREVIEW_AUTO_FOCUS_ON : Z := 13.
Definition PARAM_PREVIEW_AUTO_GAIN_ON : Z := 14.
Definition PARAM_PREVIEW_AUTO_WB_ON : Z := 15.
Definition PARAM_CAPTURE_FPS : Z := 16.
Definition PARAM_TAKE_PICTURE : Z := 17.
Definition PARAM_FOCUS_ON_TOUCH : Z := 18.
Definition PARAM_WB_ON_TOUCH : Z := 19.
Definition PARAM_SELECT_CAMERA : Z := 20.
Definition PARAM_PRIV_FS_CHANGED : Z := 100.

Definition SHOT_PARAM_EXPOSURE : nat := 0.
Definition SHOT_PARAM_FOCUS : nat := 1.
Definition SHOT_PARAM_GAIN : nat := 2.
Definition SHOT_PARAM_WB : nat := 3.
Definition SHOT_PARAM_FLASH : nat := 4.

Definition SELECT_FRONT_CAMERA : Z := 0.
Definition SELECT_BACK_CAMERA : Z := 1.
Definition SELECT_STEREO_CAMERA : Z := 2.

(** [m_dataSize] is the length of [m_data]; every copy is a deep copy, so
    a request is a value. *)
Record t : Type := Make {
  m_id : Z;
  m_data : list Z
}.

(** [ParamSetRequest( param, data, dataSize )] *)
Definition create (param : Z) (data : list Z) : t :=
  {| m_id := param; m_data := data |}.

Definition getId (r : t) : Z := m_id r.
Definition getData (r : t) : list Z := m_data r.
Definition getDataSize (r : t) : Z := Z.of_nat (length (m_data r)).

(** The four bytes of a 32-bit value in memory (little endian). *)
Definition bytes_of_word (v : Z) : list Z :=
  [Z.land v 255; Z.land (Z.shiftr v 8) 255;
   Z.land (Z.shiftr v 16) 255; Z.land (Z.shiftr v 24) 255].

(** The 32-bit pattern stored in bytes [4k .. 4k+3]; reading past the
    payload has no defined result. *)
Definition word_at (data : list Z) (k : nat) : option Z :=
  b0 ← data !! (4 * k)%nat;
  b1 ← data !! (4 * k + 1)%nat;
  b2 ← data !! (4 * k + 2)%nat;
  b3 ← data !! (4 * k + 3)%nat;
  Some (Z.lor b0 (Z.lor (Z.shiftl b1 8)
                    (Z.lor (Z.shiftl b2 16) (Z.shiftl b3 24)))).

(** [( ( int * ) m_data )[k]] *)
Definition int_at (data : list Z) (k : nat) : option Z :=
  wrap32 <$> word_at data k.

(** [( ( float * ) m_data )[k]] *)
Definition float_at (data : list Z) (k : nat) : option float :=
  word_at data k.

Definition getDataAsInt (r : t) : option Z := int_at (m_data r) 0.

(** The bytes of a string with its terminator, and back: the characters
    before the first zero byte. *)
Fixpoint bytes_of_string (s : string) : list Z :=
  match s with
  | EmptyString => [0]
  | String c rest => Z.of_N (N_of_ascii c) :: bytes_of_string rest
  end.

Fixpoint string_at (data : list Z) : option string :=
  match data with
  | [] => None
  | b :: rest =>
      if b =? 0 then Some EmptyString
      else s ← string_at rest; Some (String (ascii_of_N (Z.to_N b)) s)
  end.

End ParamSetRequest.

(** ** AsyncImageWriter.cpp: AsyncImageWriter *)

Module AsyncImageWriter.
Import Stdio.

Record t : Type := Make {
  m_outputDirPrefix : string;
  (** a null [ImageSet *] is [None] *)
  m_queue : WorkQueue.t (option ImageSet.t);
  m_onChangedCallback : option ImageSet.callback
}.

(** [AsyncImageWriter( outputDirPrefix )]: appends ['/'] unless the
    directory already ends with one.  [outputDirPrefix[slen - 1]] reads
    before the string when it is empty. *)
Definition create (outputDirPrefix : string) : option t :=
  let slen := String.length outputDirPrefix in
  match slen with
  | O => None
  | S k =>
      last ← String.get k outputDirPrefix;
      Some {| m_outputDirPrefix :=
                if Ascii.eqb last "/"%char then outputDirPrefix
                else outputDirPrefix +:+ "/";
              m_queue := WorkQueue.create;
              m_onChangedCallback := None |}
  end.

Definition setOnFileSystemChangedCallback (cb : option ImageSet.callback)
    (w : t) : t :=
  {| m_outputDirPrefix := m_outputDirPrefix w; m_queue := m_queue w;
     m_onChangedCallback := cb |}.

(** [fopen( buf, "rb" ) != 0] against the files present on storage. *)
Definition file_exists (storage : list string) (path : string) : bool :=
  bool_decide (path ∈ storage).

(** The [for ( ;; )] of [newImageSet] from [sFreeId] on: the first id whose
    descriptor does not exist.  Every failed probe names a different
    existing file, so [S (length storage)] probes are enough; the first
    argument counts the probes left. *)
Fixpoint scan (probes : nat) (storage : list string)
    (outputDirPrefix : string) (sFreeId : Z) : option Z :=
  match probes with
  | O => None
  | S k =>
      fname ← sprintf (ImageSet.sXmlName sFreeId);
      buf ← sprintf (outputDirPrefix +:+ fname);
      if file_exists storage buf
      then scan k storage outputDirPrefix (add32 sFreeId 1)
      else Some sFreeId
  end.

(** [newImageSet()]: the new set and the value of [sFreeId] afterwards. *)
Definition newImageSet (storage : list string) (sFreeId : Z) (w : t)
  : option (ImageSet.t * Z) :=
  id ← scan (S (length storage)) storage (m_outputDirPrefix w) sFreeId;
  Some (ImageSet.create id (m_outputDirPrefix w), add32 id 1).

(** [push( is )]: a null pointer is not queued. *)
Definition push (imageset : option ImageSet.t) (w : t) : t :=
  match imageset with
  | Some _ =>
      {| m_outputDirPrefix := m_outputDirPrefix w;
         m_queue := WorkQueue.produce imageset (m_queue w);
         m_onChangedCallback := m_onChangedCallback w |}
  | None => w
  end.


(** [ThreadProc] on the pointers queued so far, oldest first: every set is
    dumped in turn; a null pointer ends the thread, and so does, for this
    run, the end of the queue (where the thread waits in [consume]). *)
Fixpoint ThreadProc {platform : Platform} (queued : list (option ImageSet.t))
    (w : t) : option (list ImageSet.event) :=
  match queued with
  | [] => Some []
  | None :: _ => Some []
  | Some imageset :: rest =>
      events ← ImageSet.dumpToFileSystem imageset (m_onChangedCallback w);
      more ← ThreadProc rest w;
      Some (events ++ more)
  end.

End AsyncImageWriter.

(** ** FCamInterface.cpp: application data and the capture thread *)

Module FCamInterface.
Import ParamSetRequest.

Definition BACK_PREVIEW_IMAGE_WIDTH : Z := 960.
Definition BACK_PREVIEW_IMAGE_HEIGHT : Z := 720.
Definition FRONT_PREVIEW_IMAGE_WIDTH : Z := 960.
Definition FRONT_PREVIEW_IMAGE_HEIGHT : Z := 720.
Definition STEREO_PREVIEW_IMAGE_WIDTH : Z := 960.
Definition STEREO_PREVIEW_IMAGE_HEIGHT : Z := 720.

(** Calls that leave the native layer, in the order they are made: the
    Java notifications, the requests to the sensor, and the error log. *)
Inductive event : Type :=
| NotifyCaptureStart
| NotifyCaptureComplete
| NotifyFileSystemChange
| StopStreaming
| DrainPendingFrames
| Capture (exposure gain whiteBalance : float) (flash : bool)
| ERROR (message : string).

Inductive TouchAction : Type :=
  TOUCH_ACTION_NONE | TOUCH_ACTION_WHITE_BALANCE | TOUCH_ACTION_FOCUS.

(** A [Camera] object, as far as the dispatch code looks into it. *)
Record CameraObject : Type := MakeCamera {
  m_currentState : Camera.CaptureState;
  m_currentMode : Camera.Mode;
  m_imageWidth : Z;
  m_imageHeight : Z
}.

(** [new Camera( width, height, mode )] *)
Definition newCamera (width height : Z) (mode : Camera.Mode) : CameraObject :=
  {| m_currentState := Camera.zeroState; m_currentMode := mode;
     m_imageWidth := width; m_imageHeight := height |}.

(** [sAppData] together with the locals of [FCamAppThread] that outlive a
    request, the static [AsyncImageWriter::sFreeId], and the files on
    storage. *)
Record t : Type := Make {
  camera : CameraObject;
  previousState : Camera.CaptureState;
  isCapturing : bool;
  isViewerActive : bool;
  requestQueue : WorkQueue.t ParamSetRequest.t;
  writer : option AsyncImageWriter.t;
  sFreeId : Z;
  storage : list string;
  touchX : Z;
  touchY : Z;
  touchAction : TouchAction;
  trace : list event
}.

Definition set_state (f : Camera.CaptureState -> Camera.CaptureState)
    (st : t) : t :=
  {| camera := {| m_currentState := f (m_currentState (camera st));
                  m_currentMode := m_currentMode (camera st);
                  m_imageWidth := m_imageWidth (camera st);
                  m_imageHeight := m_imageHeight (camera st) |};
     previousState := previousState st; isCapturing := isCapturing st;
     isViewerActive := isViewerActive st; requestQueue := requestQueue st;
     writer := writer st; sFreeId := sFreeId st; storage := storage st;
     touchX := touchX st; touchY := touchY st;
     touchAction := touchAction st; trace := trace st |}.

Definition set_camera (c : CameraObject) (st : t) : t :=
  {| camera := c;
     previousState := previousState st; isCapturing := isCapturing st;
     isViewerActive := isViewerActive st; requestQueue := requestQueue st;
     writer := writer st; sFreeId := sFreeId st; storage := storage st;
     touchX := touchX st; touchY := touchY st;
     touchAction := touchAction st; trace := trace st |}.

Definition set_previousState
    (f : Camera.CaptureState -> Camera.CaptureState) (st : t) : t :=
  {| camera := camera st;
     previousState := f (previousState st); isCapturing := isCapturing st;
     isViewerActive := isViewerActive st; requestQueue := requestQueue st;
     writer := writer st; sFreeId := sFreeId st; storage := storage st;
     touchX := touchX st; touchY := touchY st;
     touchAction := touchAction st; trace := trace st |}.

Definition set_isCapturing (b : bool) (st : t) : t :=
  {| camera := camera st;
     previousState := previousState st; isCapturing := b;
     isViewerActive := isViewerActive st; requestQueue := requestQueue st;
     writer := writer st; sFreeId := sFreeId st; storage := storage st;
     touchX := touchX st; touchY := touchY st;
     touchAction := touchAction st; trace := trace st |}.

Definition set_isViewerActive (b : bool) (st : t) : t :=
  {| camera := camera st;
     previousState := previousState st; isCapturing := isCapturing st;
     isViewerActive := b; requestQueue := requestQueue st;
     writer := writer st; sFreeId := sFreeId st; storage := storage st;
     touchX := touchX st; touchY := touchY st;
     touchAction := touchAction st; trace := trace st |}.

Definition set_requestQueue (q : WorkQueue.t ParamSetRequest.t) (st : t)
  : t :=
  {| camera := camera st;
     previousState := previousState st; isCapturing := isCapturing st;
     isViewerActive := isViewerActive st; requestQueue := q;
     writer := writer st; sFreeId := sFreeId st; storage := storage st;
     touchX := touchX st; touchY := touchY st;
     touchAction := touchAction st; trace := trace st |}.

Definition set_writer (w : option AsyncImageWriter.t) (st : t) : t :=
  {| camera := camera st;
     previousState := previousState st; isCapturing := isCapturing st;
     isViewerActive := isViewerActive st; requestQueue := requestQueue st;
     writer := w; sFreeId := sFreeId st; storage := storage st;
     touchX := touchX st; touchY := touchY st;
     touchAction := touchAction st; trace := trace st |}.

Definition set_sFreeId (id : Z) (st : t) : t :=
  {| camera := camera st;
     previousState := previousState st; isCapturing := isCapturing st;
     isViewerActive := isViewerActive st; requestQueue := requestQueue st;
     writer := writer st; sFreeId := id; storage := storage st;
     touchX := touchX st; touchY := touchY st;
     touchAction := touchAction st; trace := trace st |}.

Definition set_touch (x y : Z) (a : TouchAction) (st : t) : t :=
  {| camera := camera st;
     previousState := previousState st; isCapturing := isCapturing st;
     isViewerActive := isViewerActive st; requestQueue := requestQueue st;
     writer := writer st; sFreeId := sFreeId st; storage := storage st;
     touchX := x; touchY := y; touchAction := a; trace := trace st |}.

(** Appends the calls [es] to the trace. *)
Definition emit (es : list event) (st : t) : t :=
  {| camera := camera st;
     previousState := previousState st; isCapturing := isCapturing st;
     isViewerActive := isViewerActive st; requestQueue := requestQueue st;
     writer := writer st; sFreeId := sFreeId st; storage := storage st;
     touchX := touchX st; touchY := touchY st;
     touchAction := touchAction st; trace := trace st ++ es |}.

(** *** The JNI entry points that queue requests *)

Definition setParamInt (param value : Z) (st : t) : t :=
  set_requestQueue
    (WorkQueue.produce (create param (bytes_of_word value)) (requestQueue st))
    st.

Definition setParamFloat (param : Z) (value : float) (st : t) : t :=
  set_requestQueue
    (WorkQueue.produce (create param (bytes_of_word value)) (requestQueue st))
    st.

Definition setParamString (param : Z) (value : string) (st : t) : t :=
  set_requestQueue
    (WorkQueue.produce (create param (bytes_of_string value))
       (requestQueue st))
    st.

(** [GetFloatArrayElements]: the elements one after the other. *)
Definition bytes_of_floats (value : list float) : list Z :=
  concat (map bytes_of_word value).

Definition setParamFloatArray (param : Z) (value : list float) (st : t) : t :=
  let paramId := Z.land param 65535 in
  let queue_it :=
    set_requestQueue
      (WorkQueue.produce (create param (bytes_of_floats value))
         (requestQueue st))
      st in
  if paramId =? PARAM_SHOT then
    let arraySize := Z.of_nat (length value) in
    if negb (arraySize =? 5)
    then emit [ERROR "setParamFloatArray(PARAM_SHOT): incorrect array size!"]
           st
    else queue_it
  else if (paramId =? PARAM_FOCUS_ON_TOUCH) || (paramId =? PARAM_WB_ON_TOUCH)
  then
    let arraySize := Z.of_nat (length value) in
    if negb (arraySize =? 2)
    then emit [ERROR "setParamFloatArray: incorrect array size!"] st
    else queue_it
  else emit [ERROR "setParamFloatArray: received unsupported param id!"] st.

(** *** Camera::capture (Camera.cpp) *)

Section Capture.
(** The frames the sensor hands back for a burst of shots. *)
Context (sensor_frames : list Camera.ShotParams -> list Frame.t).

(** [FileFormatDescriptor fmt( FileFormatDescriptor::EFormatJPEG, 95 )] *)
Definition capture_fmt : FileFormatDescriptor.t :=
  {| FileFormatDescriptor.m_format := FileFormatDescriptor.EFormatJPEG;
     FileFormatDescriptor.m_quality := 95 |}.

(** The shots of the burst: [pendingImages[0 .. pendingImagesCount)];
    the array has [FCAM_MAX_PICTURES_PER_SHOT] entries. *)
Definition burst (s : Camera.CaptureState)
  : option (list Camera.ShotParams) :=
  let n := Camera.pendingImagesCount s in
  if n <=? Z.of_nat (length (Camera.pendingImages s))
  then Some (take (Z.to_nat n) (Camera.pendingImages s))
  else None.

Definition shot_event (p : Camera.ShotParams) : event :=
  Capture (Camera.exposure p) (Camera.gain p) (Camera.wb p)
    (negb (Camera.flashOn p =? 0)).

(** [camera->capture( writer )] *)
Definition capture (w : AsyncImageWriter.t) (st : t) : option t :=
  let st := emit [StopStreaming; DrainPendingFrames] st in
  '(imageset, freeId) ←
    AsyncImageWriter.newImageSet (storage st) (sFreeId st) w;
  let st := set_sFreeId freeId st in
  shots ← burst (m_currentState (camera st));
  let st := emit (map shot_event shots) st in
  let imageset :=
    fold_left (fun acc frame => ImageSet.add capture_fmt frame acc)
      (sensor_frames shots) imageset in
  Some (set_writer (Some (AsyncImageWriter.push (Some imageset) w)) st).
End Capture.

(** *** The dispatch [switch] of FCamAppThread *)

Section Dispatch.
Context {platform : Platform}.
Context (sensor_frames : list Camera.ShotParams -> list Frame.t).

(** [!prevValue && prevValue ^ newValue != 0], with the grouping C++
    gives it: [!=] binds tighter than [^], and [^] tighter than [&&]. *)
Definition transition (prevValue newValue : bool) : bool :=
  negb prevValue
  && negb (Z.lxor (Z.b2z prevValue)
                  (Z.b2z (negb (Z.b2z newValue =? 0))) =? 0).

(** The four auto-enable cases share their shape; [get] and [set] pick
    the parameter, [auto] and [set_auto] its flag. *)
Definition auto_toggle
    (auto : Camera.Preview -> bool)
    (set_auto : bool -> Camera.Preview -> Camera.Preview)
    (get : Camera.ShotParams -> float)
    (set : float -> Camera.ShotParams -> Camera.ShotParams)
    (task : ParamSetRequest.t) (st : t) : option t :=
  v ← int_at (getData task) 0;
  let prevValue := auto (Camera.preview (m_currentState (camera st))) in
  let st := set_state (Camera.set_preview (set_auto (negb (v =? 0)))) st in
  let current := Camera.preview (m_currentState (camera st)) in
  if transition prevValue (auto current)
  then
    Some (set_previousState
            (Camera.set_preview
               (Camera.set_evaluated (set (get (Camera.user current)))))
            st)
  else
    let previous := Camera.preview (previousState st) in
    Some (set_state
            (Camera.set_preview
               (Camera.set_user (set (get (Camera.evaluated previous)))))
            st).

(** [new Camera] for the selected mode unless it is the current one. *)
Definition select_camera (v : Z) (c : CameraObject) : CameraObject :=
  if v =? SELECT_FRONT_CAMERA then
    match m_currentMode c with
    | Camera.Front => c
    | _ => newCamera FRONT_PREVIEW_IMAGE_WIDTH FRONT_PREVIEW_IMAGE_HEIGHT
             Camera.Front
    end
  else if v =? SELECT_BACK_CAMERA then
    match m_currentMode c with
    | Camera.Back => c
    | _ => newCamera BACK_PREVIEW_IMAGE_WIDTH BACK_PREVIEW_IMAGE_HEIGHT
             Camera.Back
    end
  else if v =? SELECT_STEREO_CAMERA then
    match m_currentMode c with
    | Camera.Stereo => c
    | _ => newCamera STEREO_PREVIEW_IMAGE_WIDTH STEREO_PREVIEW_IMAGE_HEIGHT
             Camera.Stereo
    end
  else c.

(** One pass through the body of [while ( !taskQueue.empty() )] for the
    request [task].  [None]: the request made the code read outside its
    payload or write outside [pendingImages]. *)
Definition dispatch (task : ParamSetRequest.t) (st : t) : option t :=
  let taskId := Z.land (getId task) 65535 in
  let pictureId := Z.shiftr (getId task) 16 in
  if taskId =? PARAM_SHOT then
    e ← float_at (getData task) SHOT_PARAM_EXPOSURE;
    f ← float_at (getData task) SHOT_PARAM_FOCUS;
    g ← float_at (getData task) SHOT_PARAM_GAIN;
    w ← float_at (getData task) SHOT_PARAM_WB;
    fl ← float_at (getData task) SHOT_PARAM_FLASH;
    let images := Camera.pendingImages (m_currentState (camera st)) in
    if (0 <=? pictureId) && (pictureId <? Z.of_nat (length images)) then
      Some (set_state
              (Camera.set_pendingImages
                 (<[Z.to_nat pictureId :=
                      {| Camera.exposure := e; Camera.focus := f;
                         Camera.gain := g; Camera.wb := w;
                         Camera.flashOn := Z.b2z (float_gt_zero fl) |}]>
                    images))
              st)
    else None
  else if taskId =? PARAM_PREVIEW_EXPOSURE then
    v ← float_at (getData task) 0;
    Some (set_state
            (Camera.set_preview (Camera.set_user (Camera.set_exposure v)))
            st)
  else if taskId =? PARAM_PREVIEW_FOCUS then
    v ← float_at (getData task) 0;
    Some (set_state
            (Camera.set_preview (Camera.set_user (Camera.set_focus v))) st)
  else if taskId =? PARAM_PREVIEW_GAIN then
    v ← float_at (getData task) 0;
    Some (set_state
            (Camera.set_preview (Camera.set_user (Camera.set_gain v))) st)
  else if taskId =? PARAM_PREVIEW_WB then
    v ← float_at (getData task) 0;
    Some (set_state
            (Camera.set_preview (Camera.set_user (Camera.set_wb v))) st)
  else if taskId =? PARAM_PREVIEW_AUTO_EXPOSURE_ON then
    auto_toggle Camera.autoExposure Camera.set_autoExposure
      Camera.exposure Camera.set_exposure task st
  else if taskId =? PARAM_PREVIEW_AUTO_FOCUS_ON then
    auto_toggle Camera.autoFocus Camera.set_autoFocus
      Camera.focus Camera.set_focus task st
  else if taskId =? PARAM_PREVIEW_AUTO_GAIN_ON then
    auto_toggle Camera.autoGain Camera.set_autoGain
      Camera.gain Camera.set_gain task st
  else if taskId =? PARAM_PREVIEW_AUTO_WB_ON then
    auto_toggle Camera.autoWB Camera.set_autoWB
      Camera.wb Camera.set_wb task st
  else if taskId =? PARAM_RESOLUTION then Some st
  else if taskId =? PARAM_BURST_SIZE then
    v ← int_at (getData task) 0;
    Some (set_state (Camera.set_pendingImagesCount v) st)
  else if taskId =? PARAM_OUTPUT_FORMAT then Some st
  else if taskId =? PARAM_VIEWER_ACTIVE then
    v ← int_at (getData task) 0;
    let st := set_isViewerActive (negb (v =? 0)) st in
    if negb (isViewerActive st) then Some (emit [StopStreaming] st)
    else Some st
  else if taskId =? PARAM_OUTPUT_DIRECTORY then
    match writer st with
    | None =>
        dir ← string_at (getData task);
        w ← AsyncImageWriter.create dir;
        Some (set_writer
                (Some (AsyncImageWriter.setOnFileSystemChangedCallback
                         (Some ImageSet.OnFileSystemChanged) w))
                st)
    | Some _ => Some st
    end
  else if taskId =? PARAM_OUTPUT_FILE_ID then
    v ← int_at (getData task) 0;
    Some (set_sFreeId v st)
  else if taskId =? PARAM_TAKE_PICTURE then
    match writer st with
    | Some w =>
        v ← getDataAsInt task;
        if negb (v =? 0) then
          let st := set_isCapturing true st in
          let st := emit [NotifyCaptureStart] st in
          st ← capture sensor_frames w st;
          let st := set_isCapturing false st in
          Some (emit [NotifyCaptureComplete] st)
        else Some st
    | None => Some st
    end
  else if taskId =? PARAM_PRIV_FS_CHANGED then
    v ← int_at (getData task) 0;
    if negb (v =? 0) then Some (emit [NotifyFileSystemChange] st)
    else Some st
  else if taskId =? PARAM_SELECT_CAMERA then
    v ← int_at (getData task) 0;
    Some (set_camera (select_camera v (camera st)) st)
  else if (taskId =? PARAM_FOCUS_ON_TOUCH) || (taskId =? PARAM_WB_ON_TOUCH)
  then
    x ← float_at (getData task) 0;
    y ← float_at (getData task) 1;
    Some (set_touch
            (float_times_int x (m_imageWidth (camera st)))
            (float_times_int y (m_imageHeight (camera st)))
            (if getId task =? PARAM_FOCUS_ON_TOUCH
             then TOUCH_ACTION_FOCUS else TOUCH_ACTION_WHITE_BALANCE)
            st)
  else
    Some (emit [ERROR "TaskDispatch(): received unsupported task id!"] st).

(** The [while ( !taskQueue.empty() )] loop over the local queue. *)
Fixpoint dispatch_all (taskQueue : list ParamSetRequest.t) (st : t)
  : option t :=
  match taskQueue with
  | [] => Some st
  | task :: rest => st' ← dispatch task st; dispatch_all rest st'
  end.

(** The head of one iteration of [for ( ;; )]: reset the touch
    variables, move the requests to the local queue, resolve them. *)
Definition resolve_requests (st : t) : option t :=
  let st := set_touch 0 0 TOUCH_ACTION_NONE st in
  let '(taskQueue, q) := WorkQueue.consumeAll [] (requestQueue st) in
  dispatch_all taskQueue (set_requestQueue q st).
End Dispatch.

(** The state [FCamAppThread] starts its loop in: [JNI_OnLoad] followed by
    the thread's own initialisation ([int AsyncImageWriter::sFreeId = 0]). *)
Definition initial (storage : list string) : t :=
  let camera :=
    newCamera BACK_PREVIEW_IMAGE_WIDTH BACK_PREVIEW_IMAGE_HEIGHT Camera.Back in
  {| camera := camera;
     previousState := m_currentState camera;
     isCapturing := false; isViewerActive := false;
     requestQueue := WorkQueue.create;
     writer := None; sFreeId := 0; storage := storage;
     touchX := 0; touchY := 0; touchAction := TOUCH_ACTION_NONE;
     trace := [] |}.

End FCamInterface.

(** ** Histories of calls on a triple buffer

    The producer and the consumer each call their own swap function, in
    any order. *)

Module Handoff.

Inductive swap : Type := SwapBack | SwapFront.

(** The triple buffer after one call. *)
Definition step {T : Type} (c : swap) (tb : TripleBuffer.t T)
  : TripleBuffer.t T :=
  match c with
  | SwapBack => snd (TripleBuffer.swapBackBuffer tb)
  | SwapFront => snd (TripleBuffer.swapFrontBuffer tb)
  end.

Definition run {T : Type} (calls : list swap) (tb : TripleBuffer.t T)
  : TripleBuffer.t T :=
  fold_left (fun acc c => step c acc) calls tb.

(** The three buffers in the order front, back, spare. *)
Definition buffers {T : Type} (tb : TripleBuffer.t T) : list T :=
  [TripleBuffer.m_frontBuffer tb; TripleBuffer.m_backBuffer tb;
   TripleBuffer.m_spareBuffer tb].

(** Calls on the preview buffer: the capture thread publishes a frame, the
    renderer acquires the front buffer. *)
Inductive call (frame : Type) : Type :=
| Publish (image : frame)
| Acquire.
Arguments Publish {frame} image.
Arguments Acquire {frame}.

Definition preview_step {frame : Type} (c : call frame)
    (pb : PreviewBuffer.t frame) : PreviewBuffer.t frame :=
  match c with
  | Publish image => PreviewBuffer.publish image pb
  | Acquire => snd (PreviewBuffer.acquire pb)
  end.

Definition preview_run {frame : Type} (calls : list (call frame))
    (pb : PreviewBuffer.t frame) : PreviewBuffer.t frame :=
  fold_left (fun acc c => preview_step c acc) calls pb.

(** What each [Acquire] of a history delivers, in call order. *)
Fixpoint deliveries {frame : Type} (calls : list (call frame))
    (pb : PreviewBuffer.t frame) : list (option frame) :=
  match calls with
  | [] => []
  | Publish image :: rest => deliveries rest (PreviewBuffer.publish image pb)
  | Acquire :: rest =>
      let '(delivered, pb') := PreviewBuffer.acquire pb in
      delivered :: deliveries rest pb'
  end.

(** For each [Acquire] of a history, the frame published last before it;
    [current] stands for the frame published last before the history. *)
Fixpoint newest {frame : Type} (calls : list (call frame))
    (current : option frame) : list (option frame) :=
  match calls with
  | [] => []
  | Publish image :: rest => newest rest (Some image)
  | Acquire :: rest => current :: newest rest current
  end.

(** The frame a call of the renderer would find now. *)
Definition pending {frame : Type} (pb : PreviewBuffer.t frame)
  : option frame :=
  fst (PreviewBuffer.acquire pb).

End Handoff.

(** ** FCamInterface.cpp: the preview texture

    [lockViewerTexture], [unlockViewerTexture] and the "update framebuffer"
    step of [FCamAppThread], as compiled (USE_GL_TEXTURE_UPLOAD is not
    defined).  All three run under [renderingThreadLock] or on the
    renderer's own thread, so each is one step.  A preview frame is the
    bytes of its shared buffer. *)

Module Viewer.

(** [memcpy( dest + dstoff, src + srcoff, n )]; copying outside either
    array, or a negative count, has no defined result. *)
Definition memcpy (dest : list Z) (dstoff : Z) (src : list Z) (srcoff n : Z)
  : option (list Z) :=
  if (0 <=? n) && (0 <=? dstoff) && (0 <=? srcoff)
     && (dstoff + n <=? Z.of_nat (length dest))
     && (srcoff + n <=? Z.of_nat (length src))
  then Some (take (Z.to_nat dstoff) dest
             ++ take (Z.to_nat n) (drop (Z.to_nat srcoff) src)
             ++ drop (Z.to_nat (dstoff + n)) dest)
  else None.

(** A [PreviewBuffer] with the extents it was built for. *)
Record PreviewBufferObject : Type := MakePreviewBuffer {
  m_width : Z;
  m_height : Z;
  triple : PreviewBuffer.t (list Z)
}.

(** The part of [sAppData] the three functions use, and the live GL
    textures with the buffer each one shows. *)
Record t : Type := Make {
  currentCamera : option FCamInterface.CameraObject;
  previewBuffer : option PreviewBufferObject;
  previewBufferTexId : Z;
  textures : list (Z * nat)
}.

(** [JNI_OnLoad] *)
Definition initial : t :=
  {| currentCamera := None; previewBuffer := None;
     previewBufferTexId := -1; textures := [] |}.

Section Surfaces.
(** The bytes a new shared buffer of the given extents holds. *)
Context (surface : Z -> Z -> list Z).

(** [new PreviewBuffer( width, height )] *)
Definition newPreviewBuffer (width height : Z) : PreviewBufferObject :=
  {| m_width := width; m_height := height;
     triple := PreviewBuffer.create (surface width height) |}.

(** [lockViewerTexture]; [tid] is the name [glGenTextures] hands out.
    Returns the texture id and the state after the call. *)
Definition lockViewerTexture (tid : Z) (v : t) : Z * t :=
  if 0 <=? previewBufferTexId v then (previewBufferTexId v, v)
  else
    match currentCamera v with
    | None =>
        (-1, {| currentCamera := currentCamera v;
                previewBuffer := previewBuffer v;
                previewBufferTexId := -1; textures := textures v |})
    | Some camera =>
        let width := FCamInterface.m_imageWidth camera in
        let height := FCamInterface.m_imageHeight camera in
        let pb :=
          match previewBuffer v with
          | None => newPreviewBuffer width height
          | Some pb => pb
          end in
        let pb :=
          if negb (m_width pb =? width) || negb (m_height pb =? height)
          then newPreviewBuffer width height
          else pb in
        let '(buffer, slots) :=
          TripleBuffer.swapFrontBuffer (PreviewBuffer.slots (triple pb)) in
        let texId := wrap32 tid in
        (texId,
         {| currentCamera := currentCamera v;
            previewBuffer :=
              Some {| m_width := m_width pb; m_height := m_height pb;
                      triple :=
                        {| PreviewBuffer.slots := slots;
                           PreviewBuffer.m_viewBuffers :=
                             PreviewBuffer.m_viewBuffers (triple pb) |} |};
            previewBufferTexId := texId;
            textures := textures v ++ [(tid, buffer)] |})
    end.
End Surfaces.

(** [unlockViewerTexture]: [glDeleteTextures] on the id, read as a
    [GLuint]. *)
Definition unlockViewerTexture (v : t) : t :=
  if 0 <=? previewBufferTexId v then
    {| currentCamera := currentCamera v; previewBuffer := previewBuffer v;
       previewBufferTexId := -1;
       textures :=
         List.filter (fun entry => negb (fst entry =? previewBufferTexId v))
           (textures v) |}
  else v.

(** The three [memcpy] calls of "update framebuffer": the luminance
    plane, then the two chroma planes in exchanged order. *)
Definition copy_planes (dest src : list Z) (isize : Z) : option (list Z) :=
  d1 ← memcpy dest 0 src 0 isize;
  d2 ← memcpy d1 isize src (isize + sar32 isize 2) (sar32 isize 2);
  memcpy d2 (isize + sar32 isize 2) src isize (sar32 isize 2).

(** "update framebuffer" for the captured [image]. *)
Definition update_framebuffer (image : Thumbnail.Image) (v : t) : option t :=
  match previewBuffer v with
  | None => Some v
  | Some pb =>
      if (m_width pb =? Thumbnail.width image)
         && (m_height pb =? Thumbnail.height image)
      then
        camera ← currentCamera v;
        let captureBuffer :=
          TripleBuffer.getBackBuffer (PreviewBuffer.slots (triple pb)) in
        dest ← PreviewBuffer.m_viewBuffers (triple pb) !! captureBuffer;
        let isize :=
          mul32 (FCamInterface.m_imageWidth camera)
                (FCamInterface.m_imageHeight camera) in
        filled ← copy_planes dest (Thumbnail.data image) isize;
        Some {| currentCamera := currentCamera v;
                previewBuffer :=
                  Some {| m_width := m_width pb; m_height := m_height pb;
                          triple := PreviewBuffer.publish filled (triple pb) |};
                previewBufferTexId := previewBufferTexId v;
                textures := textures v |}
      else Some v
  end.

(** [tdata->currentCamera = camera] *)
Definition set_currentCamera (camera : FCamInterface.CameraObject) (v : t)
  : t :=
  {| currentCamera := Some camera; previewBuffer := previewBuffer v;
     previewBufferTexId := previewBufferTexId v; textures := textures v |}.

(** Calls by the renderer and by the capture thread, in any order. *)
Inductive call : Type :=
| Lock (tid : Z)
| Unlock
| Update (image : Thumbnail.Image)
| SetCamera (camera : FCamInterface.CameraObject).

Definition step (surface : Z -> Z -> list Z) (c : call) (v : t) : option t :=
  match c with
  | Lock tid => Some (snd (lockViewerTexture surface tid v))
  | Unlock => Some (unlockViewerTexture v)
  | Update image => update_framebuffer image v
  | SetCamera camera => Some (set_currentCamera camera v)
  end.

Fixpoint run (surface : Z -> Z -> list Z) (calls : list call) (v : t)
  : option t :=
  match calls with
  | [] => Some v
  | c :: rest => v' ← step surface c v; run surface rest v'
  end.

(** The texture names [glGenTextures] hands out fit an [int]. *)
Definition small_names (calls : list call) : Prop :=
  Forall (fun c => match c with
                   | Lock tid => 0 <= tid <= INT_MAX
                   | _ => True
                   end) calls.

(** What every live texture shows. *)
Definition shown (v : t) : list (Z * option (list Z)) :=
  map (fun entry =>
         (fst entry,
          pb ← previewBuffer v;
          PreviewBuffer.m_viewBuffers (triple pb) !! snd entry))
      (textures v).

(** What holds of the state between any two calls: the slots of the
    preview buffer are valid and distinct, and a texture is live exactly
    while the id is cached; it shows the front buffer. *)
Definition coherent (v : t) : Prop :=
  (forall pb, previewBuffer v = Some pb ->
     PreviewBuffer.valid (triple pb) /\
     NoDup (Handoff.buffers (PreviewBuffer.slots (triple pb)))) /\
  if 0 <=? previewBufferTexId v
  then exists pb,
         previewBuffer v = Some pb /\
         textures v
         = [(previewBufferTexId v,
             TripleBuffer.getFrontBuffer (PreviewBuffer.slots (triple pb)))]
  else textures v = [].

End Viewer.

(** ** WorkQueue.h: the steps of concurrent calls

    [produce] and [consumeAll] run under [m_lock].  [consume] first passes
    the semaphore and only then takes the lock to pop the head, so calls of
    other threads can fall between its two halves. *)

Module QueueSteps.
Section Steps.
Context {T : Type}.

Inductive op : Type :=
| Produce (elem : T)
| Wait (blocking : bool)   (* [sem_wait] or [sem_trywait] of a [consume] *)
| Pop                      (* the locked part of a [consume] *)
| ConsumeAll.

(** The elements the consumers have received so far, the queue, and the
    number of consumers between their two halves; or the reason the
    history ends. *)
Inductive verdict : Type :=
| Running (received : list T) (q : WorkQueue.t T) (passed : nat)
| Suspended   (* [sem_wait] suspends the caller *)
| Corrupt.    (* [front()] of an empty [std::queue] *)

(** The first half of [consume]: [None] when the caller is suspended,
    otherwise whether the semaphore was passed, and the queue. *)
Definition wait (blocking : bool) (q : WorkQueue.t T)
  : option (bool * WorkQueue.t T) :=
  match WorkQueue.m_counterSem q with
  | O => if blocking then None else Some (false, q)
  | S n =>
      Some (true, {| WorkQueue.m_queue := WorkQueue.m_queue q;
                     WorkQueue.m_counterSem := n |})
  end.

(** The second half: [elem = m_queue.front(); m_queue.pop();]. *)
Definition pop (q : WorkQueue.t T) : option (T * WorkQueue.t T) :=
  match WorkQueue.m_queue q with
  | [] => None
  | elem :: rest =>
      Some (elem, {| WorkQueue.m_queue := rest;
                     WorkQueue.m_counterSem := WorkQueue.m_counterSem q |})
  end.

(** One step.  A [Pop] belongs to a consumer that has passed the
    semaphore; where there is none, there is no such step to take. *)
Definition step (o : op) (received : list T) (q : WorkQueue.t T)
    (passed : nat) : verdict :=
  match o with
  | Produce elem => Running received (WorkQueue.produce elem q) passed
  | Wait blocking =>
      match wait blocking q with
      | None => Suspended
      | Some (true, q') => Running received q' (S passed)
      | Some (false, q') => Running received q' passed
      end
  | Pop =>
      match passed with
      | O => Running received q passed
      | S others =>
          match pop q with
          | None => Corrupt
          | Some (elem, q') => Running (received ++ [elem]) q' others
          end
      end
  | ConsumeAll =>
      let '(queue, q') := WorkQueue.consumeAll [] q in
      Running (received ++ queue) q' passed
  end.

Fixpoint run (ops : list op) (received : list T) (q : WorkQueue.t T)
    (passed : nat) : verdict :=
  match ops with
  | [] => Running received q passed
  | o :: rest =>
      match step o received q passed with
      | Running received' q' passed' => run rest received' q' passed'
      | Suspended => Suspended
      | Corrupt => Corrupt
      end
  end.

(** The elements handed to [produce], in call order. *)
Fixpoint produced (ops : list op) : list T :=
  match ops with
  | [] => []
  | Produce elem :: rest => elem :: produced rest
  | _ :: rest => produced rest
  end.

Definition is_consumeAll (o : op) : bool :=
  match o with ConsumeAll => true | _ => false end.

Definition is_consume (o : op) : bool :=
  match o with Wait _ | Pop => true | _ => false end.

(** The consumers of one queue all use [consume], or all use
    [consumeAll]. *)
Definition one_style (ops : list op) : Prop :=
  forallb (fun o => negb (is_consumeAll o)) ops = true \/
  forallb (fun o => negb (is_consume o)) ops = true.
(** The semaphore and the consumers that have passed it account for the
    queued elements. *)
Definition accounted (q : WorkQueue.t T) (passed : nat) : Prop :=
  (WorkQueue.m_counterSem q + passed)%nat = length (WorkQueue.m_queue q).

End Steps.
Arguments op : clear implicits.
Arguments verdict : clear implicits.
End QueueSteps.

(** ** FCamInterface.cpp: reading parameters back

    [getParamInt], [getParamFloat], [getParamFloatArray] and the copy of
    the current capture state into [previousState] that ends an iteration
    of [FCamAppThread], with the mutex [previousStateLock].  The state is
    that of the running thread, whose camera is [sAppData->currentCamera]. *)

Module ParamGet.
Import ParamSetRequest.

Record t : Type := Make {
  app : FCamInterface.t;
  captureFps : float;
  (** [previousStateLock] is held *)
  previousStateLock : bool
}.

(** How a call ends: it returns, it waits for the mutex, or it reads
    outside an array. *)
Inductive outcome (A : Type) : Type :=
| Returns (value : A) (s : t)
| Waits
| Undefined.
Arguments Returns {A} value s.
Arguments Waits {A}.
Arguments Undefined {A}.

Definition pthread_mutex_lock (s : t) : option t :=
  if previousStateLock s then None
  else Some {| app := app s; captureFps := captureFps s;
               previousStateLock := true |}.

Definition pthread_mutex_unlock (s : t) : t :=
  {| app := app s; captureFps := captureFps s; previousStateLock := false |}.

(** [ERROR( ... )] *)
Definition log (message : string) (s : t) : t :=
  {| app := FCamInterface.emit [FCamInterface.ERROR message] (app s);
     captureFps := captureFps s;
     previousStateLock := previousStateLock s |}.

Definition getParamInt (param : Z) (s : t) : outcome Z :=
  match pthread_mutex_lock s with
  | None => Waits
  | Some s =>
      let previousShot := FCamInterface.previousState (app s) in
      let paramId := Z.land param 65535 in
      let '(rval, s) :=
        if paramId =? PARAM_PREVIEW_AUTO_EXPOSURE_ON then
          (Z.b2z (Camera.autoExposure (Camera.preview previousShot)), s)
        else if paramId =? PARAM_PREVIEW_AUTO_GAIN_ON then
          (Z.b2z (Camera.autoGain (Camera.preview previousShot)), s)
        else if paramId =? PARAM_PREVIEW_AUTO_WB_ON then
          (Z.b2z (Camera.autoWB (Camera.preview previousShot)), s)
        else if paramId =? PARAM_PREVIEW_AUTO_FOCUS_ON then
          (Z.b2z (Camera.autoFocus (Camera.preview previousShot)), s)
        else if paramId =? PARAM_BURST_SIZE then
          (Camera.pendingImagesCount previousShot, s)
        else if paramId =? PARAM_VIEWER_ACTIVE then
          (Z.b2z (FCamInterface.isViewerActive (app s)), s)
        else if paramId =? PARAM_TAKE_PICTURE then
          (Z.b2z (FCamInterface.isCapturing (app s)), s)
        else if paramId =? PARAM_SELECT_CAMERA then
          (match FCamInterface.m_currentMode (FCamInterface.camera (app s)) with
           | Camera.Front => SELECT_FRONT_CAMERA
           | Camera.Back => SELECT_BACK_CAMERA
           | Camera.Stereo => SELECT_STEREO_CAMERA
           end, s)
        else (-1, log ("received unsupported param id ("
                       +:+ Stdio.printf_i paramId +:+ ")!") s) in
      Returns rval (pthread_mutex_unlock s)
  end.

(** [-1.0f] *)
Definition minus_one : float := 3212836864.

(** [getParamFloat] takes no lock. *)
Definition getParamFloat (param : Z) (s : t) : float * t :=
  let previousShot := FCamInterface.previousState (app s) in
  let preview := Camera.preview previousShot in
  let paramId := Z.land param 65535 in
  if paramId =? PARAM_CAPTURE_FPS then (captureFps s, s)
  else if paramId =? PARAM_PREVIEW_EXPOSURE then
    (if Camera.autoExposure preview
     then Camera.exposure (Camera.evaluated preview)
     else Camera.exposure (Camera.user preview), s)
  else if paramId =? PARAM_PREVIEW_FOCUS then
    (if Camera.autoFocus preview
     then Camera.focus (Camera.evaluated preview)
     else Camera.focus (Camera.user preview), s)
  else if paramId =? PARAM_PREVIEW_GAIN then
    (if Camera.autoGain preview
     then Camera.gain (Camera.evaluated preview)
     else Camera.gain (Camera.user preview), s)
  else if paramId =? PARAM_PREVIEW_WB then
    (if Camera.autoWB preview
     then Camera.wb (Camera.evaluated preview)
     else Camera.wb (Camera.user preview), s)
  else (minus_one,
        log ("getParamFloat(" +:+ Stdio.printf_i paramId
             +:+ "): received unsupported param id!") s).

Section Conversion.
(** [( float ) n] for an [int] *)
Context (float_of_int : Z -> float).

(** [getParamFloatArray] on a Java array holding [value]: the array
    afterwards. *)
Definition getParamFloatArray (param : Z) (value : list float) (s : t)
  : outcome (list float) :=
  match pthread_mutex_lock s with
  | None => Waits
  | Some s =>
      let paramId := Z.land param 65535 in
      let pictureId := Z.shiftr param 16 in
      if paramId =? PARAM_SHOT then
        let arraySize := Z.of_nat (length value) in
        if negb (arraySize =? 5) then
          Returns value
            (log "getParamFloatArray(PARAM_SHOT): incorrect shot array size!"
               s)
        else
          let images :=
            Camera.pendingImages (FCamInterface.previousState (app s)) in
          match (if 0 <=? pictureId then images !! Z.to_nat pictureId
                 else None) with
          | None => Undefined
          | Some p =>
              Returns
                (<[SHOT_PARAM_FLASH := float_of_int (Camera.flashOn p)]>
                   (<[SHOT_PARAM_WB := Camera.wb p]>
                      (<[SHOT_PARAM_GAIN := Camera.gain p]>
                         (<[SHOT_PARAM_FOCUS := Camera.focus p]>
                            (<[SHOT_PARAM_EXPOSURE := Camera.exposure p]>
                               value)))))
                (pthread_mutex_unlock s)
          end
      else if paramId =? PARAM_LUMINANCE_HISTOGRAM then
        let arraySize := Z.of_nat (length value) in
        if negb (arraySize =? Camera.HISTOGRAM_SIZE) then
          Returns value
            (log ("getParamFloatArray(PARAM_LUMINANCE_HISTOGRAM): "
                  +:+ "incorrect array size!") s)
        else
          let histogramData :=
            Camera.histogramData
              (Camera.preview (FCamInterface.previousState (app s))) in
          if (Z.to_nat Camera.HISTOGRAM_SIZE <=? length histogramData)%nat
          then Returns (take (Z.to_nat Camera.HISTOGRAM_SIZE) histogramData)
                 (pthread_mutex_unlock s)
          else Undefined
      else
        Returns value
          (pthread_mutex_unlock
             (log ("getParamFloatArray(" +:+ Stdio.printf_i paramId
                   +:+ "): received unsupported param id!") s))
  end.
End Conversion.

(** "frame capture complete, copy current shot data to previous one" *)
Definition snapshot (s : t) : outcome unit :=
  match pthread_mutex_lock s with
  | None => Waits
  | Some s =>
      let current :=
        FCamInterface.m_currentState (FCamInterface.camera (app s)) in
      Returns tt
        (pthread_mutex_unlock
           {| app := FCamInterface.set_previousState (fun _ => current) (app s);
              captureFps := captureFps s;
              previousStateLock := previousStateLock s |})
  end.

(** The state the capture thread leaves after the request [task]. *)
Definition after_request {platform : Platform}
    (sensor_frames : list Camera.ShotParams -> list Frame.t)
    (task : ParamSetRequest.t) (s : t) : option t :=
  st ← FCamInterface.dispatch sensor_frames task (app s);
  Some {| app := st; captureFps := captureFps s;
          previousStateLock := previousStateLock s |}.

(** *** The rest of an iteration (lines 1169-1296)

    What the sensor and the FCam estimators hand back for the frame the
    iteration streams. *)
Record Estimates : Type := MakeEstimates {
  (** [shot.exposure] and [shot.gain] after [FCam::autoExpose] *)
  shot_exposure : float;
  shot_gain : float;
  (** [shot.whiteBalance] after [FCam::autoWhiteBalance] *)
  shot_whiteBalance : float;
  (** [!camera->m_autoFocus->idle()] *)
  focusing : bool;
  (** [frame["lens.focus"]] *)
  lens_focus : float;
  (** the 256 entries the two histogram loops write *)
  histogram : list float
}.

(** "update param estimates" and "update histogram data": the writes to
    [camera->m_currentState]. *)
Definition update_estimates (m : Estimates) (c : Camera.CaptureState)
  : Camera.CaptureState :=
  let p := Camera.preview c in
  let p :=
    if Camera.autoExposure p || Camera.autoGain p
    then Camera.set_evaluated
           (fun e => Camera.set_gain (shot_gain m)
                       (Camera.set_exposure (shot_exposure m) e)) p
    else p in
  let p :=
    if Camera.autoWB p
    then Camera.set_evaluated (Camera.set_wb (shot_whiteBalance m)) p
    else p in
  let p :=
    if focusing m
    then Camera.set_evaluated (Camera.set_focus (lens_focus m)) p
    else p in
  {| Camera.preview :=
       {| Camera.evaluated := Camera.evaluated p; Camera.user := Camera.user p;
          Camera.autoExposure := Camera.autoExposure p;
          Camera.autoFocus := Camera.autoFocus p;
          Camera.autoGain := Camera.autoGain p;
          Camera.autoWB := Camera.autoWB p;
          Camera.histogramData := histogram m |};
     Camera.pendingImages := Camera.pendingImages c;
     Camera.pendingImagesCount := Camera.pendingImagesCount c |}.

(** From [if ( !tdata->isViewerActive ) continue;] to the copy of the
    state.  With the viewer inactive the iteration ends at once, without
    the copy.  The preview buffer is the part of [Viewer]; the frame rate
    statistics that follow the copy are left out. *)
Definition finish_iteration (m : Estimates) (s : t) : outcome unit :=
  if negb (FCamInterface.isViewerActive (app s)) then Returns tt s
  else
    snapshot {| app := FCamInterface.set_state (update_estimates m) (app s);
                captureFps := captureFps s;
                previousStateLock := previousStateLock s |}.

End ParamGet.

(** ** The calls of the capture thread around a capture

    Reads a run of calls from left to right.  [announced]: Java has been
    told that a capture started and not yet that it completed.  [None]: a
    notification came out of turn, or a shot was handed to the sensor
    outside a capture. *)
Fixpoint capture_brackets (announced : bool)
    (calls : list FCamInterface.event) : option bool :=
  match calls with
  | [] => Some announced
  | FCamInterface.NotifyCaptureStart :: rest =>
      if announced then None else capture_brackets true rest
  | FCamInterface.NotifyCaptureComplete :: rest =>
      if announced then capture_brackets false rest else None
  | FCamInterface.Capture _ _ _ _ :: rest =>
      if announced then capture_brackets true rest else None
  | _ :: rest => capture_brackets announced rest
  end.

(** ** FCamInterface.cpp: the colour of a touched patch *)

Module TouchPatch.

Definition TOUCH_PATCH_SIZE : Z := 15.

(** [for ( x = 0; x < patchSize; x++ ) average += idata[x];] with [n]
    iterations left; [idata] points [base] bytes into the frame. *)
Fixpoint patch_row (frame : list Z) (base : Z) (n : nat) (x average : Z)
  : option Z :=
  match n with
  | O => Some average
  | S n' =>
      p ← load frame base x;
      patch_row frame base n' (add32 x 1) (add32 average p)
  end.

(** The loop over [y] with [n] iterations left: a row, then
    [idata += rowStride]. *)
Fixpoint patch_rows (frame : list Z) (rowStride patchSize : Z) (n : nat)
    (base average : Z) : option Z :=
  match n with
  | O => Some average
  | S n' =>
      average' ← patch_row frame base (Z.to_nat patchSize) 0 average;
      patch_rows frame rowStride patchSize n' (base + rowStride) average'
  end.

(** [GetChannelPatchAverage( idata, rowStride, patchSize )] *)
Definition GetChannelPatchAverage (frame : list Z) (base : Z)
    (rowStride patchSize : Z) : option Z :=
  average ← patch_rows frame rowStride patchSize (Z.to_nat patchSize) base 0;
  div32 average (mul32 patchSize patchSize).

Section Estimate.
(** [GetColorTemparatureYCbCr( currentTemp, y, cb, cr )] of Utils.cpp. *)
Context (GetColorTemparatureYCbCr : Z -> Z -> Z -> Z -> Z).

(** [GetLocalColorTemparature( currentTemp, idata, tx, ty, width, height )]
    on a frame whose bytes start at [idata]. *)
Definition GetLocalColorTemparature (currentTemp : Z) (idata : list Z)
    (tx ty width height : Z) : option Z :=
  let half := sar32 TOUCH_PATCH_SIZE 1 in
  let tx := if tx <? half then half else tx in
  let ty := if ty <? half then half else ty in
  let tx := if sub32 width half <=? tx
            then sub32 (sub32 width half) 1 else tx in
  let ty := if sub32 height half <=? ty
            then sub32 (sub32 height half) 1 else ty in
  let offset :=
    sub32 (add32 (mul32 width (sub32 ty half)) tx) half in
  y ← GetChannelPatchAverage idata offset width TOUCH_PATCH_SIZE;
  let quarter := sar32 TOUCH_PATCH_SIZE 2 in
  let offset :=
    sub32 (add32 (mul32 (sar32 width 1) (sub32 (sar32 ty 1) quarter))
                 (sar32 tx 1))
          quarter in
  let isize := mul32 width height in
  cb ← GetChannelPatchAverage idata (isize + offset) (sar32 width 1)
         (sar32 TOUCH_PATCH_SIZE 1);
  cr ← GetChannelPatchAverage idata (isize + sar32 isize 2 + offset)
         (sar32 width 1) (sar32 TOUCH_PATCH_SIZE 1);
  Some (GetColorTemparatureYCbCr currentTemp y cb cr).
End Estimate.

(** Every byte of the frame is an [unsigned char]. *)
Definition bytes (frame : list Z) : Prop :=
  forall (k : nat) (p : Z), frame !! k = Some p -> 0 <= p <= 255.

End TouchPatch.

(** ** HPT.h: Timer

    The clock is read by [gettimeofday]; every call below takes the reading
    as an argument.  The fields of a reading are [long]s, 32 bits wide on
    the target; the conversion of their differences to milliseconds is
    floating-point arithmetic of the platform. *)

Module Timer.

Record timeval : Type := MakeTimeval {
  tv_sec : Z;
  tv_usec : Z
}.

(** [m_timeStampStack] is a [std::queue]: its front first. *)
Record t : Type := Make {
  m_startup : timeval;
  m_timeStampStack : list timeval
}.

(** [Timer( void )] *)
Definition create (now : timeval) : t :=
  {| m_startup := now; m_timeStampStack := [] |}.

Definition tic (now : timeval) (timer : t) : t :=
  {| m_startup := m_startup timer;
     m_timeStampStack := m_timeStampStack timer ++ [now] |}.

Section Milliseconds.
Context {double : Type}.
(** [seconds * 1000.0 + microseconds * 0.001] *)
Context (milliseconds : Z -> Z -> double).

(** [toc]: the value returned and the timer afterwards.  [start] is the
    front of the queue as it is when [toc] is entered; [front()] of an
    empty queue has no defined result. *)
Definition toc (now : timeval) (timer : t) : option (double * t) :=
  match m_timeStampStack timer with
  | [] => None
  | start :: rest =>
      Some (milliseconds (sub32 (tv_sec now) (tv_sec start))
                         (sub32 (tv_usec now) (tv_usec start)),
            {| m_startup := m_startup timer; m_timeStampStack := rest |})
  end.

Definition get (now : timeval) (timer : t) : double :=
  milliseconds (sub32 (tv_sec now) (tv_sec (m_startup timer)))
               (sub32 (tv_usec now) (tv_usec (m_startup timer))).

(** Calls of [toc] at the readings [ends], one after the other: the
    values returned. *)
Fixpoint tocs (ends : list timeval) (timer : t) : option (list double * t) :=
  match ends with
  | [] => Some ([], timer)
  | now :: later =>
      '(elapsed, timer') ← toc now timer;
      '(more, timer'') ← tocs later timer';
      Some (elapsed :: more, timer'')
  end.
End Milliseconds.

Definition tics (starts : list timeval) (timer : t) : t :=
  fold_left (fun acc now => tic now acc) starts timer.

End Timer.

(** ** Inputs for worked examples *)

(** A sensor that delivers every shot of a burst as a valid frame taken
    with the parameters asked for; the flash fires at full brightness. *)
Definition example_sensor (shots : list Camera.ShotParams) : list Frame.t :=
  map (fun p =>
         {| Frame.valid := true;
            Frame.flash_brightness :=
              if Camera.flashOn p =? 0 then 0 else 1065353216;
            Frame.gain := Camera.gain p;
            Frame.exposure := Binary32.times_int (Camera.exposure p) 1;
            Frame.whiteBalance := Binary32.times_int (Camera.wb p) 1;
            Frame.lens_focus := Camera.focus p |})
      shots.

(** A set of three frames whose second frame is not valid, with file id 7
    and output directory [/tmp/x/]. *)
Definition example_frame (valid : bool) (brightness : float) : Frame.t :=
  {| Frame.valid := valid; Frame.flash_brightness := brightness;
     Frame.gain := 1065353216; Frame.exposure := 10000;
     Frame.whiteBalance := 5500; Frame.lens_focus := 1084227584 |}.

Definition example_set : ImageSet.t :=
  ImageSet.add FCamInterface.capture_fmt (example_frame true 1065353216)
    (ImageSet.add FCamInterface.capture_fmt (example_frame false 0)
       (ImageSet.add FCamInterface.capture_fmt (example_frame true 0)
          (ImageSet.create 7 "/tmp/x/"))).

(** The requests of the end-to-end scenario of the design document, as
    the Java side queues them: output directory [/tmp/x], a burst of two
    shots (exposure 10000, focus 5.0, gain 1.0, white balance 5500; flash
    off, then on), take picture. *)
Definition scenario : FCamInterface.t :=
  FCamInterface.setParamInt ParamSetRequest.PARAM_TAKE_PICTURE 1
    (FCamInterface.setParamFloatArray
       (Z.lor ParamSetRequest.PARAM_SHOT (Z.shiftl 1 16))
       [1176256512; 1084227584; 1065353216; 1168891904; 1065353216]
       (FCamInterface.setParamFloatArray ParamSetRequest.PARAM_SHOT
          [1176256512; 1084227584; 1065353216; 1168891904; 0]
          (FCamInterface.setParamInt ParamSetRequest.PARAM_BURST_SIZE 2
             (FCamInterface.setParamString
                ParamSetRequest.PARAM_OUTPUT_DIRECTORY "/tmp/x"
                (FCamInterface.initial []))))).

(** The paths of the descriptors written in a run, in order. *)
Definition descriptors_written (events : list ImageSet.event) : list string :=
  flat_map (fun e => match e with
                     | ImageSet.WriteFile path _ => [path]
                     | _ => []
                     end) events.

(** [example_set] under another file id. *)
Definition example_set_numbered (id : Z) : ImageSet.t :=
  {| ImageSet.m_frames := ImageSet.m_frames example_set;
     ImageSet.m_frameFormat := ImageSet.m_frameFormat example_set;
     ImageSet.m_outputDirPrefix := ImageSet.m_outputDirPrefix example_set;
     ImageSet.m_fileId := id |}.

(** What the writer thread does with the queue the scenario leaves. *)
Definition scenario_events : option (list ImageSet.event) :=
  st ← FCamInterface.resolve_requests (platform:=binary32_platform)
         example_sensor scenario;
  w ← FCamInterface.writer st;
  AsyncImageWriter.ThreadProc (platform:=binary32_platform)
    (WorkQueue.m_queue (AsyncImageWriter.m_queue w)) w.

(** The attributes of the descriptors written in a run. *)
Definition scenario_attributes : option (list (list (string * string))) :=
  st ← FCamInterface.resolve_requests (platform:=binary32_platform)
         example_sensor scenario;
  w ← FCamInterface.writer st;
  Some (flat_map
          (fun queued =>
             match queued with
             | Some s =>
                 map (fun p =>
                        ImageSet.image_attributes (platform:=binary32_platform)
                          (ImageSet.sImageName (ImageSet.m_fileId s)
                             (Z.of_nat (fst p)) ImageSet.sJpegExt)
                          (ImageSet.sThumbnailName (ImageSet.m_fileId s)
                             (Z.of_nat (fst p)))
                          (snd p))
                   (ImageSet.valid_frames s)
             | None => []
             end)
          (WorkQueue.m_queue (AsyncImageWriter.m_queue w))).

(** A camera of 2 by 2 pixels, a captured frame for it, and a history on
    its preview texture: the renderer locks, the capture thread delivers
    the frame, the renderer unlocks and locks again. *)
Definition example_surface (width height : Z) : list Z :=
  replicate (Z.to_nat (width * height * 3 / 2)) 0.

Definition example_preview_frame : Thumbnail.Image :=
  {| Thumbnail.type := Thumbnail.YUV420p;
     Thumbnail.width := 2; Thumbnail.height := 2;
     Thumbnail.data := [11; 12; 13; 14; 50; 60] |}.

Definition example_viewer_calls : list Viewer.call :=
  [Viewer.SetCamera (FCamInterface.newCamera 2 2 Camera.Back);
   Viewer.Lock 7;
   Viewer.Update example_preview_frame;
   Viewer.Unlock;
   Viewer.Lock 8].

Definition example_viewer : Viewer.t :=
  {| Viewer.currentCamera := Some (FCamInterface.newCamera 2 2 Camera.Back);
     Viewer.previewBuffer :=
       Some {| Viewer.m_width := 2; Viewer.m_height := 2;
               Viewer.triple :=
                 {| PreviewBuffer.slots :=
                      {| TripleBuffer.m_frontBuffer := 0%nat;
                         TripleBuffer.m_backBuffer := 2%nat;
                         TripleBuffer.m_spareBuffer := 1%nat;
                         TripleBuffer.m_updateFrontBuffer := false |};
                    PreviewBuffer.m_viewBuffers :=
                      [[11; 12; 13; 14; 60; 50]; [0; 0; 0; 0; 0; 0];
                       [0; 0; 0; 0; 0; 0]] |} |};
     Viewer.previewBufferTexId := 8;
     Viewer.textures := [(8, 0%nat)] |}.

(** A writer for the directory [/tmp/x] with the callback installed, and a
    capture thread armed for a burst of two shots with that writer. *)
Definition example_writer : AsyncImageWriter.t :=
  {| AsyncImageWriter.m_outputDirPrefix := "/tmp/x/";
     AsyncImageWriter.m_queue := WorkQueue.create;
     AsyncImageWriter.m_onChangedCallback :=
       Some ImageSet.OnFileSystemChanged |}.

Definition example_armed : FCamInterface.t :=
  FCamInterface.set_writer (Some example_writer)
    (FCamInterface.set_state (Camera.set_pendingImagesCount 2)
       (FCamInterface.initial [])).

(** A frame of 10 by 10 pixels and a thumbnail of 2 by 2 pixels, each
    with its three planes. *)
Definition example_source : Thumbnail.Image :=
  {| Thumbnail.type := Thumbnail.YUV420p;
     Thumbnail.width := 10; Thumbnail.height := 10;
     Thumbnail.data := replicate (Z.to_nat 150) 90 |}.

Definition example_thumbnail : Thumbnail.Image :=
  {| Thumbnail.type := Thumbnail.YUV420p;
     Thumbnail.width := 2; Thumbnail.height := 2;
     Thumbnail.data := [0; 0; 0; 0; 0; 0] |}.

(** A capture thread with automatic exposure on, whose previous frame was
    evaluated at exposure 10000.0 while the user exposure is still 0.0;
    and one with automatic exposure off, whose user has asked for exposure
    5.0 while the previous frame was evaluated at 0.0. *)
Definition example_auto_on : FCamInterface.t :=
  FCamInterface.set_previousState
    (Camera.set_preview
       (Camera.set_evaluated (Camera.set_exposure 1176256512)))
    (FCamInterface.set_state
       (Camera.set_preview (Camera.set_autoExposure true))
       (FCamInterface.initial [])).

Definition example_manual : FCamInterface.t :=
  FCamInterface.set_state
    (Camera.set_preview (Camera.set_user (Camera.set_exposure 1084227584)))
    (FCamInterface.initial []).

(** A running application whose viewer is active (or not) and whose
    automatic exposure is on (or not), nobody holding
    [previousStateLock]; and what the estimators return for a frame:
    exposure 20000.0, gain 2.0, white balance 5500.0, the lens at rest. *)
Definition example_app (viewer autoExposure : bool) : ParamGet.t :=
  {| ParamGet.app :=
       FCamInterface.set_isViewerActive viewer
         (FCamInterface.set_state
            (Camera.set_preview (Camera.set_autoExposure autoExposure))
            (FCamInterface.initial []));
     ParamGet.captureFps := 1106247680;
     ParamGet.previousStateLock := false |}.

Definition example_estimates : ParamGet.Estimates :=
  {| ParamGet.shot_exposure := 1184645120;
     ParamGet.shot_gain := 1073741824;
     ParamGet.shot_whiteBalance := 1168891904;
     ParamGet.focusing := false;
     ParamGet.lens_focus := 0;
     ParamGet.histogram := replicate 256%nat 0 |}.

(* ====================================================================== *)
(** * Part II: properties                                                  *)
(* ====================================================================== *)

(** ** TripleBuffer *)

Section TripleBufferFacts.
Context {T : Type}.
Import TripleBuffer.

Lemma swapBack_times_last (n : nat) (tb : t T) :
  swapBack_times (S n) tb = snd (swapBackBuffer (swapBack_times n tb)).
Proof.
  revert tb. induction n as [|n IH]; intros tb; [reflexivity|].
  change (swapBack_times (S (S n)) tb)
    with (swapBack_times (S n) (snd (swapBackBuffer tb))).
  rewrite IH. reflexivity.
Qed.

(** After a [swapBackBuffer] the spare slot holds the buffer that was just
    filled and an update is pending. *)
Lemma swapBackBuffer_hands_over (tb : t T) :
  m_spareBuffer (snd (swapBackBuffer tb)) = getBackBuffer tb /\
  m_updateFrontBuffer (snd (swapBackBuffer tb)) = true /\
  m_frontBuffer (snd (swapBackBuffer tb)) = m_frontBuffer tb.
Proof. repeat split. Qed.

(** A second call without a producer in between changes nothing. *)
Lemma swapFrontBuffer_settled (tb : t T) :
  m_updateFrontBuffer tb = false ->
  forall n, swapFront_times n tb = (replicate n (m_frontBuffer tb), tb).
Proof.
  intros Hflag n. induction n as [|n IH]; [reflexivity|].
  cbn [swapFront_times]. unfold swapFrontBuffer at 1. rewrite Hflag, IH.
  reflexivity.
Qed.

Lemma swapFront_times_pending (tb : t T) (n : nat) :
  m_updateFrontBuffer tb = true ->
  fst (swapFront_times (S n) tb) = replicate (S n) (m_spareBuffer tb).
Proof.
  intros Hflag. cbn [swapFront_times]. unfold swapFrontBuffer at 1.
  rewrite Hflag. rewrite swapFrontBuffer_settled by reflexivity.
  reflexivity.
Qed.

(** The producer alternates between two slots: the buffer it fills for
    the third call is the one it filled for the first, whose data is
    thereby replaced. *)
Lemma swapBackBuffer_recycles (tb : t T) :
  getBackBuffer (swapBack_times 2 tb) = getBackBuffer tb.
Proof. reflexivity. Qed.
End TripleBufferFacts.

Section PreviewBufferFacts.
Context {frame : Type}.
Import PreviewBuffer.

Lemma publish_valid (image : frame) (pb : t frame) :
  valid pb -> valid (publish image pb).
Proof.
  unfold valid, publish. cbn. rewrite length_insert. tauto.
Qed.

Lemma publish_all_valid (images : list frame) (pb : t frame) :
  valid pb -> valid (publish_all images pb).
Proof.
  revert pb. induction images as [|image images IH]; intros pb Hv; [exact Hv|].
  apply IH, publish_valid, Hv.
Qed.

Lemma publish_all_snoc (images : list frame) (image : frame) (pb : t frame) :
  publish_all (images ++ [image]) pb = publish image (publish_all images pb).
Proof. unfold publish_all. rewrite fold_left_app. reflexivity. Qed.

(** The slots after publishing follow the triple buffer alone. *)
Lemma publish_all_slots (images : list frame) (pb : t frame) :
  slots (publish_all images pb)
  = TripleBuffer.swapBack_times (length images) (slots pb).
Proof.
  revert pb. induction images as [|image images IH]; intros pb; [reflexivity|].
  cbn [length TripleBuffer.swapBack_times].
  change (publish_all (image :: images) pb)
    with (publish_all images (publish image pb)).
  rewrite IH. reflexivity.
Qed.

(** Right after a frame is published the spare buffer holds it. *)
Lemma publish_spare (image : frame) (pb : t frame) :
  valid pb ->
  m_viewBuffers (publish image pb)
    !! TripleBuffer.m_spareBuffer (slots (publish image pb)) = Some image.
Proof.
  intros (_ & Hback & _). unfold publish. cbn.
  apply list_lookup_insert_eq, Hback.
Qed.

Lemma acquire_times_settled (pb : t frame) :
  TripleBuffer.m_updateFrontBuffer (slots pb) = false ->
  forall n,
    acquire_times n pb
    = (replicate n (m_viewBuffers pb !! TripleBuffer.m_frontBuffer (slots pb)),
       pb).
Proof.
  intros Hflag n. induction n as [|n IH]; [reflexivity|].
  cbn [acquire_times]. unfold acquire at 1.
  unfold TripleBuffer.swapFrontBuffer. rewrite Hflag.
  destruct pb as [s bufs]. cbn in *. rewrite IH. reflexivity.
Qed.

Lemma acquire_times_pending (pb : t frame) (n : nat) :
  TripleBuffer.m_updateFrontBuffer (slots pb) = true ->
  fst (acquire_times (S n) pb)
  = replicate (S n)
      (m_viewBuffers pb !! TripleBuffer.m_spareBuffer (slots pb)).
Proof.
  intros Hflag. cbn [acquire_times]. unfold acquire at 1.
  unfold TripleBuffer.swapFrontBuffer. rewrite Hflag.
  rewrite acquire_times_settled by reflexivity. reflexivity.
Qed.
End PreviewBufferFacts.

Section TripleBufferParity.
Context {T : Type}.
Import TripleBuffer.

(** The producer alternates between its two slots; the front slot and the
    buffer in it are out of its reach. *)
Lemma swapBack_times_slots (n : nat) (tb : t T) :
  m_frontBuffer (swapBack_times n tb) = m_frontBuffer tb /\
  m_backBuffer (swapBack_times n tb)
  = (if Nat.even n then m_backBuffer tb else m_spareBuffer tb) /\
  m_spareBuffer (swapBack_times n tb)
  = (if Nat.even n then m_spareBuffer tb else m_backBuffer tb).
Proof.
  induction n as [|n IH]; [repeat split|].
  rewrite swapBack_times_last. destruct IH as (Hf & Hb & Hs).
  rewrite Nat.even_succ, <- Nat.negb_even.
  cbn [swapBackBuffer snd m_frontBuffer m_backBuffer m_spareBuffer].
  rewrite Hf, Hb, Hs. destruct (Nat.even n); repeat split.
Qed.

Lemma filled_at_parity (k : nat) (tb : t T) :
  filled_at k tb
  = (if Nat.even (k - 1) then m_backBuffer tb else m_spareBuffer tb).
Proof. unfold filled_at, getBackBuffer. apply swapBack_times_slots. Qed.

(** Once the producer has called, the consumer gets the buffer of the
    last call, however often it asks. *)
Lemma swapFront_times_after_swapBack (N calls : nat) (tb : t T) :
  (1 <= N)%nat ->
  fst (swapFront_times (S calls) (swapBack_times N tb))
  = replicate (S calls) (filled_at N tb).
Proof.
  intros HN. destruct N as [|n]; [lia|].
  rewrite swapFront_times_pending
    by (rewrite swapBack_times_last; reflexivity).
  rewrite swapBack_times_last. unfold filled_at.
  replace (S n - 1)%nat with n by lia. reflexivity.
Qed.

Lemma filled_at_same (N k : nat) (tb : t T) :
  (1 <= k <= N)%nat -> Nat.even (N - k) = true ->
  filled_at k tb = filled_at N tb.
Proof.
  intros Hk Heven. rewrite !filled_at_parity.
  replace (N - 1)%nat with ((k - 1) + (N - k))%nat by lia.
  rewrite Nat.even_add, Heven. destruct (Nat.even (k - 1)); reflexivity.
Qed.

Lemma filled_at_other (N k : nat) (tb : t T) :
  m_backBuffer tb <> m_spareBuffer tb ->
  (1 <= k <= N)%nat -> Nat.odd (N - k) = true ->
  filled_at k tb <> filled_at N tb.
Proof.
  intros Hne Hk Hodd. rewrite !filled_at_parity.
  replace (N - 1)%nat with ((k - 1) + (N - k))%nat by lia.
  rewrite Nat.even_add, <- (Nat.negb_odd (N - k)), Hodd.
  destruct (Nat.even (k - 1)); cbn; congruence.
Qed.
End TripleBufferParity.

(** C1.  [swapFrontBuffer] exchanges spare and front and clears the flag
    when an update is pending, and otherwise returns the front buffer and
    leaves the object alone.  After [N >= 1] calls of [swapBackBuffer] in a
    row every following [swapFrontBuffer] returns the buffer that was the
    back buffer at the [N]th of them.  The producer alternates between two
    buffers: when these are distinct, the buffer returned is also the one
    filled for the calls [N - 2], [N - 4], ..., and it is none of those
    filled for the calls [N - 1], [N - 3], ...; so for [N <= 2] no buffer
    filled earlier is ever returned.  What is never delivered, for any
    [N], is earlier data: when the capture thread publishes [N - 1] frames
    and then [newest] into the preview buffer, every following call by the
    renderer delivers [newest] and no older frame that differs from it. *)
Theorem swapFrontBuffer_newest_wins
    (T frame : Type) (tb : TripleBuffer.t T) (pb : PreviewBuffer.t frame)
    (N : nat) (older : list frame) (newest : frame) :
  (1 <= N)%nat ->
  length older = (N - 1)%nat ->
  PreviewBuffer.valid pb ->
  (TripleBuffer.m_updateFrontBuffer tb = true ->
   TripleBuffer.swapFrontBuffer tb
   = (TripleBuffer.m_spareBuffer tb,
      {| TripleBuffer.m_frontBuffer := TripleBuffer.m_spareBuffer tb;
         TripleBuffer.m_backBuffer := TripleBuffer.m_backBuffer tb;
         TripleBuffer.m_spareBuffer := TripleBuffer.m_frontBuffer tb;
         TripleBuffer.m_updateFrontBuffer := false |})) /\
  (TripleBuffer.m_updateFrontBuffer tb = false ->
   TripleBuffer.swapFrontBuffer tb = (TripleBuffer.m_frontBuffer tb, tb)) /\
  fst (TripleBuffer.swapFrontBuffer (TripleBuffer.swapBack_times N tb))
  = TripleBuffer.getBackBuffer (TripleBuffer.swapBack_times (N - 1) tb) /\
  (forall calls : nat,
     fst (TripleBuffer.swapFront_times (S calls)
            (TripleBuffer.swapBack_times N tb))
     = replicate (S calls) (TripleBuffer.filled_at N tb)) /\
  (forall k : nat,
     (1 <= k < N)%nat -> Nat.even (N - k) = true ->
     TripleBuffer.filled_at k tb = TripleBuffer.filled_at N tb) /\
  (TripleBuffer.m_backBuffer tb <> TripleBuffer.m_spareBuffer tb ->
   forall calls k : nat,
     (1 <= k < N)%nat -> Nat.odd (N - k) = true ->
     TripleBuffer.filled_at k tb
     ∉ fst (TripleBuffer.swapFront_times calls
              (TripleBuffer.swapBack_times N tb))) /\
  (TripleBuffer.m_backBuffer tb <> TripleBuffer.m_spareBuffer tb ->
   (N <= 2)%nat -> TripleBuffer.earlier_never_returned N tb) /\
  (forall calls : nat,
     fst (PreviewBuffer.acquire_times (S calls)
            (PreviewBuffer.publish_all (older ++ [newest]) pb))
     = replicate (S calls) (Some newest)) /\
  (forall (calls : nat) (stale : frame),
     stale ∈ older -> stale <> newest ->
     Some stale
     ∉ fst (PreviewBuffer.acquire_times calls
              (PreviewBuffer.publish_all (older ++ [newest]) pb))).
Proof.
  intros HN Hlen Hvalid.
  assert (Hdeliver : forall calls : nat,
    fst (PreviewBuffer.acquire_times (S calls)
           (PreviewBuffer.publish_all (older ++ [newest]) pb))
    = replicate (S calls) (Some newest)).
  { intros calls. rewrite publish_all_snoc.
    rewrite acquire_times_pending by reflexivity.
    rewrite publish_spare by (apply publish_all_valid, Hvalid).
    reflexivity. }
  assert (Hother :
    TripleBuffer.m_backBuffer tb <> TripleBuffer.m_spareBuffer tb ->
    forall calls k : nat,
      (1 <= k < N)%nat -> Nat.odd (N - k) = true ->
      TripleBuffer.filled_at k tb
      ∉ fst (TripleBuffer.swapFront_times calls
               (TripleBuffer.swapBack_times N tb))).
  { intros Hdistinct calls k Hk Hodd Hin. destruct calls as [|calls].
    - cbn in Hin. inversion Hin.
    - rewrite swapFront_times_after_swapBack in Hin by exact HN.
      apply elem_of_replicate in Hin as [Heq _].
      exact (filled_at_other N k tb Hdistinct ltac:(lia) Hodd Heq). }
  split; [|split; [|split; [|split; [|split; [|split; [|split; [|split]]]]]]].
  - intros Hflag. unfold TripleBuffer.swapFrontBuffer. rewrite Hflag.
    reflexivity.
  - intros Hflag. unfold TripleBuffer.swapFrontBuffer. rewrite Hflag.
    reflexivity.
  - destruct N as [|n]; [lia|].
    replace (S n - 1)%nat with n by lia.
    rewrite swapBack_times_last. reflexivity.
  - intros calls. apply swapFront_times_after_swapBack, HN.
  - intros k Hk Heven. apply filled_at_same; [lia | exact Heven].
  - exact Hother.
  - intros Hdistinct Hsmall calls k Hk.
    apply (Hother Hdistinct); [exact Hk|].
    replace (N - k)%nat with 1%nat by lia. reflexivity.
  - exact Hdeliver.
  - intros calls stale _ Hne Hin.
    destruct calls as [|calls].
    + cbn in Hin. inversion Hin.
    + rewrite Hdeliver in Hin.
      apply elem_of_replicate in Hin as [Heq _]. congruence.
Qed.

Lemma swapFrontBuffer_newest_wins_witness :
  fst (TripleBuffer.swapFront_times 2
         (TripleBuffer.swapBack_times 3 (TripleBuffer.create 100 200 300)))
  = [200; 200] /\
  TripleBuffer.filled_at 1 (TripleBuffer.create 100 200 300) = 200 /\
  (300 ∉ fst (TripleBuffer.swapFront_times 2
                (TripleBuffer.swapBack_times 3
                   (TripleBuffer.create 100 200 300)))) /\
  fst (PreviewBuffer.acquire_times 2
         (PreviewBuffer.publish_all ([10; 20] ++ [30])
            (PreviewBuffer.create 0)))
  = replicate 2 (Some 30).
Proof.
  assert (Hdistinct :
    TripleBuffer.m_backBuffer (TripleBuffer.create 100 200 300)
    <> TripleBuffer.m_spareBuffer (TripleBuffer.create 100 200 300))
    by discriminate.
  assert (Hvalid : PreviewBuffer.valid (PreviewBuffer.create 0))
    by (unfold PreviewBuffer.valid; cbn; lia).
  destruct (swapFrontBuffer_newest_wins Z Z (TripleBuffer.create 100 200 300)
              (PreviewBuffer.create 0) 3 [10; 20] 30
              ltac:(lia) eq_refl Hvalid)
    as (_ & _ & _ & Hreturned & Hsame & Hother & _ & Hdeliver & _).
  split; [exact (Hreturned 1%nat)|].
  split; [exact (Hsame 1%nat ltac:(lia) eq_refl)|].
  split; [exact (Hother Hdistinct 2%nat 2%nat ltac:(lia) eq_refl)|].
  exact (Hdeliver 1%nat).
Defined.

(** C1, as worded for every [N]: with three calls of [swapBackBuffer] in a
    row on the buffers 100 (front), 200 (back) and 300 (spare), the next
    [swapFrontBuffer] returns 200, which is the buffer that was filled for
    the first call. *)
Lemma swapFrontBuffer_newest_wins_counterexample :
  ~ TripleBuffer.earlier_never_returned 3 (TripleBuffer.create 100 200 300).
Proof.
  intros Hnever. apply (Hnever 1%nat 1%nat ltac:(lia)). left.
Qed.

(** ** WorkQueue *)

Section WorkQueueFacts.
Context {T : Type}.
Import WorkQueue.

Lemma create_balanced : balanced (@create T).
Proof. reflexivity. Qed.

Lemma produce_balanced (elem : T) (q : t T) :
  balanced q -> balanced (produce elem q).
Proof.
  unfold balanced, produce. cbn. rewrite length_app. cbn. lia.
Qed.

(** On a balanced queue [consume] is never undefined: it hands out the
    head, or finds the queue empty. *)
Lemma consume_balanced (blocking : bool) (q : t T) :
  balanced q ->
  match m_queue q with
  | elem :: rest =>
      consume blocking q
      = Consumed elem {| m_queue := rest; m_counterSem := length rest |}
  | [] => consume blocking q = if blocking then Blocks else Empty q
  end.
Proof.
  unfold balanced, consume. intros Hb.
  destruct (m_queue q) as [|elem rest]; cbn in Hb; rewrite Hb; reflexivity.
Qed.

Lemma consumeAll_balanced (queue : list T) (q : t T) :
  balanced q -> balanced (snd (consumeAll queue q)).
Proof.
  unfold balanced, consumeAll. cbn. intros Hb.
  destruct (m_queue q) eqn:Hq; [rewrite Hq; exact Hb | reflexivity].
Qed.

(** Over any history the consumer has received, in order, exactly the
    elements produced that are no longer queued. *)
Lemma run_fifo (calls : list (call T)) :
  forall (consumed : list T) (q : t T) (consumed' : list T) (q' : t T),
    balanced q ->
    run calls consumed q = Some (consumed', q') ->
    balanced q' /\
    consumed' ++ m_queue q' = consumed ++ m_queue q ++ produced calls.
Proof.
  induction calls as [|c calls IH]; intros consumed q consumed' q' Hb Hrun.
  - cbn in Hrun. inversion Hrun; subst. cbn. rewrite app_nil_r. auto.
  - destruct c as [elem|blocking]; cbn [run produced] in *.
    + apply IH in Hrun; [|apply produce_balanced, Hb].
      destruct Hrun as [Hb' Heq]. split; [exact Hb'|].
      rewrite Heq. cbn. rewrite <- !app_assoc. reflexivity.
    + pose proof (consume_balanced blocking q Hb) as Hc.
      destruct (m_queue q) as [|elem rest] eqn:Hq.
      * rewrite Hc in Hrun. destruct blocking; [discriminate|].
        apply IH in Hrun; [|exact Hb]. rewrite Hq in Hrun. exact Hrun.
      * rewrite Hc in Hrun.
        apply IH in Hrun; [|reflexivity].
        destruct Hrun as [Hb' Heq]. split; [exact Hb'|].
        rewrite Heq. cbn. rewrite <- !app_assoc. reflexivity.
Qed.

Lemma run_produce (items : list T) (rest : list (call T))
    (consumed : list T) (q : t T) :
  run (map Produce items ++ rest) consumed q
  = run rest consumed
      {| m_queue := m_queue q ++ items;
         m_counterSem := m_counterSem q + length items |}.
Proof.
  revert q. induction items as [|x items IH]; intros q; cbn.
  - rewrite app_nil_r, Nat.add_0_r. destruct q; reflexivity.
  - rewrite IH. unfold produce. cbn. rewrite <- app_assoc.
    do 2 f_equal. lia.
Qed.

(** Consuming [length items] times from a queue that holds [items]. *)
Lemma run_consume (flags : list bool) :
  forall (items more consumed : list T),
    length flags = length items ->
    run (map Consume flags) consumed
      {| m_queue := items ++ more;
         m_counterSem := length (items ++ more) |}
    = Some (consumed ++ items,
            {| m_queue := more; m_counterSem := length more |}).
Proof.
  induction flags as [|b flags IH]; intros items more consumed Hlen.
  - destruct items; [|discriminate]. cbn. rewrite app_nil_r. reflexivity.
  - destruct items as [|x items]; [discriminate|].
    cbn. rewrite IH by (cbn in Hlen; lia).
    rewrite <- app_assoc. reflexivity.
Qed.
End WorkQueueFacts.

(** C2.  [produce] appends at the tail and always succeeds; [consume]
    removes and returns the head.  When [items] are produced and then
    consumed one call each (blocking or not), the calls return them in
    production order and leave the queue empty; over any history of calls
    that completes, what the consumer received followed by what is still
    queued is what was produced, in order.  A [consume] with
    [blocking = false] on an empty queue returns false and leaves the
    queue as it was. *)
Theorem WorkQueue_fifo (T : Type) (items : list T) (flags : list bool)
    (calls : list (WorkQueue.call T)) (q : WorkQueue.t T) :
  length flags = length items ->
  WorkQueue.balanced q ->
  (forall elem, WorkQueue.m_queue (WorkQueue.produce elem q)
                = WorkQueue.m_queue q ++ [elem]) /\
  (forall elem rest,
     WorkQueue.m_queue q = elem :: rest ->
     forall blocking, exists q',
       WorkQueue.consume blocking q = WorkQueue.Consumed elem q' /\
       WorkQueue.m_queue q' = rest) /\
  WorkQueue.run
    (map WorkQueue.Produce items ++ map WorkQueue.Consume flags)
    [] WorkQueue.create
  = Some (items, WorkQueue.create) /\
  (forall consumed q',
     WorkQueue.run calls [] WorkQueue.create = Some (consumed, q') ->
     consumed ++ WorkQueue.m_queue q' = WorkQueue.produced calls) /\
  (WorkQueue.m_queue q = [] ->
   WorkQueue.consume false q = WorkQueue.Empty q).
Proof.
  intros Hlen Hb. split; [|split; [|split; [|split]]].
  - intros elem. reflexivity.
  - intros elem rest Hq blocking.
    pose proof (consume_balanced blocking q Hb) as Hc. rewrite Hq in Hc.
    eexists. split; [exact Hc | reflexivity].
  - rewrite run_produce. cbn.
    rewrite <- (app_nil_r items) at 1 2.
    rewrite (run_consume flags items [] [] Hlen). reflexivity.
  - intros consumed q' Hrun.
    apply run_fifo in Hrun; [|apply create_balanced].
    destruct Hrun as [_ Heq]. exact Heq.
  - intros Hq.
    pose proof (consume_balanced false q Hb) as Hc. rewrite Hq in Hc.
    exact Hc.
Qed.

Lemma WorkQueue_fifo_witness :
  WorkQueue.run
    (map WorkQueue.Produce [3; 1; 2]
     ++ map WorkQueue.Consume [true; false; true])
    [] WorkQueue.create
  = Some ([3; 1; 2], WorkQueue.create).
Proof.
  refine (proj1 (proj2 (proj2
    (WorkQueue_fifo Z [3; 1; 2] [true; false; true]
       [WorkQueue.Produce 3; WorkQueue.Consume false]
       WorkQueue.create _ _)))).
  - reflexivity.
  - reflexivity.
Defined.

(** C3.  [consumeAll] moves the whole contents of the queue, in order,
    into the caller's queue, whose former contents are overwritten, and
    leaves the work queue empty; a [consume] with [blocking = false] right
    after it returns false. *)
Theorem consumeAll_detaches (T : Type) (q : WorkQueue.t T) (sink : list T) :
  WorkQueue.balanced q ->
  fst (WorkQueue.consumeAll sink q) = WorkQueue.m_queue q /\
  WorkQueue.m_queue (snd (WorkQueue.consumeAll sink q)) = [] /\
  WorkQueue.size (snd (WorkQueue.consumeAll sink q)) = 0%nat /\
  WorkQueue.consume false (snd (WorkQueue.consumeAll sink q))
  = WorkQueue.Empty (snd (WorkQueue.consumeAll sink q)).
Proof.
  intros Hb.
  assert (Hempty : WorkQueue.m_queue (snd (WorkQueue.consumeAll sink q)) = []).
  { unfold WorkQueue.consumeAll. cbn.
    destruct (WorkQueue.m_queue q) eqn:Hq; [exact Hq | reflexivity]. }
  split; [reflexivity|]. split; [exact Hempty|]. split.
  - unfold WorkQueue.size. rewrite Hempty. reflexivity.
  - pose proof (consume_balanced false _
                  (consumeAll_balanced sink q Hb)) as Hc.
    rewrite Hempty in Hc. exact Hc.
Qed.

Lemma consumeAll_detaches_witness :
  fst (WorkQueue.consumeAll [9; 9]
         (WorkQueue.produce 2 (WorkQueue.produce 1 WorkQueue.create)))
  = [1; 2].
Proof.
  refine (proj1 (consumeAll_detaches Z
    (WorkQueue.produce 2 (WorkQueue.produce 1 WorkQueue.create)) [9; 9] _)).
  reflexivity.
Defined.

(** ** The request queue and the dispatch switch *)

Section DispatchFacts.
Context {platform : Platform}.
Context (sensor_frames : list Camera.ShotParams -> list Frame.t).
Import ParamSetRequest FCamInterface.

(** The flag test of the auto-enable cases holds exactly when the flag
    goes from off to on. *)
Lemma transition_off_on (prevValue newValue : bool) :
  transition prevValue newValue = negb prevValue && newValue.
Proof. destruct prevValue, newValue; reflexivity. Qed.

(** Bit [n] of the byte taken from position [k] of [v] and put back. *)
Lemma byte_bit (v k n : Z) :
  0 <= k -> 0 <= n ->
  Z.testbit (Z.shiftl (Z.land (Z.shiftr v k) 255) k) n
  = (k <=? n) && (n <? k + 8) && Z.testbit v n.
Proof.
  intros Hk Hn. rewrite Z.shiftl_spec by lia.
  destruct (Z.leb_spec k n).
  - rewrite Z.land_spec, Z.shiftr_spec by lia.
    change 255 with (Z.ones 8). rewrite Z.testbit_ones_nonneg by lia.
    replace (n - k + k) with n by lia.
    destruct (Z.ltb_spec (n - k) 8), (Z.ltb_spec n (k + 8)); try lia;
      cbn; rewrite ?andb_true_r, ?andb_false_r; reflexivity.
  - rewrite Z.testbit_neg_r by lia. reflexivity.
Qed.

(** The four bytes of [v] read back as one word. *)
Lemma word_at_bytes_of_word (v : Z) :
  word_at (bytes_of_word v) 0 = Some (v mod 2 ^ 32).
Proof.
  unfold word_at, bytes_of_word. cbn. f_equal.
  apply Z.bits_inj'. intros n Hn.
  change (Z.land v 255) with (Z.shiftl (Z.land (Z.shiftr v 0) 255) 0).
  rewrite !Z.lor_spec, !byte_bit by lia.
  destruct (Z.ltb_spec n 32).
  - rewrite Z.mod_pow2_bits_low by lia.
    destruct (Z.testbit v n); rewrite ?andb_true_r, ?andb_false_r;
      [|reflexivity].
    destruct (Z.leb_spec 0 n), (Z.ltb_spec n (0 + 8)), (Z.leb_spec 8 n),
      (Z.ltb_spec n (8 + 8)), (Z.leb_spec 16 n), (Z.ltb_spec n (16 + 8)),
      (Z.leb_spec 24 n), (Z.ltb_spec n (24 + 8)); try lia; reflexivity.
  - rewrite Z.mod_pow2_bits_high by lia.
    destruct (Z.leb_spec 0 n), (Z.ltb_spec n (0 + 8)), (Z.leb_spec 8 n),
      (Z.ltb_spec n (8 + 8)), (Z.leb_spec 16 n), (Z.ltb_spec n (16 + 8)),
      (Z.leb_spec 24 n), (Z.ltb_spec n (24 + 8)); try lia; reflexivity.
Qed.

Lemma wrap32_mod (v : Z) :
  INT_MIN <= v <= INT_MAX -> wrap32 (v mod 2 ^ 32) = v.
Proof.
  unfold INT_MIN, INT_MAX, wrap32. intros Hv.
  destruct (Z.ltb_spec v 0).
  - rewrite <- (Z.mod_add v 1) by lia.
    rewrite (Z.mod_small (v + 1 * 2 ^ 32)) by lia.
    rewrite <- (Z.mod_add _ (-1)) by lia.
    rewrite Z.mod_small; lia.
  - rewrite (Z.mod_small v) by lia.
    rewrite Z.mod_small; lia.
Qed.

(** What a request queued by [setParamInt] carries. *)
Lemma int_at_bytes_of_word (v : Z) :
  INT_MIN <= v <= INT_MAX -> int_at (bytes_of_word v) 0 = Some v.
Proof.
  intros Hv. unfold int_at. rewrite word_at_bytes_of_word. cbn.
  rewrite wrap32_mod by exact Hv. reflexivity.
Qed.

(** The auto-exposure case on a request that carries the integer [v]. *)
Lemma dispatch_auto_exposure (task : ParamSetRequest.t) (st : t) (v : Z) :
  Z.land (getId task) 65535 = PARAM_PREVIEW_AUTO_EXPOSURE_ON ->
  int_at (getData task) 0 = Some v ->
  dispatch sensor_frames task st
  = auto_toggle Camera.autoExposure Camera.set_autoExposure
      Camera.exposure Camera.set_exposure task st.
Proof. intros Hid _. unfold dispatch. rewrite Hid. reflexivity. Qed.

(** The take-picture case. *)
Lemma dispatch_take_picture (task : ParamSetRequest.t) (st : t) :
  Z.land (getId task) 65535 = PARAM_TAKE_PICTURE ->
  dispatch sensor_frames task st
  = match writer st with
    | Some w =>
        v ← getDataAsInt task;
        if negb (v =? 0) then
          st' ← capture sensor_frames w
                  (emit [NotifyCaptureStart] (set_isCapturing true st));
          Some (emit [NotifyCaptureComplete] (set_isCapturing false st'))
        else Some st
    | None => Some st
    end.
Proof. intros Hid. unfold dispatch. rewrite Hid. reflexivity. Qed.

(** The auto-enable cases leave the writer alone. *)
Lemma auto_toggle_writer
    (auto : Camera.Preview -> bool)
    (set_auto : bool -> Camera.Preview -> Camera.Preview)
    (get : Camera.ShotParams -> float)
    (set : float -> Camera.ShotParams -> Camera.ShotParams)
    (task : ParamSetRequest.t) (st st' : t) :
  auto_toggle auto set_auto get set task st = Some st' ->
  writer st' = writer st.
Proof.
  unfold auto_toggle. intros Hd.
  destruct (int_at (getData task) 0) as [v|]; [|discriminate].
  cbn [mbind option_bind] in Hd.
  destruct (transition _ _); injection Hd as <-; reflexivity.
Qed.

(** Only the output-directory request creates the writer. *)
Lemma dispatch_keeps_no_writer (task : ParamSetRequest.t) (st st' : t) :
  Z.land (getId task) 65535 <> PARAM_OUTPUT_DIRECTORY ->
  writer st = None ->
  dispatch sensor_frames task st = Some st' ->
  writer st' = None.
Proof.
  intros Hid Hw Hd. rewrite <- Hw. unfold dispatch in Hd.
  repeat match type of Hd with
  | (if Z.land (getId task) 65535 =? ?c then _ else _) = _ =>
      destruct (Z.eqb_spec (Z.land (getId task) 65535) c) as [Heq|_];
      [try (exfalso; exact (Hid Heq)); clear Heq|]
  end.
  all: try (apply auto_toggle_writer in Hd; exact Hd).
  all: try (rewrite Hw in Hd; injection Hd as <-; reflexivity).
  all: repeat match type of Hd with
       | (?m ≫= _) = _ =>
           destruct m; [cbn [mbind option_bind] in Hd | discriminate]
       | (if ?b then _ else _) = _ => destruct b
       end.
  all: try discriminate.
  all: injection Hd as <-; reflexivity.
Qed.

Lemma dispatch_all_keeps_no_writer (tasks : list ParamSetRequest.t) :
  forall st st' : t,
    Forall (fun task => Z.land (getId task) 65535 <> PARAM_OUTPUT_DIRECTORY)
      tasks ->
    writer st = None ->
    dispatch_all sensor_frames tasks st = Some st' ->
    writer st' = None.
Proof.
  induction tasks as [|task tasks IH]; intros st st' Hall Hw Hd.
  - cbn in Hd. congruence.
  - inversion Hall as [|? ? Hid Hrest]; subst. cbn in Hd.
    destruct (dispatch sensor_frames task st) as [st1|] eqn:Hd1;
      [|discriminate].
    cbn in Hd. eapply IH; [exact Hrest | | exact Hd].
    eapply dispatch_keeps_no_writer; eassumption.
Qed.
End DispatchFacts.

(** C6.  With auto-exposure on and the exposure evaluated for the previous
    frame equal to [E], the request that switches auto-exposure off copies
    [E] into the user exposure and leaves the previous state alone, and
    the request that switches it on again right afterwards leaves the
    evaluated exposure at [E].  It does so by writing the user exposure
    into the evaluated exposure of the previous state: switching
    auto-exposure on from any state in which it is off, with user exposure
    [U], makes the evaluated exposure [U], whatever it was before. *)
Theorem auto_exposure_round_trip (P : Platform)
    (sensor_frames : list Camera.ShotParams -> list Frame.t)
    (st : FCamInterface.t) (E : float) :
  Camera.autoExposure
    (Camera.preview
       (FCamInterface.m_currentState (FCamInterface.camera st))) = true ->
  Camera.exposure
    (Camera.evaluated (Camera.preview (FCamInterface.previousState st))) = E ->
  (exists st1 st2 : FCamInterface.t,
     FCamInterface.dispatch sensor_frames
       (ParamSetRequest.create ParamSetRequest.PARAM_PREVIEW_AUTO_EXPOSURE_ON
          (ParamSetRequest.bytes_of_word 0)) st = Some st1 /\
     Camera.exposure
       (Camera.user
          (Camera.preview
             (FCamInterface.m_currentState (FCamInterface.camera st1)))) = E /\
     Camera.autoExposure
       (Camera.preview
          (FCamInterface.m_currentState (FCamInterface.camera st1))) = false /\
     FCamInterface.previousState st1 = FCamInterface.previousState st /\
     FCamInterface.dispatch sensor_frames
       (ParamSetRequest.create ParamSetRequest.PARAM_PREVIEW_AUTO_EXPOSURE_ON
          (ParamSetRequest.bytes_of_word 1)) st1 = Some st2 /\
     Camera.exposure
       (Camera.evaluated
          (Camera.preview (FCamInterface.previousState st2))) = E /\
     Camera.autoExposure
       (Camera.preview
          (FCamInterface.m_currentState (FCamInterface.camera st2))) = true /\
     Camera.exposure
       (Camera.user
          (Camera.preview
             (FCamInterface.m_currentState (FCamInterface.camera st2)))) = E) /\
  (forall (manual : FCamInterface.t) (U : float),
   Camera.autoExposure
     (Camera.preview
        (FCamInterface.m_currentState (FCamInterface.camera manual)))
   = false ->
   Camera.exposure
     (Camera.user
        (Camera.preview
           (FCamInterface.m_currentState (FCamInterface.camera manual))))
   = U ->
   exists manual' : FCamInterface.t,
     FCamInterface.dispatch sensor_frames
       (ParamSetRequest.create ParamSetRequest.PARAM_PREVIEW_AUTO_EXPOSURE_ON
          (ParamSetRequest.bytes_of_word 1)) manual = Some manual' /\
     Camera.exposure
       (Camera.evaluated
          (Camera.preview (FCamInterface.previousState manual'))) = U /\
     Camera.autoExposure
       (Camera.preview
          (FCamInterface.m_currentState (FCamInterface.camera manual')))
     = true /\
     Camera.user
       (Camera.preview
          (FCamInterface.m_currentState (FCamInterface.camera manual')))
     = Camera.user
         (Camera.preview
            (FCamInterface.m_currentState (FCamInterface.camera manual)))).
Proof.
  intros Hauto Hprev.
  split.
  - eexists. eexists.
    split.
    { rewrite (dispatch_auto_exposure sensor_frames _ _ 0);
        [|reflexivity|reflexivity].
      unfold FCamInterface.auto_toggle.
      change (ParamSetRequest.int_at _ 0) with (Some 0).
      cbn [mbind option_bind].
      rewrite transition_off_on. cbn. rewrite Hauto. cbn. reflexivity. }
    split; [cbn; exact Hprev|].
    split; [reflexivity|].
    split; [reflexivity|].
    split.
    { rewrite (dispatch_auto_exposure sensor_frames _ _ 1);
        [|reflexivity|reflexivity].
      unfold FCamInterface.auto_toggle.
      change (ParamSetRequest.int_at _ 0) with (Some 1).
      cbn [mbind option_bind].
      rewrite transition_off_on. cbn. reflexivity. }
    split; [cbn; exact Hprev|].
    split; [reflexivity|].
    cbn. exact Hprev.
  - intros manual U Hmanual Huser. eexists. split.
    { rewrite (dispatch_auto_exposure sensor_frames _ _ 1);
        [|reflexivity|reflexivity].
      unfold FCamInterface.auto_toggle.
      change (ParamSetRequest.int_at _ 0) with (Some 1).
      cbn [mbind option_bind].
      rewrite transition_off_on. cbn. rewrite Hmanual. cbn. reflexivity. }
    split; [cbn; exact Huser|].
    split; reflexivity.
Qed.

Lemma auto_exposure_round_trip_witness :
  Camera.exposure
    (Camera.user
       (Camera.preview
          (FCamInterface.m_currentState
             (FCamInterface.camera example_auto_on)))) = 0 /\
  Camera.exposure
    (Camera.evaluated
       (Camera.preview (FCamInterface.previousState example_manual))) = 0 /\
  (exists st1 st2 : FCamInterface.t,
     FCamInterface.dispatch (platform:=binary32_platform) example_sensor
       (ParamSetRequest.create ParamSetRequest.PARAM_PREVIEW_AUTO_EXPOSURE_ON
          (ParamSetRequest.bytes_of_word 0)) example_auto_on = Some st1 /\
     Camera.exposure
       (Camera.user
          (Camera.preview
             (FCamInterface.m_currentState (FCamInterface.camera st1))))
     = 1176256512 /\
     FCamInterface.dispatch (platform:=binary32_platform) example_sensor
       (ParamSetRequest.create ParamSetRequest.PARAM_PREVIEW_AUTO_EXPOSURE_ON
          (ParamSetRequest.bytes_of_word 1)) st1 = Some st2 /\
     Camera.exposure
       (Camera.evaluated
          (Camera.preview (FCamInterface.previousState st2)))
     = 1176256512) /\
  (exists manual' : FCamInterface.t,
     FCamInterface.dispatch (platform:=binary32_platform) example_sensor
       (ParamSetRequest.create ParamSetRequest.PARAM_PREVIEW_AUTO_EXPOSURE_ON
          (ParamSetRequest.bytes_of_word 1)) example_manual = Some manual' /\
     Camera.exposure
       (Camera.evaluated
          (Camera.preview (FCamInterface.previousState manual')))
     = 1084227584).
Proof.
  destruct (auto_exposure_round_trip binary32_platform example_sensor
              example_auto_on 1176256512 eq_refl eq_refl)
    as ((st1 & st2 & H1 & Huser & _ & _ & H2 & Hevaluated & _) & Hon).
  destruct (Hon example_manual 1084227584 eq_refl eq_refl)
    as (manual' & H3 & Hrestore & _).
  split; [reflexivity|]. split; [reflexivity|]. split.
  - exists st1, st2. exact (conj H1 (conj Huser (conj H2 Hevaluated))).
  - exists manual'. exact (conj H3 Hrestore).
Defined.

(** C8.  A float-array request of the wrong length is dropped: nothing is
    queued and the capture state stays as it is; the call only logs an
    error. *)
Theorem setParamFloatArray_wrong_length
    (param : Z) (value : list float) (st : FCamInterface.t) :
  (Z.land param 65535 = ParamSetRequest.PARAM_SHOT /\ length value <> 5%nat) \/
  ((Z.land param 65535 = ParamSetRequest.PARAM_FOCUS_ON_TOUCH \/
    Z.land param 65535 = ParamSetRequest.PARAM_WB_ON_TOUCH) /\
   length value <> 2%nat) ->
  FCamInterface.requestQueue (FCamInterface.setParamFloatArray param value st)
  = FCamInterface.requestQueue st /\
  FCamInterface.camera (FCamInterface.setParamFloatArray param value st)
  = FCamInterface.camera st /\
  FCamInterface.previousState
    (FCamInterface.setParamFloatArray param value st)
  = FCamInterface.previousState st /\
  exists message : string,
    FCamInterface.setParamFloatArray param value st
    = FCamInterface.emit [FCamInterface.ERROR message] st.
Proof.
  intros Hbad.
  assert (Hlog : exists message : string,
    FCamInterface.setParamFloatArray param value st
    = FCamInterface.emit [FCamInterface.ERROR message] st).
  { unfold FCamInterface.setParamFloatArray.
    destruct Hbad as [[Hid Hlen] | [[Hid | Hid] Hlen]]; rewrite Hid; cbn.
    - destruct (Z.eqb_spec (Z.of_nat (length value)) 5) as [Heq|_];
        [lia|]. cbn. eexists. reflexivity.
    - destruct (Z.eqb_spec (Z.of_nat (length value)) 2) as [Heq|_];
        [lia|]. cbn. eexists. reflexivity.
    - destruct (Z.eqb_spec (Z.of_nat (length value)) 2) as [Heq|_];
        [lia|]. cbn. eexists. reflexivity. }
  destruct Hlog as [message Hlog]. rewrite Hlog.
  repeat split. exists message. reflexivity.
Qed.

Lemma setParamFloatArray_wrong_length_witness :
  FCamInterface.requestQueue
    (FCamInterface.setParamFloatArray ParamSetRequest.PARAM_SHOT
       [1065353216; 0; 0] (FCamInterface.initial []))
  = FCamInterface.requestQueue (FCamInterface.initial []).
Proof.
  refine (proj1 (setParamFloatArray_wrong_length ParamSetRequest.PARAM_SHOT
                   [1065353216; 0; 0] (FCamInterface.initial []) _)).
  left. split; [reflexivity | cbn; lia].
Defined.

(** C9.  A take-picture request that arrives while no writer exists is
    ignored: the whole state, trace of outside calls included, stays as it
    is, so no capture is made, no image set is created or pushed and no
    notification is sent.  The same holds when the request carries the
    integer zero.  No writer exists until an output-directory request has
    been resolved. *)
Theorem take_picture_needs_writer (P : Platform)
    (sensor_frames : list Camera.ShotParams -> list Frame.t)
    (task : ParamSetRequest.t) (st : FCamInterface.t)
    (earlier : list ParamSetRequest.t) (storage : list string) :
  Z.land (ParamSetRequest.getId task) 65535
  = ParamSetRequest.PARAM_TAKE_PICTURE ->
  (FCamInterface.writer st = None ->
   FCamInterface.dispatch sensor_frames task st = Some st) /\
  (ParamSetRequest.getDataAsInt task = Some 0 ->
   FCamInterface.dispatch sensor_frames task st = Some st) /\
  (Forall (fun r => Z.land (ParamSetRequest.getId r) 65535
                    <> ParamSetRequest.PARAM_OUTPUT_DIRECTORY) earlier ->
   forall st0 : FCamInterface.t,
     FCamInterface.dispatch_all sensor_frames earlier
       (FCamInterface.initial storage) = Some st0 ->
     FCamInterface.dispatch sensor_frames task st0 = Some st0).
Proof.
  intros Hid. split; [|split].
  - intros Hw. rewrite dispatch_take_picture by exact Hid.
    rewrite Hw. reflexivity.
  - intros Hzero. rewrite dispatch_take_picture by exact Hid.
    destruct (FCamInterface.writer st); [|reflexivity].
    rewrite Hzero. reflexivity.
  - intros Hall st0 Hrun. rewrite dispatch_take_picture by exact Hid.
    rewrite (dispatch_all_keeps_no_writer sensor_frames earlier
               (FCamInterface.initial storage) st0 Hall eq_refl Hrun).
    reflexivity.
Qed.

Lemma take_picture_needs_writer_witness :
  FCamInterface.dispatch (platform:=binary32_platform) example_sensor
    (ParamSetRequest.create ParamSetRequest.PARAM_TAKE_PICTURE
       (ParamSetRequest.bytes_of_word 1))
    (FCamInterface.initial [])
  = Some (FCamInterface.initial []).
Proof.
  refine (proj1 (take_picture_needs_writer binary32_platform example_sensor
                   (ParamSetRequest.create ParamSetRequest.PARAM_TAKE_PICTURE
                      (ParamSetRequest.bytes_of_word 1))
                   (FCamInterface.initial []) [] [] _) _).
  - reflexivity.
  - reflexivity.
Defined.

(** ** Persisting an image set *)

Lemma wrap32_small (z : Z) : INT_MIN <= z <= INT_MAX -> wrap32 z = z.
Proof.
  unfold INT_MIN, INT_MAX, wrap32. intros Hz.
  rewrite Z.mod_small by lia. lia.
Qed.

Lemma add32_small (a b : Z) :
  INT_MIN <= a + b <= INT_MAX -> add32 a b = a + b.
Proof. apply wrap32_small. Qed.

Lemma string_length_append (a b : string) :
  String.length (a +:+ b) = (String.length a + String.length b)%nat.
Proof.
  induction a as [|c a IH]; simpl; [reflexivity | f_equal; exact IH].
Qed.

Lemma sprintf_fits (text : string) :
  (String.length text < 128)%nat -> Stdio.sprintf text = Some text.
Proof.
  intros Hlen. unfold Stdio.sprintf.
  destruct (Nat.ltb_spec (String.length text) 128); [reflexivity | lia].
Qed.

Section ImageSetFacts.
Context {platform : Platform}.
Import ImageSet.

(** The thumbnail path is the longest text formatted for a frame. *)
Lemma thumbnail_path_longest (prefix : string) (id i : Z) :
  (String.length (prefix +:+ sThumbnailName id i) < 128)%nat ->
  (String.length (sThumbnailName id i) < 128)%nat /\
  (String.length (sImageName id i sJpegExt) < 128)%nat /\
  (String.length (prefix +:+ sImageName id i sJpegExt) < 128)%nat /\
  (String.length (sXmlName id) < 128)%nat /\
  (String.length (prefix +:+ sXmlName id) < 128)%nat.
Proof.
  unfold sThumbnailName, sImageName, sXmlName, sJpegExt.
  rewrite !string_length_append. cbn. lia.
Qed.

Lemma count_valid_spec (frames : list Frame.t) :
  forall (i : nat) (icount : Z),
    0 <= icount ->
    icount + Z.of_nat (length frames) <= INT_MAX ->
    count_valid frames icount
    = icount
      + Z.of_nat (length (List.filter (fun p => Frame.valid (snd p))
                            (indexed_from i frames))).
Proof.
  induction frames as [|frame rest IH]; intros i icount H0 Hmax.
  - cbn. lia.
  - cbn [count_valid indexed_from List.filter snd]. cbn [length] in Hmax.
    destruct (Frame.valid frame).
    + rewrite add32_small by (unfold INT_MIN; lia).
      rewrite (IH (S i)) by lia. cbn [length]. lia.
    + rewrite (IH (S i)) by lia. reflexivity.
Qed.

Lemma xml_images_spec (s : t) (frames : list Frame.t) :
  forall i : nat,
    Z.of_nat i + Z.of_nat (length frames) <= INT_MAX ->
    (forall p, p ∈ List.filter (fun p => Frame.valid (snd p))
                     (indexed_from i frames) ->
       (String.length
          (m_outputDirPrefix s
           +:+ sThumbnailName (m_fileId s) (Z.of_nat (fst p))) < 128)%nat) ->
    xml_images (m_fileId s) frames (Z.of_nat i)
    = Some (Stdio.lines (map (descriptor_line s)
                     (List.filter (fun p => Frame.valid (snd p))
                        (indexed_from i frames)))).
Proof.
  induction frames as [|frame rest IH]; intros i Hmax Hfit; [reflexivity|].
  cbn [xml_images indexed_from List.filter snd] in *. cbn [length] in Hmax.
  assert (Hnext : add32 (Z.of_nat i) 1 = Z.of_nat (S i))
    by (rewrite add32_small by (unfold INT_MIN; lia); lia).
  rewrite Hnext.
  destruct (Frame.valid frame).
  - pose proof (Hfit (i, frame) ltac:(left)) as Hthis. cbn [fst] in Hthis.
    apply thumbnail_path_longest in Hthis as (Ht & Hi & _).
    rewrite (sprintf_fits _ Hi), (sprintf_fits _ Ht). cbn [mbind option_bind].
    rewrite IH; [reflexivity | lia |].
    intros p Hp. apply Hfit. right. exact Hp.
  - apply IH; [lia | exact Hfit].
Qed.

Lemma data_files_spec (s : t) (cb : option callback) (frames : list Frame.t) :
  forall i : nat,
    Z.of_nat i + Z.of_nat (length frames) <= INT_MAX ->
    (i + length frames <= length (m_frameFormat s))%nat ->
    (forall p, p ∈ List.filter (fun p => Frame.valid (snd p))
                     (indexed_from i frames) ->
       (String.length
          (m_outputDirPrefix s
           +:+ sThumbnailName (m_fileId s) (Z.of_nat (fst p))) < 128)%nat) ->
    data_files s cb frames (Z.of_nat i)
    = Some (concat (map (frame_files s cb)
                      (List.filter (fun p => Frame.valid (snd p))
                         (indexed_from i frames)))).
Proof.
  induction frames as [|frame rest IH]; intros i Hmax Hfmt Hfit;
    [reflexivity|].
  cbn [data_files indexed_from List.filter snd] in *. cbn [length] in Hmax, Hfmt.
  assert (Hnext : add32 (Z.of_nat i) 1 = Z.of_nat (S i))
    by (rewrite add32_small by (unfold INT_MIN; lia); lia).
  rewrite Hnext.
  destruct (Frame.valid frame).
  - pose proof (Hfit (i, frame) ltac:(left)) as Hthis. cbn [fst] in Hthis.
    pose proof Hthis as Hpath.
    apply thumbnail_path_longest in Hthis as (Ht & Hi & Hip & _).
    destruct (Z.leb_spec 0 (Z.of_nat i)); [|lia].
    rewrite Nat2Z.id.
    destruct (lookup_lt_is_Some_2 (m_frameFormat s) i ltac:(lia)) as [ff Hff].
    rewrite Hff. cbn [mbind option_bind].
    assert (Himage : exists image,
      write_image s (Z.of_nat i) ff = Some image /\
      frame_files s cb (i, frame)
      = image
        ++ [SaveThumbnail
              (m_outputDirPrefix s
               +:+ sThumbnailName (m_fileId s) (Z.of_nat i))
              Thumbnail.THUMBNAIL_QUALITY]
        ++ notify cb).
    { unfold write_image, frame_files. cbn [fst]. rewrite Hff.
      destruct ff as [[] quality];
        cbn [FileFormatDescriptor.getFormat FileFormatDescriptor.m_format
             FileFormatDescriptor.getQuality FileFormatDescriptor.m_quality];
        rewrite ?(sprintf_fits _ Hi); cbn [mbind option_bind];
        rewrite ?(sprintf_fits _ Hip); cbn [mbind option_bind];
        eexists; split; reflexivity. }
    destruct Himage as (image & Hwrite & Hfiles).
    rewrite Hwrite. cbn [mbind option_bind].
    rewrite (sprintf_fits _ Ht). cbn [mbind option_bind].
    rewrite (sprintf_fits _ Hpath). cbn [mbind option_bind].
    rewrite IH; [| lia | lia | intros p Hp; apply Hfit; right; exact Hp].
    cbn [mbind option_bind map concat]. rewrite Hfiles.
    rewrite <- !app_assoc. reflexivity.
  - apply IH; [lia | lia | exact Hfit].
Qed.

(** The routine writes nothing for a set without valid frames; otherwise
    it writes the descriptor, reports, and then writes and reports the
    files of each valid frame. *)
Lemma dumpToFileSystem_spec (s : t) (cb : option callback) :
  well_formed s ->
  dumpToFileSystem s cb
  = Some (match valid_frames s with
          | [] => []
          | _ :: _ =>
              [WriteFile (m_outputDirPrefix s +:+ sXmlName (m_fileId s))
                 (descriptor s)]
              ++ notify cb
              ++ concat (map (frame_files s cb) (valid_frames s))
          end).
Proof.
  intros (Hfmt & Hmax & Hfit). unfold dumpToFileSystem.
  rewrite (count_valid_spec (m_frames s) 0) by lia.
  fold (valid_frames s). rewrite Z.add_0_l.
  destruct (valid_frames s) as [|p ps] eqn:Hvalid; [reflexivity|].
  destruct (Z.eqb_spec (Z.of_nat (length (p :: ps))) 0) as [Hz|_];
    [cbn in Hz; lia|].
  rewrite <- Hvalid in *.
  pose proof (Hfit p ltac:(rewrite Hvalid; left)) as Hp.
  apply thumbnail_path_longest in Hp as (_ & _ & _ & Hx & Hxp).
  rewrite (sprintf_fits _ Hx). cbn [mbind option_bind].
  rewrite (sprintf_fits _ Hxp). cbn [mbind option_bind].
  pose proof (xml_images_spec s (m_frames s) 0 ltac:(lia) Hfit) as Himages.
  pose proof (data_files_spec s cb (m_frames s) 0 ltac:(lia) ltac:(lia) Hfit)
    as Hfiles.
  change (Z.of_nat 0) with 0 in Himages, Hfiles.
  rewrite Himages. cbn [mbind option_bind].
  rewrite Hfiles. cbn [mbind option_bind].
  unfold descriptor, valid_frames. reflexivity.
Qed.
End ImageSetFacts.

(** C4.  With a callback installed, [dumpToFileSystem] invokes it not at
    all, and writes no file, when the set has no valid frame; when it has
    [k >= 1] valid frames it invokes it [k + 1] times: once right after
    the descriptor is written and once right after the files of each valid
    frame are written. *)
Theorem dumpToFileSystem_notifications (platform : Platform)
    (s : ImageSet.t) (cb : ImageSet.callback) :
  ImageSet.well_formed s ->
  exists events : list ImageSet.event,
    ImageSet.dumpToFileSystem s (Some cb) = Some events /\
    ImageSet.invocations events
    = match length (ImageSet.valid_frames s) with
      | O => O
      | S k => S (S k)
      end /\
    (ImageSet.valid_frames s = [] -> events = []) /\
    (ImageSet.valid_frames s <> [] ->
     events
     = ImageSet.WriteFile
         (ImageSet.m_outputDirPrefix s
          +:+ ImageSet.sXmlName (ImageSet.m_fileId s))
         (ImageSet.descriptor s)
       :: ImageSet.Invoke cb
       :: concat (map (fun p => ImageSet.frame_files s None p
                                ++ [ImageSet.Invoke cb])
                    (ImageSet.valid_frames s))) /\
    (forall p, ImageSet.invocations (ImageSet.frame_files s None p) = O).
Proof.
  intros Hwf. rewrite (dumpToFileSystem_spec s (Some cb) Hwf).
  eexists. split; [reflexivity|].
  assert (Hsilent : forall p,
    ImageSet.invocations (ImageSet.frame_files s None p) = O).
  { intros p. unfold ImageSet.frame_files, ImageSet.invocations.
    destruct (ImageSet.m_frameFormat s !! fst p) as [[[] quality]|];
      reflexivity. }
  assert (Hfiles : forall p,
    ImageSet.frame_files s (Some cb) p
    = ImageSet.frame_files s None p ++ [ImageSet.Invoke cb]).
  { intros p. unfold ImageSet.frame_files. cbn [ImageSet.notify].
    rewrite app_nil_r, <- app_assoc. reflexivity. }
  assert (Hcount : forall l,
    ImageSet.invocations
      (concat (map (ImageSet.frame_files s (Some cb)) l)) = length l).
  { induction l as [|p l IH]; [reflexivity|].
    cbn [map concat]. unfold ImageSet.invocations in *.
    rewrite List.filter_app, length_app, IH, Hfiles.
    rewrite List.filter_app, length_app, Hsilent. reflexivity. }
  destruct (ImageSet.valid_frames s) as [|p ps] eqn:Hvalid.
  - repeat split; [|exact Hsilent]. congruence.
  - split; [|split; [|split]].
    + cbn [ImageSet.notify app]. unfold ImageSet.invocations at 1.
      cbn [List.filter ImageSet.is_invoke length].
      fold (ImageSet.invocations
              (concat (map (ImageSet.frame_files s (Some cb)) (p :: ps)))).
      rewrite Hcount. reflexivity.
    + discriminate.
    + intros _. cbn [ImageSet.notify app]. do 3 f_equal.
      apply map_ext. exact Hfiles.
    + exact Hsilent.
Qed.

(** X26.  Without a callback the routine writes the same files and
    invokes nothing. *)
Lemma dumpToFileSystem_without_callback (platform : Platform)
    (s : ImageSet.t) :
  ImageSet.well_formed s ->
  exists events : list ImageSet.event,
    ImageSet.dumpToFileSystem s None = Some events /\
    ImageSet.invocations events = O.
Proof.
  intros Hwf. rewrite (dumpToFileSystem_spec s None Hwf).
  eexists. split; [reflexivity|].
  assert (Hfiles : forall l,
    ImageSet.invocations (concat (map (ImageSet.frame_files s None) l)) = O).
  { induction l as [|p l IH]; [reflexivity|].
    cbn [map concat]. unfold ImageSet.invocations in *.
    rewrite List.filter_app, length_app, IH.
    unfold ImageSet.frame_files.
    destruct (ImageSet.m_frameFormat s !! fst p) as [[[] quality]|];
      reflexivity. }
  destruct (ImageSet.valid_frames s) as [|p ps]; [reflexivity|].
  cbn [ImageSet.notify app]. unfold ImageSet.invocations.
  cbn [List.filter ImageSet.is_invoke].
  apply (Hfiles (p :: ps)).
Qed.

Lemma example_set_well_formed : ImageSet.well_formed example_set.
Proof.
  split; [reflexivity|]. split; [vm_compute; discriminate|].
  apply Forall_forall.
  change (ImageSet.valid_frames example_set)
    with [(0%nat, example_frame true 0);
          (2%nat, example_frame true 1065353216)].
  repeat constructor; apply Nat.ltb_lt; vm_compute; reflexivity.
Qed.

Lemma dumpToFileSystem_notifications_witness :
  exists events : list ImageSet.event,
    ImageSet.dumpToFileSystem (platform:=binary32_platform) example_set
      (Some ImageSet.OnFileSystemChanged) = Some events /\
    ImageSet.invocations events = 3%nat.
Proof.
  destruct (dumpToFileSystem_notifications binary32_platform example_set
              ImageSet.OnFileSystemChanged example_set_well_formed)
    as (events & Hrun & Hcount & _).
  exists events. split; [exact Hrun | exact Hcount].
Defined.

Section DescriptorFacts.
Context {platform : Platform}.
Import ImageSet.

(** The valid frames are listed in frame order. *)
Lemma indexed_from_frames (frames : list Frame.t) :
  forall k : nat,
    map snd (List.filter (fun p => Frame.valid (snd p))
               (indexed_from k frames))
    = List.filter Frame.valid frames.
Proof.
  induction frames as [|frame rest IH]; intros k; [reflexivity|].
  cbn [indexed_from List.filter snd].
  destruct (Frame.valid frame); cbn [map snd]; rewrite IH; reflexivity.
Qed.

Lemma valid_frames_frames (s : t) :
  map snd (valid_frames s) = List.filter Frame.valid (m_frames s).
Proof. apply indexed_from_frames. Qed.

(** Each valid frame is listed with the position it has in the set. *)
Lemma indexed_from_valid (frames : list Frame.t) :
  forall (k i : nat) (frame : Frame.t),
    (i, frame) ∈ List.filter (fun p => Frame.valid (snd p))
                   (indexed_from k frames)
    <-> exists j : nat,
          i = (k + j)%nat /\ frames !! j = Some frame /\
          Frame.valid frame = true.
Proof.
  induction frames as [|first rest IH]; intros k i frame.
  - cbn. split; [intros Hin; inversion Hin | intros (j & _ & Hj & _)].
    rewrite lookup_nil in Hj. discriminate.
  - cbn [indexed_from List.filter snd].
    assert (Hrest :
      (i, frame) ∈ List.filter (fun p => Frame.valid (snd p))
                     (indexed_from (S k) rest)
      <-> exists j : nat,
            i = (k + S j)%nat /\ rest !! j = Some frame /\
            Frame.valid frame = true).
    { rewrite IH. split; intros (j & Hi & Hj & Hv); exists j;
        (split; [lia | auto]). }
    destruct (Frame.valid first) eqn:Hfirst.
    + rewrite elem_of_cons, Hrest. split.
      * intros [Heq | (j & Hi & Hj & Hv)].
        -- inversion Heq; subst. exists 0%nat.
           split; [lia | split; [reflexivity | exact Hfirst]].
        -- exists (S j). auto.
      * intros (j & Hi & Hj & Hv). destruct j as [|j].
        -- left. cbn in Hj. inversion Hj; subst. f_equal. lia.
        -- right. exists j. auto.
    + rewrite Hrest. split.
      * intros (j & Hi & Hj & Hv). exists (S j). auto.
      * intros (j & Hi & Hj & Hv). destruct j as [|j].
        -- cbn in Hj. inversion Hj; subst. congruence.
        -- exists j. auto.
Qed.

(** The files of the frames never include a descriptor. *)
Lemma frame_files_no_descriptor (s : t) (cb : option callback)
    (l : list (nat * Frame.t)) :
  List.filter is_write_file (concat (map (frame_files s cb) l)) = [].
Proof.
  induction l as [|p l IH]; [reflexivity|].
  cbn [map concat]. rewrite List.filter_app, IH, app_nil_r.
  unfold frame_files.
  destruct (m_frameFormat s !! fst p) as [[[] quality]|], cb; reflexivity.
Qed.
End DescriptorFacts.

Lemma string_app_nil_l (a : string) : "" +:+ a = a.
Proof. reflexivity. Qed.

Lemma string_app_cons (c : ascii) (a b : string) :
  String c a +:+ b = String c (a +:+ b).
Proof. reflexivity. Qed.

Lemma string_app_assoc (a b c : string) : (a +:+ b) +:+ c = a +:+ b +:+ c.
Proof.
  induction a as [|x a IH]; [reflexivity|].
  rewrite !string_app_cons, IH. reflexivity.
Qed.

(** Texts put together by [+:+] are compared in one shape: characters in
    front, the rest appended to the right. *)
Create Rewrite HintDb string_shape.
#[local] Hint Rewrite string_app_assoc string_app_cons string_app_nil_l
  : string_shape.

Section ConversionFacts.
Import Stdio.

Lemma zeros_repeat (n : nat) :
  zeros n = string_of_list_ascii (repeat "0"%char n).
Proof.
  induction n as [|n IH]; [reflexivity|].
  cbn [zeros repeat string_of_list_ascii]. rewrite IH. reflexivity.
Qed.

Lemma pretty_abs (z : Z) : pretty (Z.abs_N z) = pretty (Z.abs z).
Proof. destruct z; reflexivity. Qed.

(** ["%0<w>i"] prints the padded decimal number. *)
Lemma printf_0i_padded (w : nat) (z : Z) :
  printf_0i w z = DescriptorText.padded w z.
Proof.
  unfold printf_0i, DescriptorText.padded.
  rewrite !zeros_repeat, pretty_abs.
  destruct (z <? 0); cbn [String.length].
  - reflexivity.
  - rewrite Nat.sub_0_r. reflexivity.
Qed.

(** ["%i"] prints the decimal number. *)
Lemma printf_i_pretty (z : Z) : printf_i z = pretty z.
Proof. destruct z; reflexivity. Qed.

Lemma pretty_of_nat (n : nat) : pretty (Z.of_nat n) = pretty n.
Proof. destruct n; reflexivity. Qed.
End ConversionFacts.

Section DescriptorTextFacts.
Context {platform : Platform}.
Import ImageSet.

(** One [<image ... />] line, character by character. *)
Lemma descriptor_line_text (s : t) (i : nat) (frame : Frame.t) :
  descriptor_line s (i, frame)
  = "<image name="
    +:+ DescriptorText.quoted
          ("img_" +:+ DescriptorText.padded 4 (m_fileId s)
           +:+ "_" +:+ DescriptorText.padded 2 (Z.of_nat i) +:+ ".jpg")
    +:+ " thumbnail="
    +:+ DescriptorText.quoted
          ("thumb_" +:+ DescriptorText.padded 4 (m_fileId s)
           +:+ "_" +:+ DescriptorText.padded 2 (Z.of_nat i) +:+ ".jpg")
    +:+ " flash="
    +:+ DescriptorText.quoted
          (if float_gt_zero (Frame.flash_brightness frame) then "1" else "0")
    +:+ " gain="
    +:+ DescriptorText.quoted (pretty (float_times_int (Frame.gain frame) 100))
    +:+ " exposure=" +:+ DescriptorText.quoted (pretty (Frame.exposure frame))
    +:+ " wb=" +:+ DescriptorText.quoted (pretty (Frame.whiteBalance frame))
    +:+ " focus=" +:+ DescriptorText.quoted (printf_2f (Frame.lens_focus frame))
    +:+ " />" +:+ DescriptorText.end_of_line.
Proof.
  unfold descriptor_line, image_element, image_attributes, attribute,
    Stdio.lines, sImageName, sThumbnailName, sJpegExt, Stdio.dquote,
    Stdio.newline, DescriptorText.quoted, DescriptorText.end_of_line.
  cbn [map fold_right fst snd].
  replace (Stdio.printf_i
             (if float_gt_zero (Frame.flash_brightness frame) then 1 else 0))
    with (if float_gt_zero (Frame.flash_brightness frame)
          then "1" else "0")%string
    by (destruct (float_gt_zero _); reflexivity).
  rewrite !printf_0i_padded, !printf_i_pretty.
  autorewrite with string_shape. reflexivity.
Qed.

(** The lines of the valid frames, listed along the frames of the set. *)
Lemma descriptor_lines_text (s : t) (frames : list Frame.t) :
  forall (k : nat) (line : nat -> Frame.t -> string),
    (forall i frame, line i frame = descriptor_line s (i, frame)) ->
    Stdio.lines (map (descriptor_line s)
                   (List.filter (fun p => Frame.valid (snd p))
                      (indexed_from k frames)))
    = DescriptorText.joined
        (imap (fun i frame =>
                 if Frame.valid frame then line (k + i)%nat frame else "")
           frames).
Proof.
  induction frames as [|frame rest IH]; intros k line Hline; [reflexivity|].
  cbn [indexed_from List.filter snd imap].
  rewrite (imap_ext _ (fun i frame =>
             if Frame.valid frame then line (S k + i)%nat frame else ""))
    by (intros i x _; cbn; rewrite Nat.add_succ_r; reflexivity).
  unfold DescriptorText.joined. cbn [foldr].
  fold (DescriptorText.joined
          (imap (fun i frame =>
                   if Frame.valid frame then line (S k + i)%nat frame else "")
             rest)).
  rewrite <- (IH (S k) line Hline).
  destruct (Frame.valid frame).
  - cbn [map Stdio.lines fold_right]. rewrite Nat.add_0_r, Hline.
    reflexivity.
  - reflexivity.
Qed.
End DescriptorTextFacts.

(** C5.  For a set with at least one valid frame [dumpToFileSystem] writes
    exactly one descriptor file, [img_<id>.xml] with the id of the set in
    four digits.  Its text is the XML header, the opening tag of
    [imagestack] whose [imagecount] is the number of valid frames, one
    [<image ... />] line per valid frame in frame order, and the closing
    tag.  The [name] and [thumbnail] of a line carry the id of the set and
    the position the frame has among all frames of the set, so invalid
    frames leave the numbering of the others alone; the remaining
    attributes are the flash flag (0 or 1), the gain times 100 as an
    integer, the exposure, the white balance and the focus of the
    frame. *)
Theorem dumpToFileSystem_descriptor (platform : Platform)
    (s : ImageSet.t) (cb : option ImageSet.callback) :
  ImageSet.well_formed s ->
  List.filter Frame.valid (ImageSet.m_frames s) <> [] ->
  exists rest : list ImageSet.event,
    ImageSet.dumpToFileSystem s cb
    = Some
        (ImageSet.WriteFile
           (ImageSet.m_outputDirPrefix s
            +:+ "img_" +:+ DescriptorText.padded 4 (ImageSet.m_fileId s)
            +:+ ".xml")
           ("<?xml version=" +:+ DescriptorText.quoted "1.0"
            +:+ " encoding=" +:+ DescriptorText.quoted "utf-8"
            +:+ "?>" +:+ DescriptorText.end_of_line
            +:+ "<imagestack imagecount="
            +:+ DescriptorText.quoted
                  (pretty (length (List.filter Frame.valid
                                     (ImageSet.m_frames s))))
            +:+ ">" +:+ DescriptorText.end_of_line
            +:+ DescriptorText.joined
                  (imap
                     (fun (i : nat) (frame : Frame.t) =>
                        if Frame.valid frame then
                          "<image name="
                          +:+ DescriptorText.quoted
                                ("img_"
                                 +:+ DescriptorText.padded 4
                                       (ImageSet.m_fileId s)
                                 +:+ "_"
                                 +:+ DescriptorText.padded 2 (Z.of_nat i)
                                 +:+ ".jpg")
                          +:+ " thumbnail="
                          +:+ DescriptorText.quoted
                                ("thumb_"
                                 +:+ DescriptorText.padded 4
                                       (ImageSet.m_fileId s)
                                 +:+ "_"
                                 +:+ DescriptorText.padded 2 (Z.of_nat i)
                                 +:+ ".jpg")
                          +:+ " flash="
                          +:+ DescriptorText.quoted
                                (if float_gt_zero
                                      (Frame.flash_brightness frame)
                                 then "1" else "0")
                          +:+ " gain="
                          +:+ DescriptorText.quoted
                                (pretty
                                   (float_times_int (Frame.gain frame) 100))
                          +:+ " exposure="
                          +:+ DescriptorText.quoted
                                (pretty (Frame.exposure frame))
                          +:+ " wb="
                          +:+ DescriptorText.quoted
                                (pretty (Frame.whiteBalance frame))
                          +:+ " focus="
                          +:+ DescriptorText.quoted
                                (printf_2f (Frame.lens_focus frame))
                          +:+ " />" +:+ DescriptorText.end_of_line
                        else "")
                     (ImageSet.m_frames s))
            +:+ "</imagestack>" +:+ DescriptorText.end_of_line)
         :: rest) /\
    List.filter ImageSet.is_write_file rest = [].
Proof.
  intros Hwf Hsome.
  rewrite (dumpToFileSystem_spec s cb Hwf).
  pose proof (valid_frames_frames s) as Hframes.
  destruct (ImageSet.valid_frames s) as [|p ps] eqn:Hvalid.
  { cbn in Hframes. congruence. }
  rewrite <- Hvalid in *. eexists. split.
  - cbn [app]. do 2 f_equal. f_equal.
    + unfold ImageSet.sXmlName. rewrite printf_0i_padded. reflexivity.
    + unfold ImageSet.descriptor, ImageSet.xml_header,
        ImageSet.imagestack_open, ImageSet.imagestack_close,
        ImageSet.valid_frames at 2.
      rewrite (descriptor_lines_text s (ImageSet.m_frames s) 0 _
                 (fun i frame => eq_sym (descriptor_line_text s i frame))).
      rewrite printf_i_pretty, pretty_of_nat.
      rewrite <- (length_map snd), Hframes.
      unfold Stdio.dquote, Stdio.newline, DescriptorText.quoted,
        DescriptorText.end_of_line.
      autorewrite with string_shape. reflexivity.
  - rewrite List.filter_app.
    replace (List.filter ImageSet.is_write_file (ImageSet.notify cb))
      with (@nil ImageSet.event) by (destruct cb; reflexivity).
    apply frame_files_no_descriptor.
Qed.

Lemma dumpToFileSystem_descriptor_witness :
  exists rest : list ImageSet.event,
    ImageSet.dumpToFileSystem (platform:=binary32_platform) example_set
      (Some ImageSet.OnFileSystemChanged)
    = Some
        (ImageSet.WriteFile "/tmp/x/img_0007.xml"
           ("<?xml version=" +:+ DescriptorText.quoted "1.0"
            +:+ " encoding=" +:+ DescriptorText.quoted "utf-8"
            +:+ "?>" +:+ DescriptorText.end_of_line
            +:+ "<imagestack imagecount=" +:+ DescriptorText.quoted "2"
            +:+ ">" +:+ DescriptorText.end_of_line
            +:+ "<image name=" +:+ DescriptorText.quoted "img_0007_00.jpg"
            +:+ " thumbnail=" +:+ DescriptorText.quoted "thumb_0007_00.jpg"
            +:+ " flash=" +:+ DescriptorText.quoted "0"
            +:+ " gain=" +:+ DescriptorText.quoted "100"
            +:+ " exposure=" +:+ DescriptorText.quoted "10000"
            +:+ " wb=" +:+ DescriptorText.quoted "5500"
            +:+ " focus=" +:+ DescriptorText.quoted "5.00"
            +:+ " />" +:+ DescriptorText.end_of_line
            +:+ "<image name=" +:+ DescriptorText.quoted "img_0007_02.jpg"
            +:+ " thumbnail=" +:+ DescriptorText.quoted "thumb_0007_02.jpg"
            +:+ " flash=" +:+ DescriptorText.quoted "1"
            +:+ " gain=" +:+ DescriptorText.quoted "100"
            +:+ " exposure=" +:+ DescriptorText.quoted "10000"
            +:+ " wb=" +:+ DescriptorText.quoted "5500"
            +:+ " focus=" +:+ DescriptorText.quoted "5.00"
            +:+ " />" +:+ DescriptorText.end_of_line
            +:+ "</imagestack>" +:+ DescriptorText.end_of_line)
         :: rest).
Proof.
  destruct (dumpToFileSystem_descriptor binary32_platform example_set
              (Some ImageSet.OnFileSystemChanged) example_set_well_formed
              ltac:(discriminate))
    as (rest & Hrun & _).
  exists rest. exact Hrun.
Defined.

(** ** The thumbnail downsampler *)

Lemma sar32_16 (a : Z) : sar32 a 16 = a / 65536.
Proof. unfold sar32. rewrite Z.shiftr_div_pow2 by lia. reflexivity. Qed.

Lemma load_in_range (a : list Z) (base k : Z) :
  0 <= base + k < Z.of_nat (length a) ->
  exists p, load a base k = Some p /\ a !! Z.to_nat (base + k) = Some p.
Proof.
  intros Hk. unfold load.
  destruct (Z.leb_spec 0 (base + k)); [|lia].
  destruct (lookup_lt_is_Some_2 a (Z.to_nat (base + k)) ltac:(lia)) as [p Hp].
  exists p. auto.
Qed.

Lemma store_in_range (a : list Z) (base k v : Z) :
  0 <= base + k < Z.of_nat (length a) ->
  store a base k v = Some (<[Z.to_nat (base + k) := v]> a).
Proof.
  intros Hk. unfold store.
  destruct (Z.leb_spec 0 (base + k)); [|lia].
  destruct (Z.ltb_spec (base + k) (Z.of_nat (length a))); [|lia].
  reflexivity.
Qed.

(** The value stored for a window whose 25 pixels are all [V]. *)
Lemma uniform_pixel (V : Z) :
  0 <= V <= 255 ->
  to_uchar (sar32 (mul32 (25 * V) Thumbnail.THUMBNAIL_BLUR_NORM) 16)
  = Z.shiftr (25 * V * Z.quot 65536 25) 16 /\
  V - 1 <= Z.shiftr (25 * V * Z.quot 65536 25) 16 <= V.
Proof.
  intros HV. change Thumbnail.THUMBNAIL_BLUR_NORM with 2621.
  change (Z.quot 65536 25) with 2621.
  unfold mul32. rewrite wrap32_small by (unfold INT_MIN, INT_MAX; lia).
  rewrite sar32_16. rewrite Z.shiftr_div_pow2 by lia.
  change (2 ^ 16) with 65536.
  assert (Hq : V - 1 <= 25 * V * 2621 / 65536 <= V).
  { split.
    - apply Z.div_le_lower_bound; lia.
    - apply Z.div_le_upper_bound; lia. }
  split; [|exact Hq].
  unfold to_uchar. apply Z.mod_small.
  split; [apply Z.div_pos; lia | lia].
Qed.

Section Downsample.
Import Thumbnail.
Variables (src : list Z) (srcbase srcWidth srcHeight : Z).
Hypothesis Hwidth : 5 <= srcWidth <= 32771.
Hypothesis Hheight : 5 <= srcHeight <= 32771.
Hypothesis Hbase : 0 <= srcbase.
Hypothesis Hsrc : srcbase + srcWidth * srcHeight <= Z.of_nat (length src).

Lemma plane_size : srcWidth * srcHeight <= 1073938441.
Proof. nia. Qed.

Lemma blur_x_spec (n : nat) :
  forall x srcindex sum : Z,
    0 <= x -> 0 <= srcindex ->
    srcindex + x + Z.of_nat n <= srcWidth * srcHeight ->
    exists s : Z,
      blur_x src srcbase srcindex n x sum = Some s /\
      (forall V : Z,
         uniform src V -> 0 <= V -> 0 <= sum ->
         sum + Z.of_nat n * V <= INT_MAX ->
         s = sum + Z.of_nat n * V).
Proof.
  pose proof plane_size as Hsize.
  induction n as [|n IH]; intros x srcindex sum Hx Hi Hend.
  - exists sum. split; [reflexivity|]. intros. lia.
  - cbn [blur_x].
    rewrite (add32_small srcindex x) by (unfold INT_MIN, INT_MAX; lia).
    destruct (load_in_range src srcbase (srcindex + x) ltac:(lia))
      as (p & Hload & Hp).
    rewrite Hload.
    rewrite (add32_small x 1) by (unfold INT_MIN, INT_MAX; lia).
    destruct (IH (x + 1) srcindex (add32 sum p) ltac:(lia) Hi ltac:(lia))
      as (s & Hs & Huniform).
    exists s. split; [exact Hs|].
    intros V HV HV0 Hsum Hmax. apply HV in Hp. subst p.
    rewrite add32_small in Huniform by (unfold INT_MIN; nia).
    rewrite (Huniform V HV HV0) by nia. lia.
Qed.

Lemma blur_y_spec (n : nat) :
  forall srcindex sum : Z,
    0 <= srcindex ->
    srcindex + Z.of_nat n * srcWidth <= srcWidth * srcHeight + srcWidth - 5 ->
    exists s : Z,
      blur_y src srcbase srcWidth n srcindex sum = Some s /\
      (forall V : Z,
         uniform src V -> 0 <= V -> 0 <= sum ->
         sum + Z.of_nat n * (5 * V) <= INT_MAX ->
         s = sum + Z.of_nat n * (5 * V)).
Proof.
  pose proof plane_size as Hsize.
  induction n as [|n IH]; intros srcindex sum Hi Hend.
  - exists sum. split; [reflexivity|]. intros. lia.
  - cbn [blur_y]. change (Z.to_nat THUMBNAIL_BLUR_RADIUS) with 5%nat.
    destruct (blur_x_spec 5 0 srcindex sum ltac:(lia) Hi ltac:(nia))
      as (s1 & Hs1 & Hu1).
    rewrite Hs1.
    rewrite (add32_small srcindex srcWidth)
      by (unfold INT_MIN, INT_MAX; nia).
    destruct (IH (srcindex + srcWidth) s1 ltac:(lia) ltac:(nia))
      as (s & Hs & Hu).
    exists s. split; [exact Hs|].
    intros V HV HV0 Hsum Hmax.
    rewrite (Hu1 V HV HV0 Hsum) in Hu by nia.
    rewrite (Hu V HV HV0) by nia. lia.
Qed.

Section Columns.
Variables (dstbase rowindex ax r : Z).
Hypothesis Hrow : rowindex = r * srcWidth.
Hypothesis Hr : 0 <= r <= srcHeight - 5.
Hypothesis Hax : 0 <= ax.

Lemma columns_spec (n : nat) :
  forall (dest : list Z) (dstindex tx : Z),
    0 <= tx ->
    tx + Z.of_nat n * ax <= (srcWidth - 4) * 65536 ->
    (n <> 0%nat -> tx + (Z.of_nat n - 1) * ax < (srcWidth - 4) * 65536) ->
    0 <= dstindex -> dstindex + Z.of_nat n <= INT_MAX ->
    0 <= dstbase + dstindex ->
    dstbase + dstindex + Z.of_nat n <= Z.of_nat (length dest) ->
    exists dest' : list Z,
      columns src srcbase srcWidth dstbase rowindex ax n dest dstindex tx
      = Some (dest', dstindex + Z.of_nat n) /\
      length dest' = length dest /\
      (forall V : Z,
         uniform src V -> 0 <= V <= 255 ->
         forall k : nat,
           dest' !! k
           = if decide (dstbase + dstindex <= Z.of_nat k
                        < dstbase + dstindex + Z.of_nat n)
             then Some (Z.shiftr (25 * V * Z.quot 65536 25) 16)
             else dest !! k).
Proof.
  pose proof plane_size as Hsize.
  induction n as [|n IH]; intros dest dstindex tx Htx Hlast Hthis Hd Hdmax
    Hlow Hhigh.
  - exists dest. split; [cbn; do 2 f_equal; lia|]. split; [reflexivity|].
    intros V _ _ k. case_decide; [lia | reflexivity].
  - cbn [columns]. change (Z.to_nat THUMBNAIL_BLUR_RADIUS) with 5%nat.
    specialize (Hthis ltac:(discriminate)).
    assert (Hcol : 0 <= tx / 65536 <= srcWidth - 5).
    { split; [apply Z.div_pos; lia|].
      assert (tx / 65536 < srcWidth - 4); [|lia].
      apply Z.div_lt_upper_bound; nia. }
    rewrite sar32_16.
    rewrite (add32_small rowindex) by (unfold INT_MIN, INT_MAX; nia).
    destruct (blur_y_spec 5 (rowindex + tx / 65536) 0 ltac:(nia) ltac:(nia))
      as (sum & Hsum & Hu).
    rewrite Hsum.
    rewrite store_in_range by lia.
    rewrite (add32_small dstindex 1) by (unfold INT_MIN; lia).
    rewrite (add32_small tx ax) by (unfold INT_MIN, INT_MAX; nia).
    set (pixel := to_uchar (sar32 (mul32 sum THUMBNAIL_BLUR_NORM) 16)) in *.
    destruct (IH (<[Z.to_nat (dstbase + dstindex) := pixel]> dest)
                (dstindex + 1) (tx + ax))
      as (dest' & Hrun & Hlen & Hvalue).
    + lia.
    + nia.
    + intros Hn. nia.
    + lia.
    + lia.
    + lia.
    + rewrite length_insert. lia.
    + exists dest'. split; [rewrite Hrun; do 2 f_equal; lia|].
      split; [rewrite Hlen; apply length_insert|].
      intros V HV HV255 k. rewrite (Hvalue V HV HV255 k).
      assert (Hpixel : pixel = Z.shiftr (25 * V * Z.quot 65536 25) 16).
      { unfold pixel. rewrite (Hu V HV) by (unfold INT_MAX; lia).
        replace (0 + Z.of_nat 5 * (5 * V)) with (25 * V) by lia.
        apply uniform_pixel, HV255. }
      repeat case_decide; try lia; try reflexivity.
      * replace k with (Z.to_nat (dstbase + dstindex)) by lia.
        rewrite list_lookup_insert_eq by lia. rewrite Hpixel. reflexivity.
      * apply list_lookup_insert_ne. lia.
Qed.
End Columns.

Section Rows.
Variables (dstbase dstWidth ax ay : Z).
Hypothesis HdstWidth : 1 <= dstWidth.
Hypothesis Hax : 0 <= ax.
Hypothesis Hax_last : dstWidth * ax <= (srcWidth - 4) * 65536.
Hypothesis Hax_this : (dstWidth - 1) * ax < (srcWidth - 4) * 65536.
Hypothesis Hay : 0 <= ay.

Lemma rows_spec (n : nat) :
  forall (dest : list Z) (dstindex ty : Z),
    0 <= ty ->
    ty + Z.of_nat n * ay <= (srcHeight - 4) * 65536 ->
    (n <> 0%nat -> ty + (Z.of_nat n - 1) * ay < (srcHeight - 4) * 65536) ->
    0 <= dstindex -> dstindex + Z.of_nat n * dstWidth <= INT_MAX ->
    0 <= dstbase + dstindex ->
    dstbase + dstindex + Z.of_nat n * dstWidth <= Z.of_nat (length dest) ->
    exists dest' : list Z,
      rows src srcbase srcWidth dstbase dstWidth ax ay n dest dstindex ty
      = Some dest' /\
      length dest' = length dest /\
      (forall V : Z,
         uniform src V -> 0 <= V <= 255 ->
         forall k : nat,
           dest' !! k
           = if decide (dstbase + dstindex <= Z.of_nat k
                        < dstbase + dstindex + Z.of_nat n * dstWidth)
             then Some (Z.shiftr (25 * V * Z.quot 65536 25) 16)
             else dest !! k).
Proof.
  pose proof plane_size as Hsize.
  induction n as [|n IH]; intros dest dstindex ty Hty Hlast Hthis Hd Hdmax
    Hlow Hhigh.
  - exists dest. split; [reflexivity|]. split; [reflexivity|].
    intros V _ _ k. case_decide; [lia | reflexivity].
  - cbn [rows]. specialize (Hthis ltac:(discriminate)).
    assert (Hline : 0 <= ty / 65536 <= srcHeight - 5).
    { split; [apply Z.div_pos; lia|].
      assert (ty / 65536 < srcHeight - 4); [|lia].
      apply Z.div_lt_upper_bound; nia. }
    rewrite sar32_16. unfold mul32.
    rewrite wrap32_small by (unfold INT_MIN, INT_MAX; nia).
    destruct (columns_spec dstbase (ty / 65536 * srcWidth) ax (ty / 65536)
                eq_refl Hline Hax (Z.to_nat dstWidth) dest dstindex 0)
      as (dest1 & Hrun1 & Hlen1 & Hvalue1).
    + lia.
    + rewrite Z2Nat.id by lia. lia.
    + intros _. rewrite Z2Nat.id by lia. lia.
    + lia.
    + rewrite Z2Nat.id by lia. nia.
    + lia.
    + rewrite Z2Nat.id by lia. nia.
    + rewrite Hrun1. rewrite Z2Nat.id in * by lia.
      rewrite (add32_small ty ay) by (unfold INT_MIN, INT_MAX; nia).
      destruct (IH dest1 (dstindex + dstWidth) (ty + ay))
        as (dest' & Hrun & Hlen & Hvalue).
      * lia.
      * nia.
      * intros Hn. nia.
      * lia.
      * nia.
      * lia.
      * rewrite Hlen1. nia.
      * exists dest'. split; [exact Hrun|].
        split; [congruence|].
        intros V HV HV255 k.
        rewrite (Hvalue V HV HV255 k), (Hvalue1 V HV HV255 k).
        repeat case_decide; try nia; reflexivity.
Qed.
End Rows.

(** The whole call: it stays inside both arrays, and a uniform source
    fills the destination window with one value. *)
Lemma DownsampleChannel_spec (dest : list Z) (dstbase dstWidth dstHeight : Z) :
  1 <= dstWidth -> 1 <= dstHeight ->
  dstWidth * dstHeight <= INT_MAX ->
  0 <= dstbase ->
  dstbase + dstWidth * dstHeight <= Z.of_nat (length dest) ->
  exists dest' : list Z,
    DownsampleChannel dest dstbase dstWidth dstHeight
      src srcbase srcWidth srcHeight = Some dest' /\
    length dest' = length dest /\
    (forall V : Z,
       uniform src V -> 0 <= V <= 255 ->
       forall k : nat,
         dest' !! k
         = if decide (dstbase <= Z.of_nat k
                      < dstbase + dstWidth * dstHeight)
           then Some (Z.shiftr (25 * V * Z.quot 65536 25) 16)
           else dest !! k).
Proof.
  intros Hdw Hdh Harea Hdb Hdest. unfold DownsampleChannel.
  change (Z.land THUMBNAIL_BLUR_RADIUS (Z.lnot 1)) with 4.
  unfold shl32, sub32. rewrite !(wrap32_small (_ - 4))
    by (unfold INT_MIN, INT_MAX; lia).
  rewrite !Z.shiftl_mul_pow2 by lia. change (2 ^ 16) with 65536.
  rewrite !wrap32_small by (unfold INT_MIN, INT_MAX; lia).
  unfold div32.
  destruct (Z.eqb_spec dstWidth 0); [lia|].
  destruct (Z.eqb_spec dstHeight 0); [lia|].
  destruct (Z.eqb_spec ((srcWidth - 4) * 65536) INT_MIN);
    [unfold INT_MIN in *; lia|].
  destruct (Z.eqb_spec ((srcHeight - 4) * 65536) INT_MIN);
    [unfold INT_MIN in *; lia|].
  cbn [andb]. rewrite !Z.quot_div_nonneg by lia.
  set (ax := (srcWidth - 4) * 65536 / dstWidth).
  set (ay := (srcHeight - 4) * 65536 / dstHeight).
  assert (Hax : 0 <= ax) by (apply Z.div_pos; lia).
  assert (Hay : 0 <= ay) by (apply Z.div_pos; lia).
  assert (Hax_last : dstWidth * ax <= (srcWidth - 4) * 65536)
    by (apply Z.mul_div_le; lia).
  assert (Hay_last : dstHeight * ay <= (srcHeight - 4) * 65536)
    by (apply Z.mul_div_le; lia).
  destruct (rows_spec dstbase dstWidth ax ay Hdw Hax Hax_last ltac:(nia) Hay
              (Z.to_nat dstHeight) dest 0 0)
    as (dest' & Hrun & Hlen & Hvalue);
    rewrite ?Z2Nat.id by lia; try nia.
  rewrite Z2Nat.id in Hvalue by lia.
  exists dest'. split; [exact Hrun|]. split; [exact Hlen|].
  intros V HV HV255 k. rewrite (Hvalue V HV HV255 k).
  repeat case_decide; try nia; reflexivity.
Qed.
End Downsample.

(** C10, within the reach of the fixed-point step.  For source extents
    from 5 to 32771 ([( extent - 4 ) << 16] is then an [int]) and a
    destination of at least one and at most [INT_MAX] pixels, every source
    read and every destination write of [DownsampleChannel] falls inside
    its array: the call has a result. *)
Theorem DownsampleChannel_in_bounds
    (dstWidth dstHeight srcWidth srcHeight : Z) :
  5 <= srcWidth <= 32771 ->
  5 <= srcHeight <= 32771 ->
  1 <= dstWidth -> 1 <= dstHeight ->
  dstWidth * dstHeight <= INT_MAX ->
  Thumbnail.in_bounds dstWidth dstHeight srcWidth srcHeight.
Proof.
  intros Hsw Hsh Hdw Hdh Harea dest src Hsrc Hdest.
  destruct (DownsampleChannel_spec src 0 srcWidth srcHeight Hsw Hsh
              ltac:(lia) ltac:(lia) dest 0 dstWidth dstHeight
              Hdw Hdh Harea ltac:(lia) ltac:(lia))
    as (dest' & Hrun & _).
  rewrite Hrun. eexists. reflexivity.
Qed.

Lemma DownsampleChannel_in_bounds_witness :
  Thumbnail.in_bounds 384 288 64 64.
Proof.
  apply DownsampleChannel_in_bounds; unfold INT_MAX; lia.
Defined.

(** C10 as worded fails: a plane 40000 pixels wide makes
    [( srcWidth - 4 ) << 16] overflow, the step comes out negative and the
    second pixel of the row is read before the start of the plane. *)
Lemma DownsampleChannel_in_bounds_counterexample :
  ~ Thumbnail.in_bounds 3 1 40000 5.
Proof.
  intros Hclaim.
  specialize (Hclaim [0; 0; 0] (replicate (Z.to_nat 200000) 0)
               ltac:(vm_compute; reflexivity) eq_refl).
  vm_compute in Hclaim. destruct Hclaim as [dest' Hrun]. discriminate.
Qed.

(** C7, within the reach of the fixed-point step.  For source extents
    from 5 to 32771 and a destination of at least one and at most
    [INT_MAX] pixels, a plane of the uniform value [V] in [0, 255] is
    downsampled to a plane whose every pixel is
    [(25 * V * (0x10000 / 25)) >> 16], which is [V] or [V - 1]. *)
Theorem DownsampleChannel_uniform
    (dstWidth dstHeight srcWidth srcHeight V : Z) :
  5 <= srcWidth <= 32771 ->
  5 <= srcHeight <= 32771 ->
  1 <= dstWidth -> 1 <= dstHeight ->
  dstWidth * dstHeight <= INT_MAX ->
  0 <= V <= 255 ->
  Thumbnail.uniform_output dstWidth dstHeight srcWidth srcHeight V /\
  V - 1 <= Z.shiftr (25 * V * Z.quot 65536 25) 16 <= V.
Proof.
  intros Hsw Hsh Hdw Hdh Harea HV.
  split; [|apply uniform_pixel, HV].
  intros dest Hdest.
  destruct (DownsampleChannel_spec
              (replicate (Z.to_nat (srcWidth * srcHeight)) V)
              0 srcWidth srcHeight Hsw Hsh ltac:(lia)
              ltac:(rewrite length_replicate; lia)
              dest 0 dstWidth dstHeight Hdw Hdh Harea ltac:(lia) ltac:(lia))
    as (dest' & Hrun & Hlen & Hvalue).
  rewrite Hrun. f_equal. apply list_eq. intros k.
  assert (Huniform :
    Thumbnail.uniform (replicate (Z.to_nat (srcWidth * srcHeight)) V) V).
  { intros j p Hp. apply lookup_replicate in Hp. tauto. }
  rewrite (Hvalue V Huniform HV k).
  case_decide as Hk.
  - symmetry. apply lookup_replicate_2. lia.
  - rewrite (lookup_ge_None_2 dest k) by lia.
    symmetry. apply lookup_replicate_None. lia.
Qed.

Lemma DownsampleChannel_uniform_witness :
  Thumbnail.uniform_output 384 288 64 64 128 /\
  127 <= Z.shiftr (25 * 128 * Z.quot 65536 25) 16 <= 128.
Proof.
  apply (DownsampleChannel_uniform 384 288 64 64 128);
    unfold INT_MAX; lia.
Defined.

(** C7 as worded fails: for a uniform plane 32772 pixels wide the step
    overflows and the call leaves the plane instead of producing the
    uniform output. *)
Lemma DownsampleChannel_uniform_counterexample :
  ~ Thumbnail.uniform_output 2 1 32772 5 200.
Proof.
  intros Hclaim. specialize (Hclaim [0; 0] eq_refl).
  vm_compute in Hclaim. discriminate.
Qed.

(** X25.  [CreateThumbnail] stays inside the source image and the
    thumbnail: a planar YUV 4:2:0 source from 10 to 32771 pixels wide and
    high that holds its three planes, and a thumbnail of at least 2 by 2
    pixels that holds its three planes. *)
Lemma CreateThumbnail_in_bounds (dest source : Thumbnail.Image) :
  Thumbnail.type source = Thumbnail.YUV420p ->
  10 <= Thumbnail.width source <= 32771 ->
  10 <= Thumbnail.height source <= 32771 ->
  Thumbnail.width source * Thumbnail.height source
  + Thumbnail.width source * Thumbnail.height source / 4
  + (Thumbnail.width source / 2) * (Thumbnail.height source / 2)
  <= Z.of_nat (length (Thumbnail.data source)) ->
  2 <= Thumbnail.width dest -> 2 <= Thumbnail.height dest ->
  Thumbnail.width dest * Thumbnail.height dest <= INT_MAX ->
  Thumbnail.width dest * Thumbnail.height dest
  + Thumbnail.width dest * Thumbnail.height dest / 4
  + (Thumbnail.width dest / 2) * (Thumbnail.height dest / 2)
  <= Z.of_nat (length (Thumbnail.data dest)) ->
  exists thumbnail : Thumbnail.Image,
    Thumbnail.CreateThumbnail dest source = Some thumbnail /\
    length (Thumbnail.data thumbnail) = length (Thumbnail.data dest).
Proof.
  destruct dest as [dt dw dh dd], source as [st sw sh sd]. cbn.
  intros -> Hsw Hsh Hsd Hdw Hdh Harea Hdd.
  unfold Thumbnail.CreateThumbnail. cbn.
  assert (Hhalf : forall a, sar32 a 1 = a / 2)
    by (intros a; unfold sar32; rewrite Z.shiftr_div_pow2 by lia;
        reflexivity).
  assert (Hquarter : forall a, sar32 a 2 = a / 4)
    by (intros a; unfold sar32; rewrite Z.shiftr_div_pow2 by lia;
        reflexivity).
  rewrite !Hhalf, !Hquarter. unfold mul32.
  rewrite !wrap32_small by (unfold INT_MIN, INT_MAX in *; nia).
  assert (0 <= sw * sh / 4) by (apply Z.div_pos; nia).
  assert (0 <= dw * dh / 4) by (apply Z.div_pos; nia).
  assert (5 <= sw / 2 <= 32771)
    by (split; [apply Z.div_le_lower_bound | apply Z.div_le_upper_bound];
        lia).
  assert (5 <= sh / 2 <= 32771)
    by (split; [apply Z.div_le_lower_bound | apply Z.div_le_upper_bound];
        lia).
  assert (1 <= dw / 2) by (apply Z.div_le_lower_bound; lia).
  assert (1 <= dh / 2) by (apply Z.div_le_lower_bound; lia).
  assert (dw / 2 <= dw) by (apply Z.div_le_upper_bound; lia).
  assert (dh / 2 <= dh) by (apply Z.div_le_upper_bound; lia).
  assert (sw / 2 * (sh / 2) <= sw * sh / 4).
  { apply Z.div_le_lower_bound; [lia|].
    pose proof (Z.mul_div_le sw 2 ltac:(lia)).
    pose proof (Z.mul_div_le sh 2 ltac:(lia)). nia. }
  assert (dw / 2 * (dh / 2) <= dw * dh / 4).
  { apply Z.div_le_lower_bound; [lia|].
    pose proof (Z.mul_div_le dw 2 ltac:(lia)).
    pose proof (Z.mul_div_le dh 2 ltac:(lia)). nia. }
  destruct (DownsampleChannel_spec sd 0 sw sh ltac:(lia) ltac:(lia)
              ltac:(lia) ltac:(lia) dd 0 dw dh ltac:(lia) ltac:(lia)
              Harea ltac:(lia) ltac:(lia))
    as (d1 & Hrun1 & Hlen1 & _).
  rewrite Hrun1.
  destruct (DownsampleChannel_spec sd (sw * sh) (sw / 2) (sh / 2)
              ltac:(lia) ltac:(lia) ltac:(nia) ltac:(lia)
              d1 (dw * dh) (dw / 2) (dh / 2) ltac:(lia) ltac:(lia)
              ltac:(nia) ltac:(nia) ltac:(lia))
    as (d2 & Hrun2 & Hlen2 & _).
  rewrite Hrun2.
  destruct (DownsampleChannel_spec sd (sw * sh + sw * sh / 4)
              (sw / 2) (sh / 2)
              ltac:(lia) ltac:(lia) ltac:(nia) ltac:(lia)
              d2 (dw * dh + dw * dh / 4) (dw / 2) (dh / 2)
              ltac:(lia) ltac:(lia) ltac:(nia) ltac:(nia) ltac:(lia))
    as (d3 & Hrun3 & Hlen3 & _).
  rewrite Hrun3. eexists. split; [reflexivity|]. cbn. congruence.
Qed.

(** ** The pieces together *)

(** The end-to-end scenario: resolving the queued requests creates the
    writer, makes one capture of two shots between the two notifications
    and queues one image set of two frames, with file id 0, for the writer
    thread. *)
Example scenario_capture :
  (fun st =>
     (FCamInterface.trace st, FCamInterface.isCapturing st,
      FCamInterface.sFreeId st,
      (fun w =>
         map (fmap (fun s => (ImageSet.m_fileId s,
                              length (ImageSet.m_frames s))))
           (WorkQueue.m_queue (AsyncImageWriter.m_queue w)))
      <$> FCamInterface.writer st))
  <$> FCamInterface.resolve_requests (platform:=binary32_platform)
        example_sensor scenario
  = Some ([FCamInterface.NotifyCaptureStart;
           FCamInterface.StopStreaming;
           FCamInterface.DrainPendingFrames;
           FCamInterface.Capture 1176256512 1065353216 1168891904 false;
           FCamInterface.Capture 1176256512 1065353216 1168891904 true;
           FCamInterface.NotifyCaptureComplete],
          false, 1, Some [Some (0, 2%nat)]).
Proof. vm_compute. reflexivity. Qed.

(** The writer thread then writes one descriptor and the files of the two
    frames; the callback is invoked three times. *)
Example scenario_files :
  (fun events =>
     (descriptors_written events, ImageSet.invocations events,
      List.filter (fun e => negb (ImageSet.is_write_file e)) events))
  <$> scenario_events
  = Some (["/tmp/x/img_0000.xml"], 3%nat,
          [ImageSet.Invoke ImageSet.OnFileSystemChanged;
           ImageSet.SaveFrame "/tmp/x/img_0000_00.jpg" 0 95;
           ImageSet.SaveThumbnail "/tmp/x/thumb_0000_00.jpg" 95;
           ImageSet.Invoke ImageSet.OnFileSystemChanged;
           ImageSet.SaveFrame "/tmp/x/img_0000_01.jpg" 1 95;
           ImageSet.SaveThumbnail "/tmp/x/thumb_0000_01.jpg" 95;
           ImageSet.Invoke ImageSet.OnFileSystemChanged]).
Proof. vm_compute. reflexivity. Qed.

(** The descriptor lists the two images with the flash off and on. *)
Example scenario_descriptor :
  scenario_attributes
  = Some [ [("name", "img_0000_00.jpg"); ("thumbnail", "thumb_0000_00.jpg");
            ("flash", "0"); ("gain", "100"); ("exposure", "10000");
            ("wb", "5500"); ("focus", "5.00")];
           [("name", "img_0000_01.jpg"); ("thumbnail", "thumb_0000_01.jpg");
            ("flash", "1"); ("gain", "100"); ("exposure", "10000");
            ("wb", "5500"); ("focus", "5.00")] ].
Proof. vm_compute. reflexivity. Qed.

(** Sets pushed with the ids 3, 1 and 2 are written in that order. *)
Example descriptors_in_push_order :
  forall w : AsyncImageWriter.t,
    AsyncImageWriter.create "/tmp/x" = Some w ->
    let queued :=
      WorkQueue.m_queue
        (AsyncImageWriter.m_queue
           (AsyncImageWriter.push (Some (example_set_numbered 2))
              (AsyncImageWriter.push (Some (example_set_numbered 1))
                 (AsyncImageWriter.push (Some (example_set_numbered 3))
                    w)))) in
    descriptors_written
      <$> AsyncImageWriter.ThreadProc (platform:=binary32_platform) queued w
    = Some ["/tmp/x/img_0003.xml"; "/tmp/x/img_0001.xml";
            "/tmp/x/img_0002.xml"].
Proof.
  intros w Hw. vm_compute in Hw. injection Hw as <-. vm_compute. reflexivity.
Qed.

(** ** Triple buffer: any interleaving of producer and consumer *)

Section HandoffFacts.
Context {T : Type}.

Lemma handoff_step_buffers (c : Handoff.swap) (tb : TripleBuffer.t T) :
  Handoff.buffers (Handoff.step c tb) ≡ₚ Handoff.buffers tb.
Proof.
  destruct tb as [f b s u], c; unfold Handoff.step, Handoff.buffers;
    cbn.
  - (* back and spare change places *)
    apply perm_skip, perm_swap.
  - unfold TripleBuffer.swapFrontBuffer. cbn. destruct u; cbn.
    + (* front and spare change places *)
      transitivity [b; s; f]; [apply perm_swap|].
      transitivity [b; f; s]; [apply perm_skip, perm_swap|apply perm_swap].
    + reflexivity.
Qed.
End HandoffFacts.

(** X1.  Whatever the order in which the producer calls [swapBackBuffer]
    and the consumer calls [swapFrontBuffer], the three slots always hold
    the three buffers the object was built with, each exactly once; so,
    built with three different buffers, the back buffer the producer
    writes is never the front buffer the consumer reads. *)
Theorem TripleBuffer_roles_stay_apart (T : Type)
    (calls : list Handoff.swap) (tb : TripleBuffer.t T) :
  NoDup (Handoff.buffers tb) ->
  Handoff.buffers (Handoff.run calls tb) ≡ₚ Handoff.buffers tb /\
  NoDup (Handoff.buffers (Handoff.run calls tb)) /\
  TripleBuffer.getBackBuffer (Handoff.run calls tb)
  <> TripleBuffer.getFrontBuffer (Handoff.run calls tb) /\
  TripleBuffer.m_spareBuffer (Handoff.run calls tb)
  <> TripleBuffer.getFrontBuffer (Handoff.run calls tb) /\
  TripleBuffer.getBackBuffer (Handoff.run calls tb)
  <> TripleBuffer.m_spareBuffer (Handoff.run calls tb).
Proof.
  intros Hdistinct.
  assert (Hperm : Handoff.buffers (Handoff.run calls tb)
                  ≡ₚ Handoff.buffers tb).
  { clear Hdistinct. revert tb. induction calls as [|c calls IH]; intros tb.
    - reflexivity.
    - cbn. unfold Handoff.run in IH. rewrite IH.
      apply handoff_step_buffers. }
  assert (Hnodup : NoDup (Handoff.buffers (Handoff.run calls tb)))
    by (rewrite Hperm; exact Hdistinct).
  split; [exact Hperm|]. split; [exact Hnodup|].
  unfold Handoff.buffers in Hnodup.
  apply NoDup_cons in Hnodup as [Hfront Hrest].
  apply NoDup_cons in Hrest as [Hback _].
  rewrite !not_elem_of_cons in Hfront, Hback.
  unfold TripleBuffer.getBackBuffer, TripleBuffer.getFrontBuffer.
  set (r := Handoff.run calls tb) in *.
  destruct Hfront as (Hfb & Hfs), Hback as (Hbs & _).
  rewrite not_elem_of_cons in Hfs. destruct Hfs as (Hfs & _).
  repeat split; intros Heq; congruence.
Qed.

Lemma TripleBuffer_roles_stay_apart_witness :
  TripleBuffer.getBackBuffer
    (Handoff.run [Handoff.SwapBack; Handoff.SwapFront; Handoff.SwapBack]
       (TripleBuffer.create 0 1 2))
  <> TripleBuffer.getFrontBuffer
       (Handoff.run [Handoff.SwapBack; Handoff.SwapFront; Handoff.SwapBack]
          (TripleBuffer.create 0 1 2)).
Proof.
  refine (proj1 (proj2 (proj2
    (TripleBuffer_roles_stay_apart Z
       [Handoff.SwapBack; Handoff.SwapFront; Handoff.SwapBack]
       (TripleBuffer.create 0 1 2) _)))).
  unfold Handoff.buffers. cbn.
  repeat constructor; rewrite ?not_elem_of_cons; intuition (try lia);
    try (inversion H).
Defined.

Section PreviewHistories.
Context {frame : Type}.

Lemma pending_publish (image : frame) (pb : PreviewBuffer.t frame) :
  PreviewBuffer.valid pb ->
  Handoff.pending (PreviewBuffer.publish image pb) = Some image.
Proof.
  intros (_ & Hback & _). unfold Handoff.pending, PreviewBuffer.acquire.
  cbn. apply list_lookup_insert_eq, Hback.
Qed.

Lemma pending_acquire (pb : PreviewBuffer.t frame) :
  Handoff.pending (snd (PreviewBuffer.acquire pb)) = Handoff.pending pb.
Proof.
  unfold Handoff.pending, PreviewBuffer.acquire,
    TripleBuffer.swapFrontBuffer.
  destruct pb as [[f b s []] bufs]; reflexivity.
Qed.

Lemma acquire_valid (pb : PreviewBuffer.t frame) :
  PreviewBuffer.valid pb -> PreviewBuffer.valid (snd (PreviewBuffer.acquire pb)).
Proof.
  unfold PreviewBuffer.valid, PreviewBuffer.acquire,
    TripleBuffer.swapFrontBuffer.
  destruct pb as [[f b s []] bufs]; cbn; tauto.
Qed.

Lemma preview_step_valid (c : Handoff.call frame) (pb : PreviewBuffer.t frame) :
  PreviewBuffer.valid pb -> PreviewBuffer.valid (Handoff.preview_step c pb).
Proof.
  destruct c as [image|]; [apply publish_valid | apply acquire_valid].
Qed.

Lemma preview_step_slots (c : Handoff.call frame)
    (pb : PreviewBuffer.t frame) :
  PreviewBuffer.slots (Handoff.preview_step c pb)
  = Handoff.step
      (match c with
       | Handoff.Publish _ => Handoff.SwapBack
       | Handoff.Acquire => Handoff.SwapFront
       end)
      (PreviewBuffer.slots pb).
Proof.
  destruct c as [image|]; [reflexivity|].
  unfold Handoff.preview_step, PreviewBuffer.acquire, Handoff.step.
  destruct (TripleBuffer.swapFrontBuffer (PreviewBuffer.slots pb));
    reflexivity.
Qed.

(** Validity and distinctness of the three slots survive every call. *)
Lemma preview_run_slots (calls : list (Handoff.call frame)) :
  forall pb : PreviewBuffer.t frame,
    PreviewBuffer.valid pb ->
    NoDup (Handoff.buffers (PreviewBuffer.slots pb)) ->
    PreviewBuffer.valid (Handoff.preview_run calls pb) /\
    NoDup (Handoff.buffers (PreviewBuffer.slots (Handoff.preview_run calls pb))).
Proof.
  induction calls as [|c calls IH]; intros pb Hvalid Hdistinct.
  - split; assumption.
  - apply IH.
    + apply preview_step_valid, Hvalid.
    + rewrite preview_step_slots, handoff_step_buffers. exact Hdistinct.
Qed.

(** A published frame goes to the back buffer: the slot of the front
    buffer and what it holds stay as they are. *)
Lemma publish_front (image : frame) (pb : PreviewBuffer.t frame) :
  NoDup (Handoff.buffers (PreviewBuffer.slots pb)) ->
  TripleBuffer.getFrontBuffer (PreviewBuffer.slots (PreviewBuffer.publish image pb))
  = TripleBuffer.getFrontBuffer (PreviewBuffer.slots pb) /\
  PreviewBuffer.m_viewBuffers (PreviewBuffer.publish image pb)
    !! TripleBuffer.getFrontBuffer (PreviewBuffer.slots pb)
  = PreviewBuffer.m_viewBuffers pb
      !! TripleBuffer.getFrontBuffer (PreviewBuffer.slots pb).
Proof.
  intros Hdistinct. split; [reflexivity|].
  unfold PreviewBuffer.publish. cbn.
  apply list_lookup_insert_ne.
  unfold Handoff.buffers in Hdistinct.
  apply NoDup_cons in Hdistinct as [Hfront _].
  rewrite not_elem_of_cons in Hfront. destruct Hfront as [Hne _].
  unfold TripleBuffer.getBackBuffer, TripleBuffer.getFrontBuffer.
  congruence.
Qed.
End PreviewHistories.

(** X2.  Whatever the order in which the capture thread publishes frames
    into a preview buffer and the renderer acquires the front buffer,
    every acquisition delivers the frame published last before it (or,
    before the first frame of the history, the frame that was pending when
    the history began): no older frame is ever shown after a newer one. *)
Theorem PreviewBuffer_delivers_newest (frame : Type)
    (calls : list (Handoff.call frame)) (pb : PreviewBuffer.t frame) :
  PreviewBuffer.valid pb ->
  Handoff.deliveries calls pb = Handoff.newest calls (Handoff.pending pb).
Proof.
  revert pb. induction calls as [|c calls IH]; intros pb Hvalid.
  - reflexivity.
  - destruct c as [image|]; cbn [Handoff.deliveries Handoff.newest].
    + rewrite IH by (apply publish_valid, Hvalid).
      rewrite pending_publish by exact Hvalid. reflexivity.
    + pose proof (pending_acquire pb) as Hsame.
      pose proof (acquire_valid pb Hvalid) as Hvalid'.
      assert (Hnow : fst (PreviewBuffer.acquire pb) = Handoff.pending pb)
        by reflexivity.
      destruct (PreviewBuffer.acquire pb) as [delivered pb'].
      cbn [fst snd] in *. rewrite IH by exact Hvalid'.
      rewrite Hsame, Hnow. reflexivity.
Qed.

Lemma PreviewBuffer_delivers_newest_witness :
  Handoff.deliveries
    [Handoff.Publish 10; Handoff.Acquire; Handoff.Publish 20;
     Handoff.Publish 30; Handoff.Acquire; Handoff.Acquire]
    (PreviewBuffer.create 0)
  = [Some 10; Some 30; Some 30].
Proof.
  refine (PreviewBuffer_delivers_newest Z
            [Handoff.Publish 10; Handoff.Acquire; Handoff.Publish 20;
             Handoff.Publish 30; Handoff.Acquire; Handoff.Acquire]
            (PreviewBuffer.create 0) _).
  unfold PreviewBuffer.valid. cbn. lia.
Defined.

(** X3.  The buffer the renderer holds is never written: after any
    history of calls on a preview buffer as its constructor builds it, the
    capture thread can publish any number of frames and the front slot
    still names the same buffer, with the same contents. *)
Theorem PreviewBuffer_front_is_stable (frame : Type) (blank : frame)
    (calls : list (Handoff.call frame)) (images : list frame) :
  TripleBuffer.getFrontBuffer
    (PreviewBuffer.slots
       (PreviewBuffer.publish_all images
          (Handoff.preview_run calls (PreviewBuffer.create blank))))
  = TripleBuffer.getFrontBuffer
      (PreviewBuffer.slots
         (Handoff.preview_run calls (PreviewBuffer.create blank))) /\
  PreviewBuffer.m_viewBuffers
    (PreviewBuffer.publish_all images
       (Handoff.preview_run calls (PreviewBuffer.create blank)))
    !! TripleBuffer.getFrontBuffer
         (PreviewBuffer.slots
            (Handoff.preview_run calls (PreviewBuffer.create blank)))
  = PreviewBuffer.m_viewBuffers
      (Handoff.preview_run calls (PreviewBuffer.create blank))
      !! TripleBuffer.getFrontBuffer
           (PreviewBuffer.slots
              (Handoff.preview_run calls (PreviewBuffer.create blank))).
Proof.
  destruct (preview_run_slots calls (PreviewBuffer.create blank))
    as [_ Hdistinct].
  { unfold PreviewBuffer.valid. cbn. lia. }
  { unfold Handoff.buffers. cbn.
    repeat constructor; rewrite ?not_elem_of_cons, ?elem_of_nil; lia. }
  generalize dependent (Handoff.preview_run calls (PreviewBuffer.create blank)).
  induction images as [|image images IH]; intros pb Hdistinct.
  - split; reflexivity.
  - change (PreviewBuffer.publish_all (image :: images) pb)
      with (PreviewBuffer.publish_all images (PreviewBuffer.publish image pb)).
    destruct (publish_front image pb Hdistinct) as [Hslot Hdata].
    destruct (IH (PreviewBuffer.publish image pb)) as [Hslot' Hdata'].
    { change (PreviewBuffer.slots (PreviewBuffer.publish image pb))
        with (Handoff.step Handoff.SwapBack (PreviewBuffer.slots pb)).
      rewrite handoff_step_buffers. exact Hdistinct. }
    rewrite Hslot in Hslot', Hdata'. split; congruence.
Qed.

(** ** The preview texture *)

Lemma swapFrontBuffer_returns_front {T : Type} (tb : TripleBuffer.t T) :
  fst (TripleBuffer.swapFrontBuffer tb)
  = TripleBuffer.getFrontBuffer (snd (TripleBuffer.swapFrontBuffer tb)).
Proof.
  unfold TripleBuffer.swapFrontBuffer.
  destruct (TripleBuffer.m_updateFrontBuffer tb); reflexivity.
Qed.

Lemma memcpy_app (before old after src_before chunk src_after : list Z) :
  length old = length chunk ->
  Viewer.memcpy (before ++ old ++ after) (Z.of_nat (length before))
    (src_before ++ chunk ++ src_after) (Z.of_nat (length src_before))
    (Z.of_nat (length chunk))
  = Some (before ++ chunk ++ after).
Proof.
  intros Hlen. unfold Viewer.memcpy.
  rewrite !length_app.
  destruct (Z.leb_spec 0 (Z.of_nat (length chunk))); [|lia].
  destruct (Z.leb_spec 0 (Z.of_nat (length before))); [|lia].
  destruct (Z.leb_spec 0 (Z.of_nat (length src_before))); [|lia].
  destruct (Z.leb_spec (Z.of_nat (length before) + Z.of_nat (length chunk))
              (Z.of_nat (length before + (length old + length after))));
    [|lia].
  destruct (Z.leb_spec
              (Z.of_nat (length src_before) + Z.of_nat (length chunk))
              (Z.of_nat (length src_before
                         + (length chunk + length src_after)))); [|lia].
  cbn [andb]. f_equal.
  rewrite !Nat2Z.id.
  rewrite take_app_length, drop_app_length, take_app_length.
  replace (Z.to_nat (Z.of_nat (length before) + Z.of_nat (length chunk)))
    with (length before + length old)%nat by lia.
  rewrite drop_app_add, drop_app_length. reflexivity.
Qed.

(** The three copies on buffers cut into their planes. *)
Lemma copy_planes_spec (Y U V srest D1 D2 D3 drest : list Z) (isize : Z) :
  Z.of_nat (length Y) = isize ->
  Z.of_nat (length U) = sar32 isize 2 ->
  length V = length U ->
  length D1 = length Y -> length D2 = length U -> length D3 = length U ->
  Viewer.copy_planes (D1 ++ D2 ++ D3 ++ drest) (Y ++ U ++ V ++ srest) isize
  = Some (Y ++ V ++ U ++ drest).
Proof.
  intros HY HU HV H1 H2 H3. unfold Viewer.copy_planes.
  rewrite <- HU, <- HY.
  pose proof (memcpy_app [] D1 (D2 ++ D3 ++ drest) [] Y (U ++ V ++ srest) H1)
    as Hfirst.
  cbn [app length] in Hfirst. change (Z.of_nat 0) with 0 in Hfirst.
  rewrite Hfirst. cbn [mbind option_bind].
  pose proof (memcpy_app Y D2 (D3 ++ drest) (Y ++ U) V srest
                ltac:(congruence)) as Hsecond.
  rewrite length_app, Nat2Z.inj_add, <- !app_assoc, HV in Hsecond.
  rewrite Hsecond. cbn [mbind option_bind].
  pose proof (memcpy_app (Y ++ V) D3 drest Y U (V ++ srest) H3) as Hthird.
  rewrite length_app, Nat2Z.inj_add, <- !app_assoc, HV in Hthird.
  exact Hthird.
Qed.

Section ViewerFacts.
Context (surface : Z -> Z -> list Z).
Import Viewer.

Lemma create_coherent (blank : list Z) :
  PreviewBuffer.valid (PreviewBuffer.create blank) /\
  NoDup (Handoff.buffers (PreviewBuffer.slots (PreviewBuffer.create blank))).
Proof.
  split.
  - unfold PreviewBuffer.valid. cbn. lia.
  - unfold Handoff.buffers. cbn.
    repeat constructor; rewrite ?not_elem_of_cons, ?elem_of_nil; lia.
Qed.

Lemma lockViewerTexture_coherent (tid : Z) (v : t) :
  0 <= tid <= INT_MAX ->
  coherent v -> coherent (snd (lockViewerTexture surface tid v)).
Proof.
  intros Htid [Hslots Htex]. unfold lockViewerTexture.
  destruct (Z.leb_spec 0 (previewBufferTexId v)) as [Hid|Hid].
  - split; [exact Hslots|]. cbn.
    destruct (Z.leb_spec 0 (previewBufferTexId v)); [exact Htex | lia].
  - destruct (currentCamera v) as [camera|]; [|split; [exact Hslots|exact Htex]].
    set (pb0 := match previewBuffer v with
                | Some pb => pb
                | None => newPreviewBuffer surface _ _
                end).
    set (pb := if _ : bool then newPreviewBuffer surface _ _ else pb0).
    assert (Hpb : PreviewBuffer.valid (triple pb) /\
                  NoDup (Handoff.buffers (PreviewBuffer.slots (triple pb)))).
    { subst pb. destruct (_ || _); [apply create_coherent|].
      subst pb0. destruct (previewBuffer v) as [pb1|] eqn:Hpb1;
        [apply Hslots; reflexivity | apply create_coherent]. }
    clearbody pb. clear pb0.
    pose proof (swapFrontBuffer_returns_front
                  (PreviewBuffer.slots (triple pb))) as Hfront.
    pose proof (handoff_step_buffers Handoff.SwapFront
                  (PreviewBuffer.slots (triple pb))) as Hperm.
    pose proof (acquire_valid (triple pb) (proj1 Hpb)) as Hvalid.
    unfold Handoff.step in Hperm. unfold PreviewBuffer.acquire in Hvalid.
    destruct (TripleBuffer.swapFrontBuffer (PreviewBuffer.slots (triple pb)))
      as [buffer slots'].
    cbn [fst snd] in *. rewrite wrap32_small by (unfold INT_MIN; lia).
    split.
    + cbn. intros pb' [= <-]. cbn. split; [exact Hvalid|].
      rewrite Hperm. exact (proj2 Hpb).
    + cbn. destruct (Z.leb_spec 0 tid); [|lia].
      eexists. split; [reflexivity|]. cbn. rewrite Htex, Hfront. reflexivity.
Qed.

Lemma unlockViewerTexture_coherent (v : t) :
  coherent v -> coherent (unlockViewerTexture v).
Proof.
  intros [Hslots Htex]. unfold unlockViewerTexture.
  destruct (Z.leb_spec 0 (previewBufferTexId v)) as [Hid|Hid].
  - split; [exact Hslots|]. cbn.
    destruct Htex as (pb & _ & ->). cbn. rewrite Z.eqb_refl. reflexivity.
  - split; [exact Hslots|].
    destruct (Z.leb_spec 0 (previewBufferTexId v)); [lia | exact Htex].
Qed.

(** "update framebuffer" leaves alone what the live textures show. *)
Lemma update_framebuffer_coherent (image : Thumbnail.Image) (v v' : t) :
  coherent v -> update_framebuffer image v = Some v' ->
  coherent v' /\ shown v' = shown v /\
  previewBufferTexId v' = previewBufferTexId v.
Proof.
  intros Hv Hrun.
  assert (Hsame : coherent v /\ shown v = shown v /\
                  previewBufferTexId v = previewBufferTexId v)
    by (split; [exact Hv | split; reflexivity]).
  destruct Hv as [Hslots Htex]. unfold update_framebuffer in Hrun.
  destruct (previewBuffer v) as [pb|] eqn:Hpb;
    [|injection Hrun as <-; exact Hsame].
  destruct (Hslots pb eq_refl) as [Hvalid Hdistinct].
  destruct (_ && _); [|injection Hrun as <-; exact Hsame].
  clear Hsame.
  destruct (currentCamera v) as [camera|]; [|discriminate].
  cbn [mbind option_bind] in Hrun.
  destruct (_ !! _) as [dest|]; [|discriminate].
  cbn [mbind option_bind] in Hrun.
  destruct (copy_planes _ _ _) as [filled|]; [|discriminate].
  cbn [mbind option_bind] in Hrun. injection Hrun as <-.
  destruct (publish_front filled (triple pb) Hdistinct) as [Hfront Hdata].
  split; [split|split; [|reflexivity]].
  - cbn. intros pb' [= <-]. cbn. split; [apply publish_valid, Hvalid|].
    change (NoDup (Handoff.buffers
                     (Handoff.step Handoff.SwapBack
                        (PreviewBuffer.slots (triple pb))))).
    rewrite handoff_step_buffers. exact Hdistinct.
  - cbn. destruct (0 <=? previewBufferTexId v); [|exact Htex].
    destruct Htex as (pb1 & [= <-] & Htex).
    eexists. split; [reflexivity|]. exact Htex.
  - unfold shown. cbn [previewBuffer textures].
    destruct (0 <=? previewBufferTexId v).
    + destruct Htex as (pb1 & [= <-] & ->). cbn [map fst snd].
      cbn [mbind option_bind triple]. rewrite Hdata, Hpb. reflexivity.
    + rewrite Htex. reflexivity.
Qed.

Lemma run_coherent (calls : list call) :
  forall v v' : t,
    small_names calls -> coherent v ->
    run surface calls v = Some v' -> coherent v'.
Proof.
  induction calls as [|c calls IH]; intros v v' Hnames Hv Hrun.
  - cbn in Hrun. congruence.
  - inversion Hnames as [|? ? Hc Hrest]; subst. cbn [run] in Hrun.
    destruct (step surface c v) as [v1|] eqn:Hstep; [|discriminate].
    cbn [mbind option_bind] in Hrun.
    refine (IH v1 v' Hrest _ Hrun).
    destruct c as [tid| |image|camera]; cbn [step] in Hstep.
    + injection Hstep as <-. apply lockViewerTexture_coherent; assumption.
    + injection Hstep as <-. apply unlockViewerTexture_coherent, Hv.
    + apply (update_framebuffer_coherent image v v1 Hv Hstep).
    + injection Hstep as <-. exact Hv.
Qed.
End ViewerFacts.

(** X4.  However the renderer locks and unlocks the preview texture while
    the capture thread updates the framebuffer and changes camera, at most
    one texture is live, it is live exactly while its id is cached, it
    shows the front buffer of the preview buffer, and the next "update
    framebuffer" changes neither the id nor a single byte of what the
    texture shows. *)
Theorem Viewer_texture_is_stable (surface : Z -> Z -> list Z)
    (calls : list Viewer.call) (v : Viewer.t) (image : Thumbnail.Image)
    (v' : Viewer.t) :
  Viewer.small_names calls ->
  Viewer.run surface calls Viewer.initial = Some v ->
  Viewer.update_framebuffer image v = Some v' ->
  Viewer.shown v' = Viewer.shown v /\
  Viewer.previewBufferTexId v' = Viewer.previewBufferTexId v /\
  (Viewer.previewBufferTexId v < 0 -> Viewer.textures v = []) /\
  (0 <= Viewer.previewBufferTexId v ->
   exists pb,
     Viewer.previewBuffer v = Some pb /\
     Viewer.textures v
     = [(Viewer.previewBufferTexId v,
         TripleBuffer.getFrontBuffer
           (PreviewBuffer.slots (Viewer.triple pb)))]).
Proof.
  intros Hnames Hrun Hupdate.
  assert (Hv : Viewer.coherent v).
  { apply (run_coherent surface calls Viewer.initial v Hnames); [|exact Hrun].
    split; [discriminate | reflexivity]. }
  destruct (update_framebuffer_coherent image v v' Hv Hupdate)
    as (_ & Hshown & Hid).
  split; [exact Hshown|]. split; [exact Hid|].
  destruct Hv as [_ Htex]. split; intros Hsign.
  - destruct (Z.leb_spec 0 (Viewer.previewBufferTexId v)); [lia|exact Htex].
  - destruct (Z.leb_spec 0 (Viewer.previewBufferTexId v)); [exact Htex|lia].
Qed.

Lemma Viewer_texture_is_stable_witness :
  exists v' : Viewer.t,
    Viewer.update_framebuffer example_preview_frame example_viewer = Some v' /\
    Viewer.shown v' = [(8, Some [11; 12; 13; 14; 60; 50])].
Proof.
  eexists. split; [vm_compute; reflexivity|].
  refine (proj1 (Viewer_texture_is_stable example_surface
                   example_viewer_calls example_viewer example_preview_frame
                   _ _ _ _)).
  - unfold Viewer.small_names, example_viewer_calls.
    repeat constructor; unfold INT_MAX; lia.
  - vm_compute. reflexivity.
  - vm_compute. reflexivity.
Defined.

(** X5.  "update framebuffer" on a preview buffer of the extents of the
    captured image, for a camera of [isize] pixels: when the image holds
    its luminance plane [Y] and its chroma planes [U] and [V] ([isize >> 2]
    bytes each) and the back buffer has room for them, the step stays
    inside both arrays, and the frame the renderer acquires next is [Y]
    followed by [V] and then [U]: the chroma planes change places, the
    bytes behind them are those the buffer held before. *)
Theorem update_framebuffer_exchanges_chroma
    (v : Viewer.t) (pb : Viewer.PreviewBufferObject)
    (camera : FCamInterface.CameraObject) (image : Thumbnail.Image)
    (Y U V srest D1 D2 D3 drest : list Z) :
  Viewer.previewBuffer v = Some pb ->
  Viewer.currentCamera v = Some camera ->
  Viewer.m_width pb = Thumbnail.width image ->
  Viewer.m_height pb = Thumbnail.height image ->
  PreviewBuffer.valid (Viewer.triple pb) ->
  0 <= FCamInterface.m_imageWidth camera * FCamInterface.m_imageHeight camera
    <= INT_MAX ->
  Thumbnail.data image = Y ++ U ++ V ++ srest ->
  PreviewBuffer.m_viewBuffers (Viewer.triple pb)
    !! TripleBuffer.getBackBuffer (PreviewBuffer.slots (Viewer.triple pb))
  = Some (D1 ++ D2 ++ D3 ++ drest) ->
  Z.of_nat (length Y)
  = FCamInterface.m_imageWidth camera * FCamInterface.m_imageHeight camera ->
  Z.of_nat (length U)
  = FCamInterface.m_imageWidth camera * FCamInterface.m_imageHeight camera / 4 ->
  length V = length U ->
  length D1 = length Y -> length D2 = length U -> length D3 = length U ->
  exists (v' : Viewer.t) (pb' : Viewer.PreviewBufferObject),
    Viewer.update_framebuffer image v = Some v' /\
    Viewer.previewBuffer v' = Some pb' /\
    Handoff.pending (Viewer.triple pb') = Some (Y ++ V ++ U ++ drest).
Proof.
  intros Hpb Hcamera Hwidth Hheight Hvalid Hsize Hsrc Hdest HY HU HV H1 H2 H3.
  unfold Viewer.update_framebuffer.
  rewrite Hpb, Hwidth, Hheight, !Z.eqb_refl. cbn [andb].
  rewrite Hcamera. cbn [mbind option_bind]. rewrite Hdest.
  cbn [mbind option_bind]. unfold mul32.
  rewrite wrap32_small by (unfold INT_MIN; lia).
  rewrite Hsrc.
  rewrite (copy_planes_spec Y U V srest D1 D2 D3 drest _ HY); try assumption.
  - cbn [mbind option_bind]. eexists. eexists.
    split; [reflexivity|]. split; [reflexivity|].
    cbn [Viewer.triple]. apply pending_publish, Hvalid.
  - rewrite HU. unfold sar32. rewrite Z.shiftr_div_pow2 by lia. reflexivity.
Qed.

Lemma update_framebuffer_exchanges_chroma_witness :
  exists (v' : Viewer.t) (pb' : Viewer.PreviewBufferObject),
    Viewer.update_framebuffer example_preview_frame
      (Viewer.unlockViewerTexture example_viewer) = Some v' /\
    Viewer.previewBuffer v' = Some pb' /\
    Handoff.pending (Viewer.triple pb') = Some [11; 12; 13; 14; 60; 50].
Proof.
  refine (update_framebuffer_exchanges_chroma
            (Viewer.unlockViewerTexture example_viewer) _ _
            example_preview_frame
            [11; 12; 13; 14] [50] [60] [] [0; 0; 0; 0] [0] [0] []
            eq_refl eq_refl eq_refl eq_refl _ _ eq_refl eq_refl
            eq_refl eq_refl eq_refl eq_refl eq_refl eq_refl).
  - unfold PreviewBuffer.valid. cbn. lia.
  - cbn. unfold INT_MAX. lia.
Defined.

(** ** WorkQueue: concurrent calls *)

Section QueueStepsFacts.
Context {T : Type}.
Import QueueSteps.

(** The two halves of [consume], one right after the other, are the
    [consume] of the sequential reading. *)
Lemma wait_pop_consume (blocking : bool) (q : WorkQueue.t T) :
  WorkQueue.consume blocking q
  = match wait blocking q with
    | None => WorkQueue.Blocks
    | Some (false, q') => WorkQueue.Empty q'
    | Some (true, q') =>
        match pop q' with
        | None => WorkQueue.Undefined
        | Some (elem, q'') => WorkQueue.Consumed elem q''
        end
    end.
Proof.
  unfold WorkQueue.consume, wait, pop.
  destruct (WorkQueue.m_counterSem q), blocking; try reflexivity;
    cbn; destruct (WorkQueue.m_queue q); reflexivity.
Qed.

Lemma run_consume_style (ops : list (op T)) :
  forall (received : list T) (q : WorkQueue.t T) (passed : nat),
    forallb (fun o => negb (is_consumeAll o)) ops = true ->
    accounted q passed ->
    run ops received q passed <> Corrupt /\
    forall received' q' passed',
      run ops received q passed = Running received' q' passed' ->
      accounted q' passed' /\
      received' ++ WorkQueue.m_queue q'
      = received ++ WorkQueue.m_queue q ++ produced ops.
Proof.
  induction ops as [|o ops IH]; intros received q passed Hstyle Hacc.
  - split; [discriminate|]. intros ? ? ? [= <- <- <-].
    cbn. rewrite app_nil_r. auto.
  - cbn [forallb] in Hstyle. apply andb_prop in Hstyle as [Ho Hstyle].
    unfold accounted in Hacc.
    destruct o as [elem|blocking| |]; [| | |discriminate];
      cbn [run step produced].
    + destruct (IH received (WorkQueue.produce elem q) passed Hstyle)
        as [Hsafe Hdone].
      { unfold accounted, WorkQueue.produce. cbn. rewrite length_app. cbn.
        lia. }
      split; [exact Hsafe|]. intros received' q' passed' Hrun.
      destruct (Hdone _ _ _ Hrun) as [Hacc' Heq]. split; [exact Hacc'|].
      rewrite Heq. cbn. rewrite <- !app_assoc. reflexivity.
    + unfold wait. destruct (WorkQueue.m_counterSem q) as [|n] eqn:Hsem.
      * destruct blocking; [split; [discriminate|discriminate]|].
        apply IH; [exact Hstyle|]. unfold accounted. lia.
      * apply (IH received
                 {| WorkQueue.m_queue := WorkQueue.m_queue q;
                    WorkQueue.m_counterSem := n |} (S passed) Hstyle).
        unfold accounted. cbn. lia.
    + destruct passed as [|others]; [apply IH; assumption|].
      unfold pop. destruct (WorkQueue.m_queue q) as [|elem rest] eqn:Hq;
        [cbn in Hacc; lia|].
      destruct (IH (received ++ [elem])
                  {| WorkQueue.m_queue := rest;
                     WorkQueue.m_counterSem := WorkQueue.m_counterSem q |}
                  others Hstyle) as [Hsafe Hdone].
      { unfold accounted. cbn in *. lia. }
      split; [exact Hsafe|]. intros received' q' passed' Hrun.
      destruct (Hdone _ _ _ Hrun) as [Hacc' Heq]. split; [exact Hacc'|].
      rewrite Heq. cbn. rewrite <- !app_assoc. reflexivity.
Qed.

Lemma run_consumeAll_style (ops : list (op T)) :
  forall (received : list T) (q : WorkQueue.t T),
    forallb (fun o => negb (is_consume o)) ops = true ->
    accounted q 0 ->
    run ops received q 0 <> Corrupt /\
    forall received' q' passed',
      run ops received q 0 = Running received' q' passed' ->
      accounted q' passed' /\
      received' ++ WorkQueue.m_queue q'
      = received ++ WorkQueue.m_queue q ++ produced ops.
Proof.
  induction ops as [|o ops IH]; intros received q Hstyle Hacc.
  - split; [discriminate|]. intros ? ? ? [= <- <- <-].
    cbn. rewrite app_nil_r. auto.
  - cbn [forallb] in Hstyle. apply andb_prop in Hstyle as [Ho Hstyle].
    unfold accounted in Hacc.
    destruct o as [elem|blocking| |]; try discriminate;
      cbn [run step produced].
    + destruct (IH received (WorkQueue.produce elem q) Hstyle)
        as [Hsafe Hdone].
      { unfold accounted, WorkQueue.produce. cbn. rewrite length_app. cbn.
        lia. }
      split; [exact Hsafe|]. intros received' q' passed' Hrun.
      destruct (Hdone _ _ _ Hrun) as [Hacc' Heq]. split; [exact Hacc'|].
      rewrite Heq. cbn. rewrite <- !app_assoc. reflexivity.
    + unfold WorkQueue.consumeAll.
      destruct (WorkQueue.m_queue q) as [|elem rest] eqn:Hq.
      * destruct (IH (received ++ []) q Hstyle) as [Hsafe Hdone].
        { unfold accounted. rewrite Hq. exact Hacc. }
        split; [exact Hsafe|]. intros received' q' passed' Hrun.
        destruct (Hdone _ _ _ Hrun) as [Hacc' Heq]. split; [exact Hacc'|].
        rewrite Heq, Hq, app_nil_r. reflexivity.
      * destruct (IH (received ++ elem :: rest)
                    {| WorkQueue.m_queue := [];
                       WorkQueue.m_counterSem := 0 |} Hstyle eq_refl)
          as [Hsafe Hdone].
        split; [exact Hsafe|]. intros received' q' passed' Hrun.
        destruct (Hdone _ _ _ Hrun) as [Hacc' Heq]. split; [exact Hacc'|].
        rewrite Heq. cbn. rewrite <- !app_assoc. reflexivity.
Qed.
End QueueStepsFacts.

(** X6.  On a queue whose consumers all use [consume], or all use
    [consumeAll], no interleaving of the steps of concurrent calls makes a
    consumer read the head of an empty queue; as long as no call is
    suspended, the semaphore together with the consumers that have passed
    it counts the queued elements, and what the consumers have received
    followed by what is still queued is what was produced, in order. *)
Theorem WorkQueue_steps_safe (T : Type) (ops : list (QueueSteps.op T)) :
  QueueSteps.one_style ops ->
  QueueSteps.run ops [] WorkQueue.create 0 <> QueueSteps.Corrupt /\
  forall received q passed,
    QueueSteps.run ops [] WorkQueue.create 0
    = QueueSteps.Running received q passed ->
    (WorkQueue.m_counterSem q + passed)%nat = length (WorkQueue.m_queue q) /\
    received ++ WorkQueue.m_queue q = QueueSteps.produced ops.
Proof.
  intros [Hstyle|Hstyle].
  - apply (run_consume_style ops [] WorkQueue.create 0 Hstyle eq_refl).
  - apply (run_consumeAll_style ops [] WorkQueue.create Hstyle eq_refl).
Qed.

Lemma WorkQueue_steps_safe_witness :
  QueueSteps.run
    [QueueSteps.Produce 1; QueueSteps.Wait true; QueueSteps.Produce 2;
     QueueSteps.Wait false; QueueSteps.Pop; QueueSteps.Produce 3;
     QueueSteps.Pop]
    [] WorkQueue.create 0
  <> QueueSteps.Corrupt.
Proof.
  refine (proj1 (WorkQueue_steps_safe Z _ _)).
  left. reflexivity.
Defined.

(** X7.  The hazard the header warns of: when a [consumeAll] falls
    between the two halves of a [consume] on a queue that holds elements,
    the consumer has passed the semaphore but finds the queue empty, and
    reads the head of an empty queue. *)
Theorem consumeAll_during_consume (T : Type) (q : WorkQueue.t T)
    (blocking : bool) (received : list T) :
  WorkQueue.balanced q ->
  WorkQueue.m_queue q <> [] ->
  QueueSteps.run
    [QueueSteps.Wait blocking; QueueSteps.ConsumeAll; QueueSteps.Pop]
    received q 0
  = QueueSteps.Corrupt.
Proof.
  unfold WorkQueue.balanced. intros Hb Hq.
  destruct q as [[|elem rest] sem]; cbn in Hb, Hq; [congruence|]. subst sem.
  destruct blocking; reflexivity.
Qed.

Lemma consumeAll_during_consume_witness :
  QueueSteps.run
    [QueueSteps.Wait true; QueueSteps.ConsumeAll; QueueSteps.Pop]
    [] (WorkQueue.produce 5 WorkQueue.create) 0
  = QueueSteps.Corrupt.
Proof.
  refine (consumeAll_during_consume Z
            (WorkQueue.produce 5 WorkQueue.create) true [] _ _).
  - reflexivity.
  - discriminate.
Defined.

(** ** Request payloads *)

Section PayloadFacts.
Import ParamSetRequest FCamInterface.

Lemma word_at_app_0 (v : Z) (rest : list Z) :
  word_at (bytes_of_word v ++ rest) 0 = Some (v mod 2 ^ 32).
Proof.
  rewrite <- (word_at_bytes_of_word v). reflexivity.
Qed.

Lemma word_at_app_S (v : Z) (rest : list Z) (k : nat) :
  word_at (bytes_of_word v ++ rest) (S k) = word_at rest k.
Proof.
  unfold word_at, bytes_of_word.
  replace (4 * S k)%nat with (4 + 4 * k)%nat by lia.
  reflexivity.
Qed.

(** The word at position [k] of an array of floats laid out in memory. *)
Lemma word_at_bytes_of_floats (value : list float) :
  forall k : nat,
    word_at (bytes_of_floats value) k
    = (fun v => v mod 2 ^ 32) <$> value !! k.
Proof.
  unfold bytes_of_floats.
  induction value as [|v value IH]; intros k.
  - unfold word_at. cbn. reflexivity.
  - cbn [map concat]. destruct k as [|k].
    + rewrite word_at_app_0. reflexivity.
    + rewrite word_at_app_S, IH. reflexivity.
Qed.

Lemma string_at_bytes_of_string (s : string) :
  (forall k, String.get k s <> Some "000"%char) ->
  string_at (bytes_of_string s) = Some s.
Proof.
  induction s as [|c s IH]; intros Hzero; [reflexivity|].
  cbn [bytes_of_string string_at].
  destruct (Z.eqb_spec (Z.of_N (N_of_ascii c)) 0) as [Hc|Hc].
  - exfalso. apply (Hzero 0%nat). cbn. f_equal.
    rewrite <- (ascii_N_embedding c).
    replace (N_of_ascii c) with 0%N by lia. reflexivity.
  - rewrite IH by (intros k; apply (Hzero (S k))).
    cbn. rewrite N2Z.id, ascii_N_embedding. reflexivity.
Qed.
End PayloadFacts.

(** X8.  An array of floats laid out in a request by
    [setParamFloatArray] is read back element by element: position [k] of
    the payload, read as a float, is element [k] of the array, and reading
    at or behind the length of the array has no defined result. *)
Theorem float_array_round_trip (value : list float) (k : nat) :
  Forall (fun v => 0 <= v < 2 ^ 32) value ->
  ParamSetRequest.float_at
    (ParamSetRequest.getData
       (ParamSetRequest.create ParamSetRequest.PARAM_SHOT
          (FCamInterface.bytes_of_floats value))) k
  = value !! k /\
  ((length value <= k)%nat ->
   ParamSetRequest.float_at (FCamInterface.bytes_of_floats value) k = None).
Proof.
  intros Hrange. unfold ParamSetRequest.float_at, ParamSetRequest.getData,
    ParamSetRequest.create. cbn [ParamSetRequest.m_data].
  rewrite !word_at_bytes_of_floats. split.
  - destruct (value !! k) as [v|] eqn:Hk; [|reflexivity].
    cbn. f_equal. apply Z.mod_small.
    rewrite Forall_forall in Hrange. apply Hrange.
    apply (list_elem_of_lookup_2 _ _ _ Hk).
  - intros Hlen. apply fmap_None, lookup_ge_None_2, Hlen.
Qed.

Lemma float_array_round_trip_witness :
  ParamSetRequest.float_at
    (ParamSetRequest.getData
       (ParamSetRequest.create ParamSetRequest.PARAM_SHOT
          (FCamInterface.bytes_of_floats
             [1176256512; 1084227584; 1065353216; 1168891904; 0]))) 3
  = Some 1168891904.
Proof.
  refine (proj1 (float_array_round_trip
                   [1176256512; 1084227584; 1065353216; 1168891904; 0] 3 _)).
  repeat constructor; lia.
Defined.

(** X9.  A string queued by [setParamString] travels with its terminator
    and is read back unchanged, provided it holds no zero character (a C
    string cannot). *)
Theorem string_round_trip (param : Z) (value : string) (st : FCamInterface.t) :
  (forall k, String.get k value <> Some "000"%char) ->
  exists request : ParamSetRequest.t,
    WorkQueue.m_queue
      (FCamInterface.requestQueue (FCamInterface.setParamString param value st))
    = WorkQueue.m_queue (FCamInterface.requestQueue st) ++ [request] /\
    ParamSetRequest.getId request = param /\
    ParamSetRequest.getDataSize request
    = Z.of_nat (String.length value) + 1 /\
    ParamSetRequest.string_at (ParamSetRequest.getData request) = Some value.
Proof.
  intros Hzero. eexists. split; [reflexivity|]. split; [reflexivity|].
  split; [|apply string_at_bytes_of_string, Hzero].
  unfold ParamSetRequest.getDataSize. cbn.
  clear Hzero. induction value as [|c s IH]; [reflexivity|].
  cbn [ParamSetRequest.bytes_of_string length String.length].
  rewrite !Nat2Z.inj_succ, IH. lia.
Qed.

Lemma string_round_trip_witness :
  exists request : ParamSetRequest.t,
    WorkQueue.m_queue
      (FCamInterface.requestQueue
         (FCamInterface.setParamString ParamSetRequest.PARAM_OUTPUT_DIRECTORY
            "/tmp/x" (FCamInterface.initial [])))
    = [request] /\
    ParamSetRequest.string_at (ParamSetRequest.getData request)
    = Some "/tmp/x"%string.
Proof.
  destruct (string_round_trip ParamSetRequest.PARAM_OUTPUT_DIRECTORY "/tmp/x"
              (FCamInterface.initial []))
    as (request & Hqueue & _ & _ & Hdata).
  - intros k.
    do 7 (destruct k as [|k]; [discriminate|]). discriminate.
  - exists request. split; [exact Hqueue | exact Hdata].
Defined.

(** ** Reading parameters back *)

Section ParamGetFacts.
Import ParamSetRequest ParamGet.

Lemma lock_unlock (s : t) :
  previousStateLock s = false ->
  exists locked : t,
    pthread_mutex_lock s = Some locked /\
    app locked = app s /\ captureFps locked = captureFps s /\
    pthread_mutex_unlock locked = s.
Proof.
  intros Hfree. unfold pthread_mutex_lock. rewrite Hfree.
  eexists. split; [reflexivity|]. repeat split.
  destruct s as [a fps l]. cbn in *. subst l. reflexivity.
Qed.

Lemma locked_waits (s : t) :
  previousStateLock s = true -> pthread_mutex_lock s = None.
Proof. intros Hheld. unfold pthread_mutex_lock. rewrite Hheld. reflexivity. Qed.
End ParamGetFacts.

(** X10.  [getParamFloatArray] called with an array of the wrong length
    (not 5 for [PARAM_SHOT], not 256 for [PARAM_LUMINANCE_HISTOGRAM])
    leaves the array as it is and returns with [previousStateLock] still
    held: from then on every [getParamInt], every [getParamFloatArray] and
    the state copy that ends an iteration of the capture thread wait for
    the mutex. *)
Theorem getParamFloatArray_keeps_lock (float_of_int : Z -> float)
    (param : Z) (value : list float) (s : ParamGet.t) :
  ParamGet.previousStateLock s = false ->
  (Z.land param 65535 = ParamSetRequest.PARAM_SHOT /\ length value <> 5%nat) \/
  (Z.land param 65535 = ParamSetRequest.PARAM_LUMINANCE_HISTOGRAM /\
   length value <> 256%nat) ->
  exists s' : ParamGet.t,
    ParamGet.getParamFloatArray float_of_int param value s
    = ParamGet.Returns value s' /\
    ParamGet.previousStateLock s' = true /\
    (forall p, ParamGet.getParamInt p s' = ParamGet.Waits) /\
    (forall p v,
       ParamGet.getParamFloatArray float_of_int p v s' = ParamGet.Waits) /\
    ParamGet.snapshot s' = ParamGet.Waits.
Proof.
  intros Hfree Hbad.
  assert (Hrun : exists s' : ParamGet.t,
    ParamGet.getParamFloatArray float_of_int param value s
    = ParamGet.Returns value s' /\
    ParamGet.previousStateLock s' = true).
  { unfold ParamGet.getParamFloatArray, ParamGet.pthread_mutex_lock.
    rewrite Hfree.
    destruct Hbad as [[Hid Hlen]|[Hid Hlen]]; rewrite Hid; cbn [Z.eqb Pos.eqb].
    - destruct (Z.eqb_spec (Z.of_nat (length value)) 5) as [Heq|_]; [lia|].
      cbn [negb]. eexists. split; reflexivity.
    - change (ParamSetRequest.PARAM_LUMINANCE_HISTOGRAM
              =? ParamSetRequest.PARAM_SHOT) with false.
      cbn match. rewrite Z.eqb_refl.
      destruct (Z.eqb_spec (Z.of_nat (length value)) Camera.HISTOGRAM_SIZE)
        as [Heq|_]; [unfold Camera.HISTOGRAM_SIZE in Heq; lia|].
      cbn [negb]. eexists. split; reflexivity. }
  destruct Hrun as (s' & Hrun & Hheld). exists s'.
  split; [exact Hrun|]. split; [exact Hheld|].
  split; [|split].
  - intros p. unfold ParamGet.getParamInt.
    rewrite (locked_waits s' Hheld). reflexivity.
  - intros p v. unfold ParamGet.getParamFloatArray.
    rewrite (locked_waits s' Hheld). reflexivity.
  - unfold ParamGet.snapshot. rewrite (locked_waits s' Hheld). reflexivity.
Qed.

Lemma getParamFloatArray_keeps_lock_witness :
  exists s' : ParamGet.t,
    ParamGet.getParamFloatArray (fun n => if n =? 0 then 0 else 1065353216)
      ParamSetRequest.PARAM_SHOT [0; 0; 0]
      {| ParamGet.app := FCamInterface.initial [];
         ParamGet.captureFps := 1106247680;
         ParamGet.previousStateLock := false |}
    = ParamGet.Returns [0; 0; 0] s' /\
    ParamGet.snapshot s' = ParamGet.Waits.
Proof.
  assert (Hbad : Z.land ParamSetRequest.PARAM_SHOT 65535
                 = ParamSetRequest.PARAM_SHOT /\
                 length [0; 0; 0] <> 5%nat)
    by (split; [reflexivity | discriminate]).
  destruct (getParamFloatArray_keeps_lock
              (fun n => if n =? 0 then 0 else 1065353216)
              ParamSetRequest.PARAM_SHOT [0; 0; 0]
              {| ParamGet.app := FCamInterface.initial [];
                 ParamGet.captureFps := 1106247680;
                 ParamGet.previousStateLock := false |}
              eq_refl (or_introl Hbad))
    as (s' & Hrun & _ & _ & _ & Hwait).
  exists s'. split; [exact Hrun | exact Hwait].
Defined.

(** X11.  A capture parameter is read back from the state of the previous
    frame.  After the capture thread has resolved a request that sets the
    burst size to [v], [getParamInt] still returns the former value; once
    the iteration has ended with its copy of the state, it returns [v].
    The viewer flag is read from the application data and changes at
    once. *)
Theorem burst_size_lags_one_frame (P : Platform)
    (sensor_frames : list Camera.ShotParams -> list Frame.t)
    (v active : Z) (s : ParamGet.t) :
  ParamGet.previousStateLock s = false ->
  INT_MIN <= v <= INT_MAX ->
  INT_MIN <= active <= INT_MAX ->
  exists s1 s2 s3 : ParamGet.t,
    ParamGet.after_request sensor_frames
      (ParamSetRequest.create ParamSetRequest.PARAM_BURST_SIZE
         (ParamSetRequest.bytes_of_word v)) s = Some s1 /\
    ParamGet.getParamInt ParamSetRequest.PARAM_BURST_SIZE s1
    = ParamGet.Returns
        (Camera.pendingImagesCount
           (FCamInterface.previousState (ParamGet.app s))) s1 /\
    ParamGet.snapshot s1 = ParamGet.Returns tt s2 /\
    ParamGet.getParamInt ParamSetRequest.PARAM_BURST_SIZE s2
    = ParamGet.Returns v s2 /\
    ParamGet.after_request sensor_frames
      (ParamSetRequest.create ParamSetRequest.PARAM_VIEWER_ACTIVE
         (ParamSetRequest.bytes_of_word active)) s = Some s3 /\
    ParamGet.getParamInt ParamSetRequest.PARAM_VIEWER_ACTIVE s3
    = ParamGet.Returns (if active =? 0 then 0 else 1) s3.
Proof.
  intros Hfree Hv Hactive.
  unfold ParamGet.after_request, FCamInterface.dispatch.
  cbn [ParamSetRequest.getId ParamSetRequest.create ParamSetRequest.m_id
       ParamSetRequest.getData ParamSetRequest.m_data].
  change (Z.land ParamSetRequest.PARAM_BURST_SIZE 65535) with 2.
  change (Z.land ParamSetRequest.PARAM_VIEWER_ACTIVE 65535) with 4.
  cbn [Z.eqb Pos.eqb ParamSetRequest.PARAM_SHOT
       ParamSetRequest.PARAM_PREVIEW_EXPOSURE].
  unfold ParamSetRequest.PARAM_PREVIEW_FOCUS, ParamSetRequest.PARAM_PREVIEW_GAIN,
    ParamSetRequest.PARAM_PREVIEW_WB,
    ParamSetRequest.PARAM_PREVIEW_AUTO_EXPOSURE_ON,
    ParamSetRequest.PARAM_PREVIEW_AUTO_FOCUS_ON,
    ParamSetRequest.PARAM_PREVIEW_AUTO_GAIN_ON,
    ParamSetRequest.PARAM_PREVIEW_AUTO_WB_ON,
    ParamSetRequest.PARAM_RESOLUTION, ParamSetRequest.PARAM_BURST_SIZE,
    ParamSetRequest.PARAM_OUTPUT_FORMAT, ParamSetRequest.PARAM_VIEWER_ACTIVE.
  cbn [Z.eqb Pos.eqb].
  rewrite !int_at_bytes_of_word by assumption.
  cbn [mbind option_bind].
  cbn [FCamInterface.isViewerActive FCamInterface.set_isViewerActive].
  destruct s as [a fps l]. cbn in Hfree. subst l.
  destruct (active =? 0); cbn [negb];
    (eexists; eexists; eexists;
     split; [reflexivity|]; split; [reflexivity|]; split; [reflexivity|];
     split; [reflexivity|]; split; reflexivity).
Qed.

Lemma burst_size_lags_one_frame_witness :
  exists s1 s2 s3 : ParamGet.t,
    ParamGet.after_request (platform:=binary32_platform) example_sensor
      (ParamSetRequest.create ParamSetRequest.PARAM_BURST_SIZE
         (ParamSetRequest.bytes_of_word 3))
      {| ParamGet.app := FCamInterface.initial [];
         ParamGet.captureFps := 1106247680;
         ParamGet.previousStateLock := false |} = Some s1 /\
    ParamGet.getParamInt ParamSetRequest.PARAM_BURST_SIZE s1
    = ParamGet.Returns 0 s1 /\
    ParamGet.snapshot s1 = ParamGet.Returns tt s2 /\
    ParamGet.getParamInt ParamSetRequest.PARAM_BURST_SIZE s2
    = ParamGet.Returns 3 s2 /\
    ParamGet.after_request (platform:=binary32_platform) example_sensor
      (ParamSetRequest.create ParamSetRequest.PARAM_VIEWER_ACTIVE
         (ParamSetRequest.bytes_of_word 1))
      {| ParamGet.app := FCamInterface.initial [];
         ParamGet.captureFps := 1106247680;
         ParamGet.previousStateLock := false |} = Some s3 /\
    ParamGet.getParamInt ParamSetRequest.PARAM_VIEWER_ACTIVE s3
    = ParamGet.Returns 1 s3.
Proof.
  refine (burst_size_lags_one_frame binary32_platform example_sensor 3 1
            {| ParamGet.app := FCamInterface.initial [];
               ParamGet.captureFps := 1106247680;
               ParamGet.previousStateLock := false |} eq_refl _ _);
    unfold INT_MIN, INT_MAX; lia.
Defined.

(** ** Burst shots *)

Lemma float_at_bytes_of_floats (value : list float) (k : nat) (v : float) :
  Forall (fun v => 0 <= v < 2 ^ 32) value ->
  value !! k = Some v ->
  ParamSetRequest.float_at (FCamInterface.bytes_of_floats value) k = Some v.
Proof.
  intros Hrange Hk. unfold ParamSetRequest.float_at.
  rewrite word_at_bytes_of_floats.
  assert (Hv : 0 <= v < 2 ^ 32).
  { rewrite Forall_forall in Hrange. apply Hrange.
    apply (list_elem_of_lookup_2 _ _ _ Hk). }
  apply fmap_Some. exists v. split; [exact Hk|].
  symmetry. apply Z.mod_small, Hv.
Qed.

(** The [PARAM_SHOT] case on a request that carries five floats. *)
Lemma dispatch_shot (P : Platform)
    (sensor_frames : list Camera.ShotParams -> list Frame.t)
    (param e f g w fl : float) (st : FCamInterface.t) :
  Z.land param 65535 = ParamSetRequest.PARAM_SHOT ->
  Forall (fun v => 0 <= v < 2 ^ 32) [e; f; g; w; fl] ->
  FCamInterface.dispatch sensor_frames
    (ParamSetRequest.create param
       (FCamInterface.bytes_of_floats [e; f; g; w; fl])) st
  = let images :=
      Camera.pendingImages
        (FCamInterface.m_currentState (FCamInterface.camera st)) in
    if (0 <=? Z.shiftr param 16)
       && (Z.shiftr param 16 <? Z.of_nat (length images))
    then
      Some (FCamInterface.set_state
              (Camera.set_pendingImages
                 (<[Z.to_nat (Z.shiftr param 16) :=
                      {| Camera.exposure := e; Camera.focus := f;
                         Camera.gain := g; Camera.wb := w;
                         Camera.flashOn := Z.b2z (float_gt_zero fl) |}]>
                    images))
              st)
    else None.
Proof.
  intros Hid Hrange. unfold FCamInterface.dispatch.
  cbn [ParamSetRequest.getId ParamSetRequest.getData ParamSetRequest.create
       ParamSetRequest.m_id ParamSetRequest.m_data].
  rewrite Hid. rewrite Z.eqb_refl.
  rewrite (float_at_bytes_of_floats _ ParamSetRequest.SHOT_PARAM_EXPOSURE e Hrange eq_refl).
  rewrite (float_at_bytes_of_floats _ ParamSetRequest.SHOT_PARAM_FOCUS f Hrange eq_refl).
  rewrite (float_at_bytes_of_floats _ ParamSetRequest.SHOT_PARAM_GAIN g Hrange eq_refl).
  rewrite (float_at_bytes_of_floats _ ParamSetRequest.SHOT_PARAM_WB w Hrange eq_refl).
  rewrite (float_at_bytes_of_floats _ ParamSetRequest.SHOT_PARAM_FLASH fl Hrange eq_refl).
  reflexivity.
Qed.

Section IterationFacts.
Import ParamGet.

(** The estimates of an iteration leave the burst and the user's preview
    parameters alone. *)
Lemma update_estimates_keeps (m : Estimates) (c : Camera.CaptureState) :
  Camera.pendingImages (update_estimates m c) = Camera.pendingImages c /\
  Camera.pendingImagesCount (update_estimates m c)
  = Camera.pendingImagesCount c /\
  Camera.user (Camera.preview (update_estimates m c))
  = Camera.user (Camera.preview c) /\
  Camera.autoExposure (Camera.preview (update_estimates m c))
  = Camera.autoExposure (Camera.preview c).
Proof.
  destruct c as [[ev us ae af ag awb h] images count].
  unfold update_estimates. cbn.
  destruct ae, ag, awb, (focusing m); repeat split.
Qed.

(** With automatic exposure on, the evaluated exposure is the one
    [FCam::autoExpose] returned for this frame. *)
Lemma update_estimates_exposure (m : Estimates) (c : Camera.CaptureState) :
  Camera.autoExposure (Camera.preview c) = true ->
  Camera.exposure (Camera.evaluated (Camera.preview (update_estimates m c)))
  = shot_exposure m.
Proof.
  destruct c as [[ev us ae af ag awb h] images count].
  cbn. intros ->. unfold update_estimates. cbn.
  destruct awb, (focusing m); reflexivity.
Qed.

(** What [getParamFloat] finds for the exposure once such a state has
    been copied. *)
Lemma update_estimates_reported (m : Estimates) (c : Camera.CaptureState) :
  (if Camera.autoExposure (Camera.preview (update_estimates m c))
   then Camera.exposure
          (Camera.evaluated (Camera.preview (update_estimates m c)))
   else Camera.exposure (Camera.user (Camera.preview (update_estimates m c))))
  = (if Camera.autoExposure (Camera.preview c)
     then shot_exposure m
     else Camera.exposure (Camera.user (Camera.preview c))).
Proof.
  destruct (update_estimates_keeps m c) as (_ & _ & -> & ->).
  destruct (Camera.autoExposure (Camera.preview c)) eqn:Hauto;
    [|reflexivity].
  apply update_estimates_exposure, Hauto.
Qed.

(** An iteration with the viewer active ends with the copy of the state;
    one with the viewer inactive ends where it is. *)
Lemma finish_iteration_spec (m : Estimates) (s : t) :
  previousStateLock s = false ->
  exists s' : t,
    finish_iteration m s = Returns tt s' /\
    previousStateLock s' = false /\
    captureFps s' = captureFps s /\
    (FCamInterface.isViewerActive (app s) = false -> s' = s) /\
    (FCamInterface.isViewerActive (app s) = true ->
     FCamInterface.previousState (app s')
     = update_estimates m
         (FCamInterface.m_currentState (FCamInterface.camera (app s)))).
Proof.
  intros Hfree. destruct s as [a fps l]. cbn in Hfree. subst l.
  unfold finish_iteration. cbn [app].
  destruct (FCamInterface.isViewerActive a).
  - eexists. split; [reflexivity|]. repeat split. discriminate.
  - eexists. split; [reflexivity|]. repeat split. discriminate.
Qed.
End IterationFacts.

(** X12.  The parameters of one shot of a burst make the whole way: the
    five floats Java passes for picture [i] (the upper half of the
    parameter id) are stored in [pendingImages[i]] by the capture thread
    and every other shot stays as it was.  When the viewer is active the
    iteration goes on to its copy of the state, whatever the estimators
    return for the frame, and from then on [getParamFloatArray] for the
    same picture returns the four values and the flash flag, which is 1
    when the fifth float is positive and 0 otherwise.  When the viewer is
    inactive the iteration ends without the copy and the state read back
    is the former one. *)
Theorem shot_round_trip (P : Platform)
    (sensor_frames : list Camera.ShotParams -> list Frame.t)
    (float_of_int : Z -> float) (m : ParamGet.Estimates)
    (param e f g w fl : float) (old : list float) (s : ParamGet.t) :
  ParamGet.previousStateLock s = false ->
  Z.land param 65535 = ParamSetRequest.PARAM_SHOT ->
  0 <= Z.shiftr param 16
    < Z.of_nat (length (Camera.pendingImages
                          (FCamInterface.m_currentState
                             (FCamInterface.camera (ParamGet.app s))))) ->
  Forall (fun v => 0 <= v < 2 ^ 32) [e; f; g; w; fl] ->
  length old = 5%nat ->
  exists s1 s2 : ParamGet.t,
    ParamGet.after_request sensor_frames
      (ParamSetRequest.create param
         (FCamInterface.bytes_of_floats [e; f; g; w; fl])) s = Some s1 /\
    (forall j : nat,
       j <> Z.to_nat (Z.shiftr param 16) ->
       Camera.pendingImages
         (FCamInterface.m_currentState
            (FCamInterface.camera (ParamGet.app s1))) !! j
       = Camera.pendingImages
           (FCamInterface.m_currentState
              (FCamInterface.camera (ParamGet.app s))) !! j) /\
    ParamGet.finish_iteration m s1 = ParamGet.Returns tt s2 /\
    (FCamInterface.isViewerActive (ParamGet.app s) = true ->
     ParamGet.getParamFloatArray float_of_int param old s2
     = ParamGet.Returns
         [e; f; g; w; float_of_int (if float_gt_zero fl then 1 else 0)] s2) /\
    (FCamInterface.isViewerActive (ParamGet.app s) = false ->
     s2 = s1 /\
     FCamInterface.previousState (ParamGet.app s2)
     = FCamInterface.previousState (ParamGet.app s)).
Proof.
  intros Hfree Hid Hslot Hrange Hold.
  unfold ParamGet.after_request.
  rewrite (dispatch_shot P sensor_frames param e f g w fl _ Hid Hrange).
  cbv zeta.
  destruct (Z.leb_spec 0 (Z.shiftr param 16)); [|lia].
  destruct (Z.ltb_spec (Z.shiftr param 16)
              (Z.of_nat (length (Camera.pendingImages
                 (FCamInterface.m_currentState
                    (FCamInterface.camera (ParamGet.app s))))))); [|lia].
  cbn [andb mbind option_bind].
  destruct s as [a fps l]. cbn in Hfree. subst l.
  cbn [ParamGet.app ParamGet.captureFps ParamGet.previousStateLock] in *.
  match goal with
  | |- exists s1 s2, Some ?x = Some s1 /\ _ =>
      destruct (finish_iteration_spec m x eq_refl)
        as (s2 & Hfinish & Hfree2 & _ & Hskip & Hcopy)
  end.
  eexists. exists s2. split; [reflexivity|].
  split; [|split; [exact Hfinish|split]].
  - intros j Hj. cbn. apply list_lookup_insert_ne. congruence.
  - intros Hactive. specialize (Hcopy Hactive).
    destruct s2 as [a2 fps2 l2]. cbn in Hfree2. subst l2.
    cbn [ParamGet.app] in Hcopy.
    unfold ParamGet.getParamFloatArray, ParamGet.pthread_mutex_lock.
    cbn [ParamGet.previousStateLock ParamGet.pthread_mutex_unlock
         ParamGet.app ParamGet.captureFps].
    rewrite Hid, Z.eqb_refl, Hold. cbn [Z.of_nat Pos.of_succ_nat Pos.succ
      Z.eqb Pos.eqb negb].
    destruct (Z.leb_spec 0 (Z.shiftr param 16)); [|lia].
    rewrite Hcopy.
    rewrite (proj1 (update_estimates_keeps m _)).
    cbn [FCamInterface.set_state FCamInterface.camera
         FCamInterface.m_currentState Camera.pendingImages
         Camera.set_pendingImages].
    rewrite list_lookup_insert_eq by lia.
    destruct old as [|o0 [|o1 [|o2 [|o3 [|o4 [|o5 old]]]]]]; try discriminate.
    cbn. destruct (float_gt_zero fl); reflexivity.
  - intros Hidle. rewrite (Hskip Hidle). split; reflexivity.
Qed.

Lemma shot_round_trip_witness :
  exists s1 s2 : ParamGet.t,
    ParamGet.after_request (platform:=binary32_platform) example_sensor
      (ParamSetRequest.create
         (Z.lor ParamSetRequest.PARAM_SHOT (Z.shiftl 1 16))
         (FCamInterface.bytes_of_floats
            [1176256512; 1084227584; 1065353216; 1168891904; 1065353216]))
      (example_app true false) = Some s1 /\
    ParamGet.finish_iteration example_estimates s1 = ParamGet.Returns tt s2 /\
    ParamGet.getParamFloatArray (fun n => if n =? 0 then 0 else 1065353216)
      (Z.lor ParamSetRequest.PARAM_SHOT (Z.shiftl 1 16)) [0; 0; 0; 0; 0] s2
    = ParamGet.Returns
        [1176256512; 1084227584; 1065353216; 1168891904; 1065353216] s2.
Proof.
  assert (Hslot :
    0 <= Z.shiftr (Z.lor ParamSetRequest.PARAM_SHOT (Z.shiftl 1 16)) 16
      < Z.of_nat (length (Camera.pendingImages
                            (FCamInterface.m_currentState
                               (FCamInterface.camera
                                  (ParamGet.app (example_app true false))))))).
  { vm_compute. split; [discriminate | reflexivity]. }
  assert (Hrange : Forall (fun v => 0 <= v < 2 ^ 32)
            [1176256512; 1084227584; 1065353216; 1168891904; 1065353216]).
  { repeat constructor; lia. }
  destruct (shot_round_trip binary32_platform example_sensor
              (fun n => if n =? 0 then 0 else 1065353216) example_estimates
              (Z.lor ParamSetRequest.PARAM_SHOT (Z.shiftl 1 16))
              1176256512 1084227584 1065353216 1168891904 1065353216
              [0; 0; 0; 0; 0] (example_app true false)
              eq_refl eq_refl Hslot Hrange eq_refl)
    as (s1 & s2 & Hrun & _ & Hfinish & Hget & _).
  exists s1, s2. split; [exact Hrun|]. split; [exact Hfinish|].
  exact (Hget eq_refl).
Defined.

(** X13.  Nothing checks the picture index of a burst shot.
    [setParamFloatArray] queues a [PARAM_SHOT] request of five floats
    whatever the upper half of the parameter id is, and for an index
    outside [pendingImages] the capture thread writes outside the array. *)
Theorem shot_index_unchecked (P : Platform)
    (sensor_frames : list Camera.ShotParams -> list Frame.t)
    (param e f g w fl : float) (st : FCamInterface.t) :
  Z.land param 65535 = ParamSetRequest.PARAM_SHOT ->
  Forall (fun v => 0 <= v < 2 ^ 32) [e; f; g; w; fl] ->
  Z.shiftr param 16 < 0 \/
  Z.of_nat (length (Camera.pendingImages
                      (FCamInterface.m_currentState
                         (FCamInterface.camera st)))) <= Z.shiftr param 16 ->
  WorkQueue.m_queue
    (FCamInterface.requestQueue
       (FCamInterface.setParamFloatArray param [e; f; g; w; fl] st))
  = WorkQueue.m_queue (FCamInterface.requestQueue st)
    ++ [ParamSetRequest.create param
          (FCamInterface.bytes_of_floats [e; f; g; w; fl])] /\
  FCamInterface.dispatch sensor_frames
    (ParamSetRequest.create param
       (FCamInterface.bytes_of_floats [e; f; g; w; fl])) st = None.
Proof.
  intros Hid Hrange Hslot. split.
  - unfold FCamInterface.setParamFloatArray. rewrite Hid. reflexivity.
  - rewrite (dispatch_shot P sensor_frames param e f g w fl _ Hid Hrange).
    cbv zeta.
    destruct (Z.leb_spec 0 (Z.shiftr param 16)); [|reflexivity].
    destruct (Z.ltb_spec (Z.shiftr param 16)
                (Z.of_nat (length (Camera.pendingImages
                   (FCamInterface.m_currentState
                      (FCamInterface.camera st)))))); [lia|reflexivity].
Qed.

Lemma shot_index_unchecked_witness :
  FCamInterface.dispatch (platform:=binary32_platform) example_sensor
    (ParamSetRequest.create
       (Z.lor ParamSetRequest.PARAM_SHOT (Z.shiftl 16 16))
       (FCamInterface.bytes_of_floats
          [1176256512; 1084227584; 1065353216; 1168891904; 0]))
    (FCamInterface.initial []) = None.
Proof.
  assert (Hrange : Forall (fun v => 0 <= v < 2 ^ 32)
            [1176256512; 1084227584; 1065353216; 1168891904; 0]).
  { repeat constructor; lia. }
  assert (Hslot :
    Z.shiftr (Z.lor ParamSetRequest.PARAM_SHOT (Z.shiftl 16 16)) 16 < 0 \/
    Z.of_nat (length (Camera.pendingImages
                        (FCamInterface.m_currentState
                           (FCamInterface.camera (FCamInterface.initial [])))))
    <= Z.shiftr (Z.lor ParamSetRequest.PARAM_SHOT (Z.shiftl 16 16)) 16).
  { right. vm_compute. discriminate. }
  exact (proj2 (shot_index_unchecked binary32_platform example_sensor
                  (Z.lor ParamSetRequest.PARAM_SHOT (Z.shiftl 16 16))
                  1176256512 1084227584 1065353216 1168891904 0
                  (FCamInterface.initial []) eq_refl Hrange Hslot)).
Defined.

(** ** Touch requests *)

(** The two touch cases. *)
Lemma dispatch_touch (P : Platform)
    (sensor_frames : list Camera.ShotParams -> list Frame.t)
    (task : ParamSetRequest.t) (st : FCamInterface.t) :
  Z.land (ParamSetRequest.getId task) 65535
  = ParamSetRequest.PARAM_FOCUS_ON_TOUCH \/
  Z.land (ParamSetRequest.getId task) 65535
  = ParamSetRequest.PARAM_WB_ON_TOUCH ->
  FCamInterface.dispatch sensor_frames task st
  = (x ← ParamSetRequest.float_at (ParamSetRequest.getData task) 0;
     y ← ParamSetRequest.float_at (ParamSetRequest.getData task) 1;
     Some (FCamInterface.set_touch
             (float_times_int x
                (FCamInterface.m_imageWidth (FCamInterface.camera st)))
             (float_times_int y
                (FCamInterface.m_imageHeight (FCamInterface.camera st)))
             (if ParamSetRequest.getId task
                 =? ParamSetRequest.PARAM_FOCUS_ON_TOUCH
              then FCamInterface.TOUCH_ACTION_FOCUS
              else FCamInterface.TOUCH_ACTION_WHITE_BALANCE)
             st)).
Proof.
  intros [Hid|Hid]; unfold FCamInterface.dispatch; rewrite Hid; reflexivity.
Qed.

(** X14.  The touch case is chosen on the lower half of the request id,
    the action on the whole id.  A focus touch whose id carries anything
    in its upper half passes [setParamFloatArray], is queued, and is
    resolved as a white balance touch; only the plain id gives a focus
    touch.  Either way the touch point is the two floats scaled by the
    extents of the camera. *)
Theorem focus_touch_reads_whole_id (P : Platform)
    (sensor_frames : list Camera.ShotParams -> list Frame.t)
    (param : Z) (x y : float) (st : FCamInterface.t) :
  Z.land param 65535 = ParamSetRequest.PARAM_FOCUS_ON_TOUCH ->
  0 <= x < 2 ^ 32 -> 0 <= y < 2 ^ 32 ->
  WorkQueue.m_queue
    (FCamInterface.requestQueue
       (FCamInterface.setParamFloatArray param [x; y] st))
  = WorkQueue.m_queue (FCamInterface.requestQueue st)
    ++ [ParamSetRequest.create param (FCamInterface.bytes_of_floats [x; y])] /\
  exists st' : FCamInterface.t,
    FCamInterface.dispatch sensor_frames
      (ParamSetRequest.create param (FCamInterface.bytes_of_floats [x; y])) st
    = Some st' /\
    FCamInterface.touchX st'
    = float_times_int x (FCamInterface.m_imageWidth (FCamInterface.camera st)) /\
    FCamInterface.touchY st'
    = float_times_int y (FCamInterface.m_imageHeight (FCamInterface.camera st)) /\
    (param = ParamSetRequest.PARAM_FOCUS_ON_TOUCH ->
     FCamInterface.touchAction st' = FCamInterface.TOUCH_ACTION_FOCUS) /\
    (param <> ParamSetRequest.PARAM_FOCUS_ON_TOUCH ->
     FCamInterface.touchAction st' = FCamInterface.TOUCH_ACTION_WHITE_BALANCE).
Proof.
  intros Hid Hx Hy. split.
  - unfold FCamInterface.setParamFloatArray. rewrite Hid. reflexivity.
  - rewrite dispatch_touch by (left; exact Hid).
    cbn [ParamSetRequest.getId ParamSetRequest.getData ParamSetRequest.create
         ParamSetRequest.m_id ParamSetRequest.m_data].
    assert (Hrange : Forall (fun v => 0 <= v < 2 ^ 32) [x; y])
      by (repeat constructor; lia).
    rewrite (float_at_bytes_of_floats [x; y] 0 x Hrange eq_refl).
    rewrite (float_at_bytes_of_floats [x; y] 1 y Hrange eq_refl).
    cbn [mbind option_bind]. eexists. split; [reflexivity|].
    split; [reflexivity|]. split; [reflexivity|].
    cbn [FCamInterface.touchAction FCamInterface.set_touch].
    destruct (Z.eqb_spec param ParamSetRequest.PARAM_FOCUS_ON_TOUCH);
      split; intros; congruence.
Qed.

Lemma focus_touch_reads_whole_id_witness :
  exists st' : FCamInterface.t,
    FCamInterface.dispatch (platform:=binary32_platform) example_sensor
      (ParamSetRequest.create
         (Z.lor ParamSetRequest.PARAM_FOCUS_ON_TOUCH (Z.shiftl 1 16))
         (FCamInterface.bytes_of_floats [1056964608; 1048576000]))
      (FCamInterface.initial [])
    = Some st' /\
    FCamInterface.touchX st' = 480 /\
    FCamInterface.touchY st' = 180 /\
    FCamInterface.touchAction st' = FCamInterface.TOUCH_ACTION_WHITE_BALANCE.
Proof.
  destruct (focus_touch_reads_whole_id binary32_platform example_sensor
              (Z.lor ParamSetRequest.PARAM_FOCUS_ON_TOUCH (Z.shiftl 1 16))
              1056964608 1048576000 (FCamInterface.initial [])
              eq_refl ltac:(lia) ltac:(lia))
    as (_ & st' & Hrun & Hx & Hy & _ & Haction).
  exists st'. split; [exact Hrun|].
  split; [rewrite Hx; vm_compute; reflexivity|].
  split; [rewrite Hy; vm_compute; reflexivity|].
  apply Haction. vm_compute. discriminate.
Defined.

(** ** Capture notifications *)

Section CaptureBrackets.
Context {platform : Platform}.
Context (sensor_frames : list Camera.ShotParams -> list Frame.t).
Import ParamSetRequest FCamInterface.

Lemma capture_brackets_app (calls more : list event) :
  forall announced : bool,
    capture_brackets announced (calls ++ more)
    = (b ← capture_brackets announced calls; capture_brackets b more).
Proof.
  induction calls as [|call calls IH]; intros announced; [reflexivity|].
  destruct call, announced; cbn [app capture_brackets]; try apply IH;
    reflexivity.
Qed.

(** The shots of a burst lie inside the capture that was announced. *)
Lemma capture_brackets_shots (shots : list Camera.ShotParams) :
  capture_brackets true (map shot_event shots) = Some true.
Proof. induction shots as [|p shots IH]; [reflexivity | exact IH]. Qed.

Lemma auto_toggle_silent
    (auto : Camera.Preview -> bool)
    (set_auto : bool -> Camera.Preview -> Camera.Preview)
    (get : Camera.ShotParams -> float)
    (set : float -> Camera.ShotParams -> Camera.ShotParams)
    (task : ParamSetRequest.t) (st st' : t) :
  auto_toggle auto set_auto get set task st = Some st' ->
  isCapturing st' = isCapturing st /\ trace st' = trace st.
Proof.
  unfold auto_toggle. intros Hd.
  destruct (int_at (getData task) 0) as [v|]; [|discriminate].
  cbn [mbind option_bind] in Hd.
  destruct (transition _ _); injection Hd as <-; split; reflexivity.
Qed.

Lemma capture_calls (w : AsyncImageWriter.t) (st st' : t) :
  capture sensor_frames w st = Some st' ->
  isCapturing st' = isCapturing st /\
  exists shots : list Camera.ShotParams,
    trace st'
    = trace st ++ [StopStreaming; DrainPendingFrames] ++ map shot_event shots.
Proof.
  unfold capture. intros Hd.
  destruct (AsyncImageWriter.newImageSet _ _ _) as [[imageset freeId]|];
    [|discriminate].
  cbn [mbind option_bind] in Hd.
  destruct (burst _) as [shots|]; [|discriminate].
  cbn [mbind option_bind] in Hd. injection Hd as <-.
  split; [reflexivity|]. exists shots. cbn. rewrite <- app_assoc.
  reflexivity.
Qed.

(** One request: the capture flag is down afterwards as it was before,
    and the calls made for it hold a capture in full or none. *)
Lemma dispatch_brackets (task : ParamSetRequest.t) (st st' : t) :
  isCapturing st = false ->
  dispatch sensor_frames task st = Some st' ->
  isCapturing st' = false /\
  exists calls : list event,
    trace st' = trace st ++ calls /\
    capture_brackets false calls = Some false.
Proof.
  intros Hidle Hd. unfold dispatch in Hd.
  repeat match type of Hd with
  | (if Z.land (getId task) 65535 =? ?c then _ else _) = _ =>
      destruct (Z.eqb_spec (Z.land (getId task) 65535) c) as [_|_]
  end.
  all: try (apply auto_toggle_silent in Hd; destruct Hd as [Hc Ht];
            split; [congruence|]; exists []; rewrite app_nil_r;
            split; [exact Ht | reflexivity]).
  all: try (destruct (writer st) as [w|]).
  all: repeat match type of Hd with
       | (?m ≫= _) = _ =>
           destruct m eqn:?; [cbn [mbind option_bind] in Hd | discriminate]
       | (if ?b then _ else _) = _ => destruct b
       | match ?m with Some _ => _ | None => _ end = _ => destruct m eqn:?
       end.
  all: try discriminate.
  all: try (injection Hd as <-; split; [exact Hidle|];
            first [ exists []; split; [cbn; rewrite app_nil_r; reflexivity
                                      | reflexivity]
                  | eexists [_]; split; [cbn; reflexivity | reflexivity] ];
            fail).
  all: match goal with
       | Hc : capture _ _ _ = Some _ |- _ =>
           apply capture_calls in Hc; destruct Hc as (_ & shots & Ht)
       end.
  all: injection Hd as <-; split; [reflexivity|].
  all: eexists; split;
         [cbn; rewrite Ht; cbn; rewrite <- !app_assoc; reflexivity|].
  all: cbn [app capture_brackets].
  all: rewrite capture_brackets_app, capture_brackets_shots; reflexivity.
Qed.

Lemma dispatch_all_brackets (tasks : list ParamSetRequest.t) :
  forall st st' : t,
    isCapturing st = false ->
    dispatch_all sensor_frames tasks st = Some st' ->
    isCapturing st' = false /\
    exists calls : list event,
      trace st' = trace st ++ calls /\
      capture_brackets false calls = Some false.
Proof.
  induction tasks as [|task tasks IH]; intros st st' Hidle Hd.
  - cbn in Hd. injection Hd as <-. split; [exact Hidle|].
    exists []. rewrite app_nil_r. split; reflexivity.
  - cbn [dispatch_all] in Hd.
    destruct (dispatch sensor_frames task st) as [st1|] eqn:Hd1;
      [|discriminate].
    cbn [mbind option_bind] in Hd.
    destruct (dispatch_brackets task st st1 Hidle Hd1)
      as (Hidle1 & calls1 & Ht1 & Hb1).
    destruct (IH st1 st' Hidle1 Hd) as (Hidle' & calls & Ht & Hb).
    split; [exact Hidle'|]. exists (calls1 ++ calls). split.
    + rewrite Ht, Ht1, app_assoc. reflexivity.
    + rewrite capture_brackets_app, Hb1. exact Hb.
Qed.
End CaptureBrackets.

(** X15.  A capture is announced and completed within one request.  If
    no capture is in progress when the capture thread resolves the queued
    requests, none is in progress when it is done, and among the calls it
    made meanwhile every [notifyCaptureStart] is followed by its
    [notifyCaptureComplete] before the next one, none is left open, and
    every shot handed to the sensor lies between the two. *)
Theorem resolve_requests_brackets (P : Platform)
    (sensor_frames : list Camera.ShotParams -> list Frame.t)
    (st st' : FCamInterface.t) :
  FCamInterface.isCapturing st = false ->
  FCamInterface.resolve_requests sensor_frames st = Some st' ->
  FCamInterface.isCapturing st' = false /\
  exists calls : list FCamInterface.event,
    FCamInterface.trace st' = FCamInterface.trace st ++ calls /\
    capture_brackets false calls = Some false.
Proof.
  intros Hidle Hrun. unfold FCamInterface.resolve_requests in Hrun.
  cbn [FCamInterface.requestQueue FCamInterface.set_touch] in Hrun.
  destruct (WorkQueue.consumeAll [] (FCamInterface.requestQueue st))
    as [taskQueue q].
  apply dispatch_all_brackets in Hrun; [|exact Hidle].
  exact Hrun.
Qed.

Lemma resolve_requests_brackets_witness :
  exists st' : FCamInterface.t,
    FCamInterface.resolve_requests (platform:=binary32_platform)
      example_sensor scenario = Some st' /\
    FCamInterface.isCapturing st' = false /\
    FCamInterface.trace st'
    = [FCamInterface.NotifyCaptureStart;
       FCamInterface.StopStreaming;
       FCamInterface.DrainPendingFrames;
       FCamInterface.Capture 1176256512 1065353216 1168891904 false;
       FCamInterface.Capture 1176256512 1065353216 1168891904 true;
       FCamInterface.NotifyCaptureComplete].
Proof.
  destruct (FCamInterface.resolve_requests (platform:=binary32_platform)
              example_sensor scenario) as [st'|] eqn:Hrun.
  - exists st'. split; [reflexivity|].
    split.
    + exact (proj1 (resolve_requests_brackets binary32_platform
                      example_sensor scenario st' eq_refl Hrun)).
    + vm_compute in Hrun. injection Hrun as <-. reflexivity.
  - vm_compute in Hrun. discriminate.
Defined.

(** ** The output directory *)

Lemma string_get_append_end (s : string) (c : ascii) :
  String.get (String.length s) (s +:+ String c EmptyString) = Some c.
Proof. induction s as [|a s IH]; [reflexivity | exact IH]. Qed.

Lemma string_length_snoc (s : string) (c : ascii) :
  String.length (s +:+ String c EmptyString) = S (String.length s).
Proof. rewrite string_length_append. cbn. lia. Qed.

(** The constructor of the writer appends a slash to the directory
    exactly when the directory does not end with one. *)
Lemma AsyncImageWriter_create_prefix (dir : string) :
  dir <> EmptyString ->
  exists w : AsyncImageWriter.t,
    AsyncImageWriter.create dir = Some w /\
    (String.get (String.length dir - 1) dir = Some "/"%char ->
     AsyncImageWriter.m_outputDirPrefix w = dir) /\
    (String.get (String.length dir - 1) dir <> Some "/"%char ->
     AsyncImageWriter.m_outputDirPrefix w = dir +:+ "/") /\
    String.get (String.length (AsyncImageWriter.m_outputDirPrefix w) - 1)
      (AsyncImageWriter.m_outputDirPrefix w) = Some "/"%char /\
    AsyncImageWriter.m_queue w = WorkQueue.create /\
    AsyncImageWriter.m_onChangedCallback w = None.
Proof.
  intros Hdir. unfold AsyncImageWriter.create.
  destruct (String.length dir) as [|k] eqn:Hlen.
  - destruct dir; [congruence | discriminate].
  - replace (S k - 1)%nat with k by lia.
    destruct (String.get k dir) as [last|] eqn:Hlast.
    + cbn [mbind option_bind]. eexists. split; [reflexivity|].
      cbn [AsyncImageWriter.m_outputDirPrefix AsyncImageWriter.m_queue
           AsyncImageWriter.m_onChangedCallback].
      destruct (Ascii.eqb_spec last "/"%char) as [->|Hne].
      * split; [reflexivity|]. split; [congruence|]. rewrite Hlen.
        replace (S k - 1)%nat with k by lia. auto.
      * split; [congruence|]. split; [reflexivity|].
        rewrite string_length_snoc.
        replace (S (String.length dir) - 1)%nat with (String.length dir)
          by lia.
        rewrite string_get_append_end. auto.
    + exfalso. revert k Hlen Hlast. clear Hdir.
      induction dir as [|a dir IH]; intros k Hlen Hlast; [discriminate|].
      destruct k as [|k]; [discriminate|].
      cbn in Hlen, Hlast. injection Hlen as Hlen.
      destruct dir as [|b dir]; [discriminate|].
      apply (IH k Hlen Hlast).
Qed.

Lemma dispatch_output_directory (P : Platform)
    (sensor_frames : list Camera.ShotParams -> list Frame.t)
    (task : ParamSetRequest.t) (st : FCamInterface.t) :
  Z.land (ParamSetRequest.getId task) 65535
  = ParamSetRequest.PARAM_OUTPUT_DIRECTORY ->
  FCamInterface.dispatch sensor_frames task st
  = match FCamInterface.writer st with
    | None =>
        dir ← ParamSetRequest.string_at (ParamSetRequest.getData task);
        w ← AsyncImageWriter.create dir;
        Some (FCamInterface.set_writer
                (Some (AsyncImageWriter.setOnFileSystemChangedCallback
                         (Some ImageSet.OnFileSystemChanged) w))
                st)
    | Some _ => Some st
    end.
Proof. intros Hid. unfold FCamInterface.dispatch. rewrite Hid. reflexivity. Qed.

(** X16.  The output directory is set once.  The first request that names
    a directory creates the writer: its prefix is the directory itself
    when that ends with a slash and the directory followed by one slash
    when it does not, its queue is empty and the file system callback is
    installed.  Once a writer exists every later output directory request
    is ignored. *)
Theorem output_directory_once (P : Platform)
    (sensor_frames : list Camera.ShotParams -> list Frame.t)
    (param : Z) (dir : string) (later : ParamSetRequest.t)
    (st : FCamInterface.t) :
  Z.land param 65535 = ParamSetRequest.PARAM_OUTPUT_DIRECTORY ->
  Z.land (ParamSetRequest.getId later) 65535
  = ParamSetRequest.PARAM_OUTPUT_DIRECTORY ->
  FCamInterface.writer st = None ->
  dir <> EmptyString ->
  (forall k, String.get k dir <> Some "000"%char) ->
  exists (w : AsyncImageWriter.t) (st' : FCamInterface.t),
    FCamInterface.dispatch sensor_frames
      (ParamSetRequest.create param (ParamSetRequest.bytes_of_string dir)) st
    = Some st' /\
    st' = FCamInterface.set_writer (Some w) st /\
    (String.get (String.length dir - 1) dir = Some "/"%char ->
     AsyncImageWriter.m_outputDirPrefix w = dir) /\
    (String.get (String.length dir - 1) dir <> Some "/"%char ->
     AsyncImageWriter.m_outputDirPrefix w = dir +:+ "/") /\
    String.get (String.length (AsyncImageWriter.m_outputDirPrefix w) - 1)
      (AsyncImageWriter.m_outputDirPrefix w) = Some "/"%char /\
    AsyncImageWriter.m_queue w = WorkQueue.create /\
    AsyncImageWriter.m_onChangedCallback w
    = Some ImageSet.OnFileSystemChanged /\
    FCamInterface.dispatch sensor_frames later st' = Some st'.
Proof.
  intros Hid Hlater Hnone Hdir Hzero.
  destruct (AsyncImageWriter_create_prefix dir Hdir)
    as (w & Hcreate & Hkeep & Happend & Hslash & Hqueue & _).
  exists (AsyncImageWriter.setOnFileSystemChangedCallback
            (Some ImageSet.OnFileSystemChanged) w).
  eexists. split.
  - rewrite dispatch_output_directory by exact Hid.
    rewrite Hnone.
    cbn [ParamSetRequest.getData ParamSetRequest.create ParamSetRequest.m_data].
    rewrite string_at_bytes_of_string by exact Hzero.
    cbn [mbind option_bind]. rewrite Hcreate. reflexivity.
  - split; [reflexivity|]. split; [exact Hkeep|]. split; [exact Happend|].
    split; [exact Hslash|].
    split; [exact Hqueue|]. split; [reflexivity|].
    rewrite dispatch_output_directory by exact Hlater. reflexivity.
Qed.

Lemma output_directory_once_witness :
  (exists (w : AsyncImageWriter.t) (st' : FCamInterface.t),
     FCamInterface.dispatch (platform:=binary32_platform) example_sensor
       (ParamSetRequest.create ParamSetRequest.PARAM_OUTPUT_DIRECTORY
          (ParamSetRequest.bytes_of_string "/tmp/x"))
       (FCamInterface.initial []) = Some st' /\
     st' = FCamInterface.set_writer (Some w) (FCamInterface.initial []) /\
     AsyncImageWriter.m_outputDirPrefix w = "/tmp/x/") /\
  (exists (w : AsyncImageWriter.t) (st' : FCamInterface.t),
     FCamInterface.dispatch (platform:=binary32_platform) example_sensor
       (ParamSetRequest.create ParamSetRequest.PARAM_OUTPUT_DIRECTORY
          (ParamSetRequest.bytes_of_string "/tmp/x/"))
       (FCamInterface.initial []) = Some st' /\
     st' = FCamInterface.set_writer (Some w) (FCamInterface.initial []) /\
     AsyncImageWriter.m_outputDirPrefix w = "/tmp/x/").
Proof.
  assert (Hdir : "/tmp/x"%string <> EmptyString) by discriminate.
  assert (Hzero : forall k, String.get k "/tmp/x" <> Some "000"%char).
  { intros k. do 7 (destruct k as [|k]; [discriminate|]). discriminate. }
  assert (Hdir' : "/tmp/x/"%string <> EmptyString) by discriminate.
  assert (Hzero' : forall k, String.get k "/tmp/x/" <> Some "000"%char).
  { intros k. do 8 (destruct k as [|k]; [discriminate|]). discriminate. }
  assert (Hopen : String.get (String.length "/tmp/x" - 1) "/tmp/x"
                  <> Some "/"%char) by discriminate.
  split.
  - destruct (output_directory_once binary32_platform example_sensor
                ParamSetRequest.PARAM_OUTPUT_DIRECTORY "/tmp/x"
                (ParamSetRequest.create ParamSetRequest.PARAM_OUTPUT_DIRECTORY
                   (ParamSetRequest.bytes_of_string "/other"))
                (FCamInterface.initial []) eq_refl eq_refl eq_refl Hdir Hzero)
      as (w & st' & Hrun & Hst & _ & Happend & _).
    exists w, st'. split; [exact Hrun|]. split; [exact Hst|].
    exact (Happend Hopen).
  - destruct (output_directory_once binary32_platform example_sensor
                ParamSetRequest.PARAM_OUTPUT_DIRECTORY "/tmp/x/"
                (ParamSetRequest.create ParamSetRequest.PARAM_OUTPUT_DIRECTORY
                   (ParamSetRequest.bytes_of_string "/other"))
                (FCamInterface.initial []) eq_refl eq_refl eq_refl Hdir' Hzero')
      as (w & st' & Hrun & Hst & Hkeep & _).
    exists w, st'. split; [exact Hrun|]. split; [exact Hst|].
    exact (Hkeep eq_refl).
Defined.

(** ** Selecting a camera *)

Lemma dispatch_select_camera (P : Platform)
    (sensor_frames : list Camera.ShotParams -> list Frame.t)
    (task : ParamSetRequest.t) (st : FCamInterface.t) :
  Z.land (ParamSetRequest.getId task) 65535
  = ParamSetRequest.PARAM_SELECT_CAMERA ->
  FCamInterface.dispatch sensor_frames task st
  = (v ← ParamSetRequest.int_at (ParamSetRequest.getData task) 0;
     Some (FCamInterface.set_camera
             (FCamInterface.select_camera v (FCamInterface.camera st)) st)).
Proof. intros Hid. unfold FCamInterface.dispatch. rewrite Hid. reflexivity. Qed.

(** X17.  A request that selects the camera already in use, or carries a
    value that names no camera, changes nothing.  A request that selects
    another camera replaces the camera object: [getParamInt] then reports
    the new camera, and the whole capture state of the thread (preview
    settings, automatic modes, burst size, the shots of the burst) is
    cleared to zero. *)
Theorem select_camera_resets_state (P : Platform)
    (sensor_frames : list Camera.ShotParams -> list Frame.t)
    (v : Z) (s : ParamGet.t) :
  ParamGet.previousStateLock s = false ->
  INT_MIN <= v <= INT_MAX ->
  exists (s1 : ParamGet.t) (now : Z),
    ParamGet.after_request sensor_frames
      (ParamSetRequest.create ParamSetRequest.PARAM_SELECT_CAMERA
         (ParamSetRequest.bytes_of_word v)) s = Some s1 /\
    ParamGet.getParamInt ParamSetRequest.PARAM_SELECT_CAMERA s
    = ParamGet.Returns now s /\
    ((v = now \/ v < 0 \/ 2 < v) -> ParamGet.app s1 = ParamGet.app s) /\
    (v <> now -> 0 <= v <= 2 ->
     ParamGet.getParamInt ParamSetRequest.PARAM_SELECT_CAMERA s1
     = ParamGet.Returns v s1 /\
     FCamInterface.m_currentState (FCamInterface.camera (ParamGet.app s1))
     = Camera.zeroState).
Proof.
  intros Hfree Hv. unfold ParamGet.after_request.
  rewrite dispatch_select_camera by reflexivity.
  cbn [ParamSetRequest.getData ParamSetRequest.create ParamSetRequest.m_data].
  rewrite int_at_bytes_of_word by exact Hv. cbn [mbind option_bind].
  destruct s as [[[state mode width height] prev capt view queue wr free
                  files tx ty ta tr] fps l].
  cbn in Hfree. subst l.
  eexists. eexists. split; [reflexivity|]. split; [reflexivity|].
  cbn [ParamGet.app FCamInterface.camera FCamInterface.m_currentMode].
  unfold FCamInterface.select_camera, ParamSetRequest.SELECT_FRONT_CAMERA,
    ParamSetRequest.SELECT_BACK_CAMERA, ParamSetRequest.SELECT_STEREO_CAMERA.
  cbn [FCamInterface.m_currentMode].
  destruct (Z.eqb_spec v 0) as [->|H0];
    [|destruct (Z.eqb_spec v 1) as [->|H1];
      [|destruct (Z.eqb_spec v 2) as [->|H2]]];
    destruct mode; split;
    try (intros; lia);
    try (intros; reflexivity);
    try (intros; split; reflexivity).
Qed.

Lemma select_camera_resets_state_witness :
  exists s1 : ParamGet.t,
    ParamGet.after_request (platform:=binary32_platform) example_sensor
      (ParamSetRequest.create ParamSetRequest.PARAM_SELECT_CAMERA
         (ParamSetRequest.bytes_of_word 0))
      {| ParamGet.app :=
           FCamInterface.set_state (Camera.set_pendingImagesCount 3)
             (FCamInterface.initial []);
         ParamGet.captureFps := 1106247680;
         ParamGet.previousStateLock := false |} = Some s1 /\
    ParamGet.getParamInt ParamSetRequest.PARAM_SELECT_CAMERA s1
    = ParamGet.Returns 0 s1 /\
    FCamInterface.m_currentState (FCamInterface.camera (ParamGet.app s1))
    = Camera.zeroState.
Proof.
  destruct (select_camera_resets_state binary32_platform example_sensor 0
              {| ParamGet.app :=
                   FCamInterface.set_state (Camera.set_pendingImagesCount 3)
                     (FCamInterface.initial []);
                 ParamGet.captureFps := 1106247680;
                 ParamGet.previousStateLock := false |}
              eq_refl ltac:(unfold INT_MIN, INT_MAX; lia))
    as (s1 & now & Hrun & Hnow & _ & Hchange).
  injection Hnow as Hnow.
  destruct (Hchange ltac:(rewrite <- Hnow; discriminate) ltac:(lia))
    as [Hget Hstate].
  exists s1. split; [exact Hrun|]. split; [exact Hget | exact Hstate].
Defined.

(** ** Taking a picture *)

Lemma fold_add_frames (fmt : FileFormatDescriptor.t) (frames : list Frame.t) :
  forall s : ImageSet.t,
    ImageSet.m_frames
      (fold_left (fun acc frame => ImageSet.add fmt frame acc) frames s)
    = ImageSet.m_frames s ++ frames /\
    ImageSet.m_frameFormat
      (fold_left (fun acc frame => ImageSet.add fmt frame acc) frames s)
    = ImageSet.m_frameFormat s ++ replicate (length frames) fmt /\
    ImageSet.m_fileId
      (fold_left (fun acc frame => ImageSet.add fmt frame acc) frames s)
    = ImageSet.m_fileId s /\
    ImageSet.m_outputDirPrefix
      (fold_left (fun acc frame => ImageSet.add fmt frame acc) frames s)
    = ImageSet.m_outputDirPrefix s.
Proof.
  induction frames as [|frame frames IH]; intros s.
  - cbn. rewrite !app_nil_r. auto.
  - cbn [fold_left]. destruct (IH (ImageSet.add fmt frame s))
      as (Hframes & Hformat & Hid & Hprefix).
    rewrite Hframes, Hformat, Hid, Hprefix. cbn.
    rewrite <- !app_assoc. auto.
Qed.

(** X18.  [Camera::capture] for a burst of [n] shots, [n] within the 16
    shots the state holds: the sensor is stopped and drained, then asked
    for exactly the first [n] pending shots, in order, each with its own
    exposure, gain, white balance and flash; one image set with a new file
    id is queued for the writer, holding the frames the sensor delivered,
    each to be written as a JPEG of quality 95, one format per frame.  A
    burst size above the number of shots held reads behind
    [pendingImages]. *)
Theorem capture_burst (P : Platform)
    (sensor_frames : list Camera.ShotParams -> list Frame.t)
    (w : AsyncImageWriter.t) (st : FCamInterface.t)
    (imageset : ImageSet.t) (next : Z) :
  AsyncImageWriter.newImageSet (FCamInterface.storage st)
    (FCamInterface.sFreeId st) w = Some (imageset, next) ->
  (Camera.pendingImagesCount
     (FCamInterface.m_currentState (FCamInterface.camera st))
   <= Z.of_nat
        (length (Camera.pendingImages
                   (FCamInterface.m_currentState (FCamInterface.camera st)))) ->
   exists (st' : FCamInterface.t) (queued : ImageSet.t),
     FCamInterface.capture sensor_frames w st = Some st' /\
     FCamInterface.trace st'
     = FCamInterface.trace st
       ++ [FCamInterface.StopStreaming; FCamInterface.DrainPendingFrames]
       ++ map FCamInterface.shot_event
            (take (Z.to_nat
                     (Camera.pendingImagesCount
                        (FCamInterface.m_currentState
                           (FCamInterface.camera st))))
               (Camera.pendingImages
                  (FCamInterface.m_currentState (FCamInterface.camera st)))) /\
     FCamInterface.sFreeId st' = next /\
     FCamInterface.writer st'
     = Some (AsyncImageWriter.push (Some queued) w) /\
     ImageSet.m_fileId queued = ImageSet.m_fileId imageset /\
     ImageSet.m_frames queued
     = sensor_frames
         (take (Z.to_nat
                  (Camera.pendingImagesCount
                     (FCamInterface.m_currentState
                        (FCamInterface.camera st))))
            (Camera.pendingImages
               (FCamInterface.m_currentState (FCamInterface.camera st)))) /\
     ImageSet.m_frameFormat queued
     = replicate (length (ImageSet.m_frames queued))
         FCamInterface.capture_fmt) /\
  (Z.of_nat
     (length (Camera.pendingImages
                (FCamInterface.m_currentState (FCamInterface.camera st))))
   < Camera.pendingImagesCount
       (FCamInterface.m_currentState (FCamInterface.camera st)) ->
   FCamInterface.capture sensor_frames w st = None).
Proof.
  intros Hnew.
  assert (Hempty : ImageSet.m_frames imageset = [] /\
                   ImageSet.m_frameFormat imageset = []).
  { unfold AsyncImageWriter.newImageSet in Hnew.
    destruct (AsyncImageWriter.scan _ _ _ _) as [id|]; [|discriminate].
    cbn [mbind option_bind] in Hnew. injection Hnew as <- _. auto. }
  destruct Hempty as [Hframes Hformat].
  unfold FCamInterface.capture.
  destruct st as [cam prev capt view queue wr free files tx ty ta tr].
  cbn [FCamInterface.storage FCamInterface.sFreeId FCamInterface.emit
       FCamInterface.camera FCamInterface.trace] in *.
  rewrite Hnew. cbn [mbind option_bind].
  cbn [FCamInterface.camera FCamInterface.set_sFreeId FCamInterface.emit].
  unfold FCamInterface.burst.
  set (state := FCamInterface.m_currentState cam).
  destruct (Z.leb_spec (Camera.pendingImagesCount state)
              (Z.of_nat (length (Camera.pendingImages state))));
    split; try (intros; lia); intros _; [|reflexivity].
  cbn [mbind option_bind].
  set (shots := take _ _).
  destruct (fold_add_frames FCamInterface.capture_fmt (sensor_frames shots)
              imageset) as (Hf & Hff & Hid & _).
  eexists. eexists. split; [reflexivity|].
  cbn [FCamInterface.trace FCamInterface.set_writer FCamInterface.emit
       FCamInterface.set_sFreeId FCamInterface.sFreeId FCamInterface.writer].
  split; [rewrite <- app_assoc; reflexivity|].
  split; [reflexivity|]. split; [reflexivity|]. split; [exact Hid|].
  rewrite Hf, Hff, Hframes, Hformat. auto.
Qed.

Lemma capture_burst_witness :
  exists (st' : FCamInterface.t) (queued : ImageSet.t),
    FCamInterface.capture example_sensor example_writer example_armed
    = Some st' /\
    FCamInterface.sFreeId st' = 1 /\
    length (ImageSet.m_frames queued) = 2%nat /\
    FCamInterface.writer st'
    = Some (AsyncImageWriter.push (Some queued) example_writer).
Proof.
  destruct (capture_burst binary32_platform example_sensor example_writer
              example_armed (ImageSet.create 0 "/tmp/x/") 1
              ltac:(vm_compute; reflexivity))
    as [Hrun _].
  destruct (Hrun ltac:(vm_compute; discriminate))
    as (st' & queued & Hcap & _ & Hid & Hw & _ & Hframes & _).
  exists st', queued. split; [exact Hcap|]. split; [exact Hid|].
  split; [rewrite Hframes; reflexivity | exact Hw].
Defined.

(** ** The writer thread *)

Section ThreadProcFacts.
Context {platform : Platform}.

Lemma push_all_queue (sets : list (option ImageSet.t)) :
  forall w : AsyncImageWriter.t,
    WorkQueue.m_queue
      (AsyncImageWriter.m_queue
         (fold_left (fun acc s => AsyncImageWriter.push s acc) sets w))
    = WorkQueue.m_queue (AsyncImageWriter.m_queue w)
      ++ map Some (omap id sets) /\
    AsyncImageWriter.m_onChangedCallback
      (fold_left (fun acc s => AsyncImageWriter.push s acc) sets w)
    = AsyncImageWriter.m_onChangedCallback w.
Proof.
  induction sets as [|s sets IH]; intros w.
  - cbn. rewrite app_nil_r. auto.
  - cbn [fold_left]. destruct (IH (AsyncImageWriter.push s w)) as [Hq Hcb].
    rewrite Hq, Hcb. destruct s as [s|]; cbn; [|auto].
    rewrite <- app_assoc. auto.
Qed.

Lemma ThreadProc_sentinel (sets : list ImageSet.t)
    (behind : list (option ImageSet.t)) (w : AsyncImageWriter.t) :
  Forall ImageSet.well_formed sets ->
  AsyncImageWriter.ThreadProc (map Some sets ++ None :: behind) w
  = Some (concat
            (map (fun s =>
                    default []
                      (ImageSet.dumpToFileSystem s
                         (AsyncImageWriter.m_onChangedCallback w)))
               sets)) /\
  Forall (fun s =>
            is_Some (ImageSet.dumpToFileSystem s
                       (AsyncImageWriter.m_onChangedCallback w))) sets.
Proof.
  induction sets as [|s sets IH]; intros Hwf.
  - split; [reflexivity | constructor].
  - inversion Hwf as [|? ? Hs Hrest]; subst.
    destruct (IH Hrest) as [Hrun Hall].
    cbn [map app AsyncImageWriter.ThreadProc concat].
    rewrite (dumpToFileSystem_spec s _ Hs) in *.
    cbn [mbind option_bind default]. rewrite Hrun.
    cbn [mbind option_bind]. split; [reflexivity|].
    constructor; [|exact Hall].
    rewrite (dumpToFileSystem_spec s _ Hs). eexists. reflexivity.
Qed.
End ThreadProcFacts.

(** X19.  The writer thread writes the image sets in the order they were
    pushed.  Null pointers handed to [push] are not queued; the null
    pointer the destructor queues ends the thread after every set pushed
    before it has been written, and nothing queued behind it is looked
    at. *)
Theorem ThreadProc_in_push_order (P : Platform)
    (pushed behind : list (option ImageSet.t)) (w : AsyncImageWriter.t) :
  WorkQueue.m_queue (AsyncImageWriter.m_queue w) = [] ->
  Forall ImageSet.well_formed (omap id pushed) ->
  AsyncImageWriter.ThreadProc
    (WorkQueue.m_queue
       (AsyncImageWriter.m_queue
          (fold_left (fun acc s => AsyncImageWriter.push s acc) pushed w))
     ++ None :: behind)
    (fold_left (fun acc s => AsyncImageWriter.push s acc) pushed w)
  = Some (concat
            (map (fun s =>
                    default []
                      (ImageSet.dumpToFileSystem s
                         (AsyncImageWriter.m_onChangedCallback w)))
               (omap id pushed))) /\
  Forall (fun s =>
            is_Some (ImageSet.dumpToFileSystem s
                       (AsyncImageWriter.m_onChangedCallback w)))
    (omap id pushed).
Proof.
  intros Hqueue Hwf.
  destruct (push_all_queue pushed w) as [Hq Hcb].
  rewrite Hq, Hqueue. cbn [app].
  destruct (ThreadProc_sentinel (omap id pushed) behind
              (fold_left (fun acc s => AsyncImageWriter.push s acc) pushed w)
              Hwf) as [Hrun Hall].
  rewrite Hcb in Hrun, Hall. split; assumption.
Qed.

Lemma ThreadProc_in_push_order_witness :
  descriptors_written
    (default []
       (AsyncImageWriter.ThreadProc (platform:=binary32_platform)
          (WorkQueue.m_queue
             (AsyncImageWriter.m_queue
                (fold_left (fun acc s => AsyncImageWriter.push s acc)
                   [Some (example_set_numbered 3); None;
                    Some (example_set_numbered 1)] example_writer))
           ++ None :: [Some (example_set_numbered 2)])
          (fold_left (fun acc s => AsyncImageWriter.push s acc)
             [Some (example_set_numbered 3); None;
              Some (example_set_numbered 1)] example_writer)))
  = ["/tmp/x/img_0003.xml"; "/tmp/x/img_0001.xml"]%string.
Proof.
  assert (Hwf : Forall ImageSet.well_formed
                  (omap id [Some (example_set_numbered 3); None;
                            Some (example_set_numbered 1)])).
  { assert (Hone : forall n : Z,
      (String.length
         ("/tmp/x/" +:+ ImageSet.sThumbnailName n 0) <? 128)%nat = true ->
      (String.length
         ("/tmp/x/" +:+ ImageSet.sThumbnailName n 2) <? 128)%nat = true ->
      ImageSet.well_formed (example_set_numbered n)).
    { intros n H0 H2. split; [reflexivity|].
      split; [vm_compute; discriminate|].
      apply Forall_forall.
      change (ImageSet.valid_frames (example_set_numbered n))
        with [(0%nat, example_frame true 0);
              (2%nat, example_frame true 1065353216)].
      apply Forall_cons_2; [|apply Forall_cons_2; [|apply Forall_nil_2]];
        apply Nat.ltb_lt; assumption. }
    cbn [omap id].
    apply Forall_cons_2; [|apply Forall_cons_2; [|apply Forall_nil_2]];
      apply Hone; vm_compute; reflexivity. }
  rewrite (proj1 (ThreadProc_in_push_order binary32_platform
                    [Some (example_set_numbered 3); None;
                     Some (example_set_numbered 1)]
                    [Some (example_set_numbered 2)] example_writer
                    eq_refl Hwf)).
  vm_compute. reflexivity.
Defined.

(** ** File ids *)

Section DecimalFacts.

(** The decimal digits of a positive number start with a digit other than
    zero. *)
Lemma pretty_N_go_head (x : N) :
  forall s : string,
    (0 < x)%N ->
    exists (c : ascii) (rest : string),
      pretty_N_go x s = String c rest /\ c <> "0"%char /\ c <> "-"%char.
Proof.
  induction (N.lt_wf_0 x) as [x _ IH]. intros s Hx.
  rewrite pretty_N_go_step by exact Hx.
  destruct (N.eq_dec (x `div` 10)%N 0%N) as [Hsmall|Hbig].
  - rewrite Hsmall, pretty_N_go_0.
    exists (pretty_N_char (x `mod` 10)%N), s. split; [reflexivity|].
    assert (Hdigit : (x < 10)%N) by (apply N.div_small_iff in Hsmall; lia).
    rewrite N.mod_small by exact Hdigit.
    assert (x = 1 \/ x = 2 \/ x = 3 \/ x = 4 \/ x = 5 \/ x = 6
            \/ x = 7 \/ x = 8 \/ x = 9)%N as Hcases by lia.
    destruct Hcases as [->|[->|[->|[->|[->|[->|[->|[->| ->]]]]]]]];
      split; discriminate.
  - apply IH; [apply N.div_lt; lia | apply N.neq_0_lt_0; exact Hbig].
Qed.

Lemma pretty_N_head (n : N) :
  exists (c : ascii) (rest : string),
    pretty n = String c rest /\ c <> "-"%char /\
    (c = "0"%char -> n = 0%N /\ rest = EmptyString).
Proof.
  unfold pretty, pretty_N. destruct (decide (n = 0%N)) as [->|Hn].
  - exists "0"%char, EmptyString. auto.
  - destruct (pretty_N_go_head n EmptyString ltac:(lia))
      as (c & rest & Heq & H0 & Hdash).
    exists c, rest. split; [exact Heq|]. split; [exact Hdash|].
    intros Hc. contradiction.
Qed.

Lemma pretty_N_go_length (k : nat) :
  forall (x : N) (s : string),
    (x < 10 ^ N.of_nat k)%N ->
    (String.length (pretty_N_go x s) <= String.length s + k)%nat.
Proof.
  induction k as [|k IH]; intros x s Hx.
  - replace x with 0%N by (cbn in Hx; lia). rewrite pretty_N_go_0. lia.
  - destruct (N.eq_dec x 0%N) as [->|Hpos]; [rewrite pretty_N_go_0; lia|].
    rewrite pretty_N_go_step by lia.
    assert (Hdiv : (x `div` 10 < 10 ^ N.of_nat k)%N).
    { apply N.Div0.div_lt_upper_bound.
      rewrite Nat2N.inj_succ, N.pow_succ_r' in Hx. exact Hx. }
    specialize (IH (x `div` 10)%N
                  (String (pretty_N_char (x `mod` 10)%N) s) Hdiv).
    cbn [String.length] in IH. lia.
Qed.

Lemma pretty_N_length (n : N) :
  (n < 10 ^ 10)%N -> (String.length (pretty n) <= 10)%nat.
Proof.
  intros Hn. unfold pretty, pretty_N.
  destruct (decide (n = 0%N)); [cbn; lia|].
  apply (pretty_N_go_length 10 n EmptyString Hn).
Qed.

Lemma zeros_length (n : nat) : String.length (Stdio.zeros n) = n.
Proof. induction n as [|n IH]; [reflexivity | cbn; f_equal; exact IH]. Qed.

(** ["%04i"] of an [int] takes at most 11 characters. *)
Lemma printf_0i_length (z : Z) :
  INT_MIN <= z <= INT_MAX ->
  (String.length (Stdio.printf_0i 4 z) <= 11)%nat.
Proof.
  unfold INT_MIN, INT_MAX. intros Hz.
  assert (Hdigits : (String.length (pretty (Z.abs_N z)) <= 10)%nat).
  { apply pretty_N_length. lia. }
  unfold Stdio.printf_0i. destruct (z <? 0);
    rewrite ?string_length_append, ?zeros_length; cbn [String.length]; lia.
Qed.

Lemma zeros_pretty_inj (k : nat) :
  forall (k' : nat) (a b : N),
    Stdio.zeros k +:+ pretty a = Stdio.zeros k' +:+ pretty b -> a = b.
Proof.
  induction k as [|k IH]; intros k' a b Heq.
  - destruct k' as [|k'].
    + cbn in Heq. apply (inj pretty). exact Heq.
    + cbn in Heq. destruct (pretty_N_head a) as (c & rest & Ha & _ & Hzero).
      rewrite Ha in Heq. injection Heq as Hc Hrest.
      destruct (Hzero Hc) as [_ ->].
      destruct (pretty_N_head b) as (c' & rest' & Hb & _).
      rewrite Hb in Hrest. destruct k'; discriminate.
  - destruct k' as [|k'].
    + cbn in Heq. destruct (pretty_N_head b) as (c & rest & Hb & _ & Hzero).
      rewrite Hb in Heq. injection Heq as Hc Hrest.
      destruct (Hzero (eq_sym Hc)) as [_ ->].
      destruct (pretty_N_head a) as (c' & rest' & Ha & _).
      rewrite Ha in Hrest. destruct k; discriminate.
    + cbn in Heq. injection Heq as Heq. apply (IH k' a b Heq).
Qed.

Lemma zeros_pretty_no_dash (k : nat) (a : N) (s : string) :
  Stdio.zeros k +:+ pretty a <> "-" +:+ s.
Proof.
  destruct k as [|k]; [|discriminate]. cbn.
  destruct (pretty_N_head a) as (c & rest & Ha & Hdash & _).
  rewrite Ha. intros [= Hc _]. contradiction.
Qed.

(** ["%0wi"] prints different numbers differently. *)
Lemma printf_0i_inj (w : nat) (a b : Z) :
  Stdio.printf_0i w a = Stdio.printf_0i w b -> a = b.
Proof.
  unfold Stdio.printf_0i.
  destruct (Z.ltb_spec a 0), (Z.ltb_spec b 0); intros Heq.
  - cbn in Heq. injection Heq as Heq. apply zeros_pretty_inj in Heq. lia.
  - symmetry in Heq. apply zeros_pretty_no_dash in Heq. contradiction.
  - apply zeros_pretty_no_dash in Heq. contradiction.
  - apply zeros_pretty_inj in Heq. lia.
Qed.

Lemma string_app_inv_head (p a b : string) : p +:+ a = p +:+ b -> a = b.
Proof.
  induction p as [|c p IH]; [auto|]. cbn. intros [= Heq]. auto.
Qed.

Lemma string_app_inv_tail (a : string) :
  forall b s : string, a +:+ s = b +:+ s -> a = b.
Proof.
  induction a as [|c a IH]; intros b s Heq.
  - destruct b as [|d b]; [reflexivity|]. exfalso.
    apply (f_equal String.length) in Heq.
    rewrite !string_length_append in Heq. cbn [String.length] in Heq. lia.
  - destruct b as [|d b].
    + exfalso. apply (f_equal String.length) in Heq.
      rewrite !string_length_append in Heq. cbn [String.length] in Heq. lia.
    + cbn in Heq. injection Heq as <- Heq. f_equal. apply (IH b s Heq).
Qed.

(** Different ids name different descriptors. *)
Lemma sXmlName_inj (prefix : string) (a b : Z) :
  prefix +:+ ImageSet.sXmlName a = prefix +:+ ImageSet.sXmlName b -> a = b.
Proof.
  unfold ImageSet.sXmlName. intros Heq.
  apply string_app_inv_head, string_app_inv_head in Heq.
  apply string_app_inv_tail in Heq. apply (printf_0i_inj 4 a b Heq).
Qed.

Lemma sXmlName_fits (prefix : string) (id : Z) :
  (String.length prefix <= 108)%nat ->
  INT_MIN <= id <= INT_MAX ->
  Stdio.sprintf (ImageSet.sXmlName id) = Some (ImageSet.sXmlName id) /\
  Stdio.sprintf (prefix +:+ ImageSet.sXmlName id)
  = Some (prefix +:+ ImageSet.sXmlName id).
Proof.
  intros Hprefix Hid. pose proof (printf_0i_length id Hid) as Hlen.
  split; apply sprintf_fits; unfold ImageSet.sXmlName;
    rewrite !string_length_append; cbn [String.length]; lia.
Qed.
End DecimalFacts.

Section ScanFacts.
Context (storage : list string) (prefix : string).
Hypothesis Hprefix : (String.length prefix <= 108)%nat.

(** The loop of [newImageSet] stops at the first id whose descriptor is
    not on storage. *)
Lemma scan_spec (probes : nat) :
  forall sFreeId : Z,
    INT_MIN <= sFreeId -> sFreeId + Z.of_nat probes <= INT_MAX ->
    match AsyncImageWriter.scan probes storage prefix sFreeId with
    | Some id =>
        sFreeId <= id < sFreeId + Z.of_nat probes /\
        ((prefix +:+ ImageSet.sXmlName id) ∉ storage) /\
        forall j, sFreeId <= j < id ->
                  (prefix +:+ ImageSet.sXmlName j) ∈ storage
    | None =>
        forall j, sFreeId <= j < sFreeId + Z.of_nat probes ->
                  (prefix +:+ ImageSet.sXmlName j) ∈ storage
    end.
Proof.
  induction probes as [|probes IH]; intros sFreeId Hmin Hmax.
  - cbn. intros j Hj. lia.
  - cbn [AsyncImageWriter.scan].
    destruct (sXmlName_fits prefix sFreeId Hprefix ltac:(lia)) as [Hf Hb].
    rewrite Hf. cbn [mbind option_bind]. rewrite Hb.
    cbn [mbind option_bind]. unfold AsyncImageWriter.file_exists.
    case_bool_decide as Hthere.
    + rewrite add32_small by (unfold INT_MIN in *; lia).
      specialize (IH (sFreeId + 1) ltac:(lia) ltac:(lia)).
      destruct (AsyncImageWriter.scan probes storage prefix (sFreeId + 1))
        as [id|].
      * destruct IH as (Hid & Hfree & Hbelow). split; [lia|].
        split; [exact Hfree|]. intros j Hj.
        destruct (Z.eq_dec j sFreeId) as [->|]; [exact Hthere|].
        apply Hbelow. lia.
      * intros j Hj.
        destruct (Z.eq_dec j sFreeId) as [->|]; [exact Hthere|].
        apply IH. lia.
    + split; [lia|]. split; [exact Hthere|]. intros j Hj. lia.
Qed.

(** As many probes as there are files, and one more, always find a free
    id. *)
Lemma scan_finds (sFreeId : Z) :
  INT_MIN <= sFreeId ->
  sFreeId + Z.of_nat (S (length storage)) <= INT_MAX ->
  is_Some (AsyncImageWriter.scan (S (length storage)) storage prefix sFreeId).
Proof.
  intros Hmin Hmax.
  pose proof (scan_spec (S (length storage)) sFreeId Hmin Hmax) as Hspec.
  destruct (AsyncImageWriter.scan _ _ _ _) as [id|]; [eexists; reflexivity|].
  exfalso.
  set (paths := map (fun k => prefix +:+ ImageSet.sXmlName (sFreeId + Z.of_nat k))
                  (seq 0 (S (length storage)))).
  assert (Hnodup : NoDup paths).
  { apply NoDup_fmap_2; [|apply NoDup_seq].
    intros a b Heq. apply sXmlName_inj in Heq. lia. }
  assert (Hincl : paths ⊆ storage).
  { intros p Hp. apply list_elem_of_fmap in Hp as (k & -> & Hk).
    apply elem_of_seq in Hk. apply Hspec. lia. }
  pose proof (submseteq_length _ _ (NoDup_submseteq _ _ Hnodup Hincl)) as Hlen.
  unfold paths in Hlen. rewrite length_map, length_seq in Hlen. lia.
Qed.
End ScanFacts.

(** X20.  [newImageSet] always finds an id: with the descriptors of
    [storage] in the output directory, a prefix of at most 108 characters
    and ids that stay below [INT_MAX], it returns an empty image set for
    the smallest id from [sFreeId] on whose descriptor does not exist yet,
    after at most as many failed probes as there are files, and leaves
    [sFreeId] one above that id. *)
Theorem newImageSet_least_free
    (storage : list string) (sFreeId : Z) (w : AsyncImageWriter.t) :
  (String.length (AsyncImageWriter.m_outputDirPrefix w) <= 108)%nat ->
  INT_MIN <= sFreeId ->
  sFreeId + Z.of_nat (length storage) < INT_MAX ->
  exists id : Z,
    AsyncImageWriter.newImageSet storage sFreeId w
    = Some (ImageSet.create id (AsyncImageWriter.m_outputDirPrefix w), id + 1) /\
    sFreeId <= id <= sFreeId + Z.of_nat (length storage) /\
    ((AsyncImageWriter.m_outputDirPrefix w +:+ ImageSet.sXmlName id)
     ∉ storage) /\
    forall j, sFreeId <= j < id ->
              (AsyncImageWriter.m_outputDirPrefix w +:+ ImageSet.sXmlName j)
              ∈ storage.
Proof.
  intros Hprefix Hmin Hmax. unfold AsyncImageWriter.newImageSet.
  pose proof (scan_spec storage _ Hprefix (S (length storage)) sFreeId Hmin
                ltac:(lia)) as Hspec.
  destruct (scan_finds storage _ Hprefix sFreeId Hmin ltac:(lia))
    as [id Hscan].
  rewrite Hscan in *. destruct Hspec as (Hid & Hfree & Hbelow).
  exists id. cbn [mbind option_bind].
  rewrite add32_small by (unfold INT_MIN in *; lia).
  split; [reflexivity|]. split; [lia|]. split; assumption.
Qed.

Lemma newImageSet_least_free_witness :
  exists id : Z,
    AsyncImageWriter.newImageSet
      ["/tmp/x/img_0002.xml"; "/tmp/x/img_0000.xml"; "/tmp/x/img_0001.xml"]
      0 example_writer
    = Some (ImageSet.create id "/tmp/x/", id + 1) /\
    0 <= id <= 3.
Proof.
  destruct (newImageSet_least_free
              ["/tmp/x/img_0002.xml"; "/tmp/x/img_0000.xml";
               "/tmp/x/img_0001.xml"]%string 0 example_writer)
    as (id & Hrun & Hid & _).
  - cbn. lia.
  - unfold INT_MIN. lia.
  - unfold INT_MAX. cbn. lia.
  - exists id. split; [exact Hrun | exact Hid].
Defined.

(** ** The colour of a touched patch *)

Section TouchPatchFacts.
Import TouchPatch.
Context (frame : list Z).
Hypothesis Hbytes : bytes frame.

Lemma patch_row_spec (n : nat) :
  forall base x average : Z,
    0 <= base -> 0 <= x ->
    base + x + Z.of_nat n <= Z.of_nat (length frame) ->
    x + Z.of_nat n <= 1000 ->
    0 <= average -> average + 255 * Z.of_nat n <= INT_MAX ->
    exists sum : Z,
      patch_row frame base n x average = Some sum /\
      average <= sum <= average + 255 * Z.of_nat n.
Proof.
  induction n as [|n IH]; intros base x average Hbase Hx Hend Hsmall Ha Hmax.
  - exists average. split; [reflexivity | lia].
  - cbn [patch_row].
    destruct (load_in_range frame base x ltac:(lia)) as (p & Hload & Hp).
    rewrite Hload. cbn [mbind option_bind].
    apply Hbytes in Hp.
    rewrite (add32_small x 1) by (unfold INT_MIN, INT_MAX; lia).
    rewrite (add32_small average p) by (unfold INT_MIN; lia).
    destruct (IH base (x + 1) (average + p)) as (sum & Hsum & Hrange);
      try lia.
    exists sum. split; [exact Hsum | lia].
Qed.

Lemma patch_rows_spec (rowStride patchSize : Z) (n : nat) :
  forall base average : Z,
    0 <= base -> 0 <= rowStride -> 0 <= patchSize <= 1000 ->
    (n <> 0%nat ->
     base + (Z.of_nat n - 1) * rowStride + patchSize
     <= Z.of_nat (length frame)) ->
    0 <= average ->
    average + 255 * patchSize * Z.of_nat n <= INT_MAX ->
    exists sum : Z,
      patch_rows frame rowStride patchSize n base average = Some sum /\
      average <= sum <= average + 255 * patchSize * Z.of_nat n.
Proof.
  induction n as [|n IH]; intros base average Hbase Hstride Hsize Hend Ha Hmax.
  - exists average. split; [reflexivity | lia].
  - cbn [patch_rows]. specialize (Hend ltac:(discriminate)).
    destruct (patch_row_spec (Z.to_nat patchSize) base 0 average)
      as (row & Hrow & Hrange); try nia.
    rewrite Hrow. cbn [mbind option_bind].
    rewrite Z2Nat.id in Hrange by lia.
    destruct (IH (base + rowStride) row) as (sum & Hsum & Hrange');
      try nia.
    exists sum. split; [exact Hsum | nia].
Qed.

(** The average of a patch that lies inside the frame is a byte. *)
Lemma GetChannelPatchAverage_spec (base rowStride patchSize : Z) :
  0 <= base -> 0 <= rowStride -> 1 <= patchSize <= 15 ->
  base + (patchSize - 1) * rowStride + patchSize
  <= Z.of_nat (length frame) ->
  exists average : Z,
    GetChannelPatchAverage frame base rowStride patchSize = Some average /\
    0 <= average <= 255.
Proof.
  intros Hbase Hstride Hsize Hend. unfold GetChannelPatchAverage.
  destruct (patch_rows_spec rowStride patchSize (Z.to_nat patchSize) base 0)
    as (sum & Hsum & Hrange); rewrite ?Z2Nat.id by lia;
    try (unfold INT_MAX; nia).
  rewrite Hsum. cbn [mbind option_bind].
  rewrite Z2Nat.id in Hrange by lia.
  unfold mul32. rewrite wrap32_small by (unfold INT_MIN, INT_MAX; nia).
  unfold div32.
  destruct (Z.eqb_spec (patchSize * patchSize) 0); [nia|].
  destruct (Z.eqb_spec sum INT_MIN); [unfold INT_MIN in *; lia|].
  cbn [andb]. eexists. split; [reflexivity|].
  rewrite Z.quot_div_nonneg by nia. split.
  - apply Z.div_pos; nia.
  - apply Z.div_le_upper_bound; nia.
Qed.
End TouchPatchFacts.

(** X21.  Touch to white balance stays inside the frame wherever the
    touch lands.  For a planar YUV 4:2:0 frame at least 15 pixels wide and
    high that holds its three planes, and any touch point whatever, even
    one outside the frame, the three patches that are averaged lie inside
    the frame, and the estimator is called with three averages between 0
    and 255. *)
Theorem GetLocalColorTemparature_in_bounds
    (GetColorTemparatureYCbCr : Z -> Z -> Z -> Z -> Z)
    (currentTemp : Z) (idata : list Z) (tx ty width height : Z) :
  TouchPatch.bytes idata ->
  15 <= width -> 15 <= height -> width * height <= INT_MAX ->
  width * height + 2 * (width * height / 4) <= Z.of_nat (length idata) ->
  exists y cb cr : Z,
    TouchPatch.GetLocalColorTemparature GetColorTemparatureYCbCr
      currentTemp idata tx ty width height
    = Some (GetColorTemparatureYCbCr currentTemp y cb cr) /\
    0 <= y <= 255 /\ 0 <= cb <= 255 /\ 0 <= cr <= 255.
Proof.
  intros Hbytes Hwidth Hheight Hsize Hlen.
  unfold TouchPatch.GetLocalColorTemparature.
  change (sar32 TouchPatch.TOUCH_PATCH_SIZE 1) with 7.
  change (sar32 TouchPatch.TOUCH_PATCH_SIZE 2) with 3.
  change TouchPatch.TOUCH_PATCH_SIZE with 15.
  assert (Hhalf : forall a, sar32 a 1 = a / 2)
    by (intros a; unfold sar32; rewrite Z.shiftr_div_pow2 by lia;
        reflexivity).
  assert (Hquarter : forall a, sar32 a 2 = a / 4)
    by (intros a; unfold sar32; rewrite Z.shiftr_div_pow2 by lia;
        reflexivity).
  assert (Hextents : width <= 143165576 /\ height <= 143165576)
    by (unfold INT_MAX in Hsize; nia).
  assert (Hsub : forall a b, INT_MIN <= a - b <= INT_MAX -> sub32 a b = a - b)
    by (intros a b; apply wrap32_small).
  assert (Hmul : forall a b, INT_MIN <= a * b <= INT_MAX -> mul32 a b = a * b)
    by (intros a b; apply wrap32_small).
  rewrite !(Hsub width 7), !(Hsub height 7), !(Hsub (width - 7) 1),
    !(Hsub (height - 7) 1) by (unfold INT_MIN, INT_MAX in *; lia).
  set (tx1 := if tx <? 7 then 7 else tx).
  set (ty1 := if ty <? 7 then 7 else ty).
  set (tx2 := if width - 7 <=? tx1 then width - 7 - 1 else tx1).
  set (ty2 := if height - 7 <=? ty1 then height - 7 - 1 else ty1).
  assert (Htx : 7 <= tx2 <= width - 8).
  { subst tx2 tx1.
    destruct (Z.ltb_spec tx 7);
      [destruct (Z.leb_spec (width - 7) 7)
      |destruct (Z.leb_spec (width - 7) tx)]; lia. }
  assert (Hty : 7 <= ty2 <= height - 8).
  { subst ty2 ty1.
    destruct (Z.ltb_spec ty 7);
      [destruct (Z.leb_spec (height - 7) 7)
      |destruct (Z.leb_spec (height - 7) ty)]; lia. }
  clearbody tx2 ty2. clear tx1 ty1.
  rewrite !Hhalf, !Hquarter.
  assert (Hw2 : 7 <= width / 2 /\ 2 * (width / 2) <= width).
  { split; [apply Z.div_le_lower_bound; lia|apply Z.mul_div_le; lia]. }
  assert (Hh2 : 7 <= height / 2 /\ 2 * (height / 2) <= height).
  { split; [apply Z.div_le_lower_bound; lia|apply Z.mul_div_le; lia]. }
  assert (Htx2 : 3 <= tx2 / 2 <= width / 2 - 4).
  { split; [apply Z.div_le_lower_bound; lia|].
    assert (tx2 / 2 <= (width - 8) / 2) by (apply Z.div_le_mono; lia).
    replace (width - 8) with (width + (-4) * 2) in H by lia.
    rewrite Z.div_add in H by lia. lia. }
  assert (Hty2 : 3 <= ty2 / 2 <= height / 2 - 4).
  { split; [apply Z.div_le_lower_bound; lia|].
    assert (ty2 / 2 <= (height - 8) / 2) by (apply Z.div_le_mono; lia).
    replace (height - 8) with (height + (-4) * 2) in H by lia.
    rewrite Z.div_add in H by lia. lia. }
  assert (Hchroma : width / 2 * (height / 2) <= width * height / 4).
  { apply Z.div_le_lower_bound; [lia|]. nia. }
  assert (Hq0 : 0 <= width * height / 4) by (apply Z.div_pos; nia).
  clear Hhalf Hquarter.
  assert (Harea : 0 <= width * height) by (clear - Hwidth Hheight; nia).
  rewrite (Hmul width height) by (unfold INT_MIN, INT_MAX in *; lia).
  assert (Hq1 : width * height / 4 <= width * height)
    by (apply Z.div_le_upper_bound; lia).
  generalize dependent (width * height / 4). intros q Hlen Hchroma Hq0 Hq1.
  generalize dependent (width / 2). intros w2 Hw2 Htx2 Hchroma.
  generalize dependent (height / 2). intros h2 Hh2 Hty2 Hchroma.
  generalize dependent (tx2 / 2). intros c2 Htx2.
  generalize dependent (ty2 / 2). intros r2 Hty2.
  assert (Hluma : 0 <= width * (ty2 - 7) /\
                  width * (ty2 - 7) + 15 * width <= width * height)
    by (clear - Hwidth Hty; nia).
  assert (Hrows : 0 <= w2 * (r2 - 3) /\
                  w2 * (r2 - 3) + 7 * w2 <= w2 * h2)
    by (clear - Hw2 Hty2; nia).
  unfold INT_MIN, INT_MAX in *.
  rewrite (Hsub ty2 7) by lia.
  rewrite (Hsub r2 3) by lia.
  rewrite (Hmul width (ty2 - 7)) by lia.
  rewrite (Hmul w2 (r2 - 3)) by lia.
  rewrite (add32_small (width * (ty2 - 7)) tx2)
    by (unfold INT_MIN, INT_MAX; lia).
  rewrite (add32_small (w2 * (r2 - 3)) c2)
    by (unfold INT_MIN, INT_MAX; lia).
  rewrite (Hsub (width * (ty2 - 7) + tx2) 7) by lia.
  rewrite (Hsub (w2 * (r2 - 3) + c2) 3) by lia.
  destruct (GetChannelPatchAverage_spec idata Hbytes
              (width * (ty2 - 7) + tx2 - 7) width 15)
    as (y & Hy & Hyr); try lia.
  rewrite Hy. cbn [mbind option_bind].
  destruct (GetChannelPatchAverage_spec idata Hbytes
              (width * height + (w2 * (r2 - 3) + c2 - 3)) w2 7)
    as (cb & Hcb & Hcbr); try lia.
  rewrite Hcb. cbn [mbind option_bind].
  destruct (GetChannelPatchAverage_spec idata Hbytes
              (width * height + q + (w2 * (r2 - 3) + c2 - 3)) w2 7)
    as (cr & Hcr & Hcrr); try lia.
  rewrite Hcr. cbn [mbind option_bind].
  exists y, cb, cr. auto.
Qed.

Lemma GetLocalColorTemparature_in_bounds_witness :
  exists y cb cr : Z,
    TouchPatch.GetLocalColorTemparature (fun t y cb cr => t + y + cb + cr)
      6500 (replicate (Z.to_nat 384) 128) (-40) 900 16 16
    = Some (6500 + y + cb + cr) /\
    0 <= y <= 255 /\ 0 <= cb <= 255 /\ 0 <= cr <= 255.
Proof.
  apply (GetLocalColorTemparature_in_bounds (fun t y cb cr => t + y + cb + cr)
           6500 (replicate (Z.to_nat 384) 128) (-40) 900 16 16).
  - intros k p Hp. apply lookup_replicate in Hp. lia.
  - lia.
  - lia.
  - unfold INT_MAX. lia.
  - rewrite length_replicate, Z2Nat.id by lia. reflexivity.
Defined.

(** ** The range of the thumbnail pixels *)

Section DownsampleRange.
Import Thumbnail.
Variables (src : list Z) (srcbase srcWidth lo hi : Z).
Hypothesis Hbounded : forall (k : nat) (p : Z), src !! k = Some p -> lo <= p <= hi.
Hypothesis Hlo : 0 <= lo.
Hypothesis Hle : lo <= hi.
Hypothesis Hhi : hi <= 255.

Lemma load_bounded (base k p : Z) :
  load src base k = Some p -> lo <= p <= hi.
Proof.
  unfold load. destruct (0 <=? base + k); [apply Hbounded | discriminate].
Qed.

Lemma blur_x_range (n : nat) :
  forall srcindex x sum s : Z,
    blur_x src srcbase srcindex n x sum = Some s ->
    0 <= sum -> sum + Z.of_nat n * hi <= INT_MAX ->
    sum + Z.of_nat n * lo <= s <= sum + Z.of_nat n * hi.
Proof.
  induction n as [|n IH]; intros srcindex x sum s Hrun Hsum Hmax.
  - cbn in Hrun. injection Hrun as <-. lia.
  - cbn [blur_x] in Hrun. rewrite Nat2Z.inj_succ in *.
    destruct (load src srcbase (add32 srcindex x)) as [p|] eqn:Hload;
      [|discriminate].
    apply load_bounded in Hload.
    assert (0 <= Z.of_nat n * hi) by nia.
    assert (0 <= Z.of_nat n * lo) by nia.
    rewrite (add32_small sum p) in Hrun by (unfold INT_MIN; lia).
    apply IH in Hrun; lia.
Qed.

Lemma blur_y_range (n : nat) :
  forall srcindex sum s : Z,
    blur_y src srcbase srcWidth n srcindex sum = Some s ->
    0 <= sum -> sum + Z.of_nat n * (5 * hi) <= INT_MAX ->
    sum + Z.of_nat n * (5 * lo) <= s <= sum + Z.of_nat n * (5 * hi).
Proof.
  induction n as [|n IH]; intros srcindex sum s Hrun Hsum Hmax.
  - cbn in Hrun. injection Hrun as <-. lia.
  - cbn [blur_y] in Hrun. rewrite Nat2Z.inj_succ in *.
    change (Z.to_nat THUMBNAIL_BLUR_RADIUS) with 5%nat in Hrun.
    destruct (blur_x src srcbase srcindex 5 0 sum) as [row|] eqn:Hrow;
      [|discriminate].
    assert (0 <= Z.of_nat n * (5 * hi)) by nia.
    assert (0 <= Z.of_nat n * (5 * lo)) by nia.
    apply blur_x_range in Hrow; [|lia|lia].
    apply IH in Hrun; lia.
Qed.

(** The byte stored for a window whose sum lies between [25 * lo] and
    [25 * hi]. *)
Lemma pixel_range (sum : Z) :
  25 * lo <= sum <= 25 * hi ->
  lo - 1 <= to_uchar (sar32 (mul32 sum THUMBNAIL_BLUR_NORM) 16) <= hi /\
  0 <= to_uchar (sar32 (mul32 sum THUMBNAIL_BLUR_NORM) 16).
Proof.
  intros Hsum. change THUMBNAIL_BLUR_NORM with 2621.
  unfold mul32. rewrite wrap32_small by (unfold INT_MIN, INT_MAX; lia).
  rewrite sar32_16.
  assert (Hq : lo - 1 <= sum * 2621 / 65536 <= hi /\
               0 <= sum * 2621 / 65536).
  { split; [split|].
    - apply Z.div_le_lower_bound; lia.
    - apply Z.div_le_upper_bound; lia.
    - apply Z.div_pos; lia. }
  unfold to_uchar. rewrite Z.mod_small by lia. exact Hq.
Qed.

Section ColumnsRange.
Variables (dstbase rowindex ax : Z).

Lemma columns_range (n : nat) :
  forall (dest : list Z) (dstindex tx : Z) (dest' : list Z) (dstindex' : Z),
    columns src srcbase srcWidth dstbase rowindex ax n dest dstindex tx
    = Some (dest', dstindex') ->
    0 <= dstindex -> dstindex + Z.of_nat n <= INT_MAX ->
    0 <= dstbase + dstindex ->
    length dest' = length dest /\
    dstindex' = dstindex + Z.of_nat n /\
    forall k : nat,
      if decide (dstbase + dstindex <= Z.of_nat k
                 < dstbase + dstindex + Z.of_nat n)
      then exists p, dest' !! k = Some p /\ lo - 1 <= p <= hi /\ 0 <= p
      else dest' !! k = dest !! k.
Proof.
  induction n as [|n IH]; intros dest dstindex tx dest' dstindex' Hrun Hd
    Hdmax Hlow.
  - cbn in Hrun. injection Hrun as <- <-. split; [reflexivity|].
    split; [lia|]. intros k. case_decide; [lia | reflexivity].
  - cbn [columns] in Hrun.
    change (Z.to_nat THUMBNAIL_BLUR_RADIUS) with 5%nat in Hrun.
    destruct (blur_y src srcbase srcWidth 5 _ 0) as [sum|] eqn:Hsum;
      [|discriminate].
    apply blur_y_range in Hsum; [|lia|unfold INT_MAX; lia].
    destruct (pixel_range sum ltac:(lia)) as [Hpixel Hpixel0].
    set (pixel := to_uchar (sar32 (mul32 sum THUMBNAIL_BLUR_NORM) 16)) in *.
    unfold store in Hrun.
    destruct (Z.leb_spec 0 (dstbase + dstindex)); [|lia].
    destruct (Z.ltb_spec (dstbase + dstindex) (Z.of_nat (length dest)));
      [|discriminate].
    cbn [andb] in Hrun.
    rewrite (add32_small dstindex 1) in Hrun by (unfold INT_MIN; lia).
    apply IH in Hrun; [|lia|lia|lia].
    destruct Hrun as (Hlen & Hidx & Hvalue).
    rewrite length_insert in Hlen.
    split; [exact Hlen|]. split; [lia|].
    intros k. specialize (Hvalue k).
    repeat case_decide; try lia.
    + exact Hvalue.
    + exists pixel. split; [|split; assumption].
      rewrite Hvalue.
      replace k with (Z.to_nat (dstbase + dstindex)) by lia.
      apply list_lookup_insert_eq. lia.
    + rewrite Hvalue. apply list_lookup_insert_ne. lia.
Qed.
End ColumnsRange.

Lemma rows_range (dstbase dstWidth ax ay : Z) (n : nat) :
  0 <= dstWidth ->
  forall (dest : list Z) (dstindex ty : Z) (dest' : list Z),
    rows src srcbase srcWidth dstbase dstWidth ax ay n dest dstindex ty
    = Some dest' ->
    0 <= dstindex -> dstindex + Z.of_nat n * dstWidth <= INT_MAX ->
    0 <= dstbase + dstindex ->
    length dest' = length dest /\
    forall k : nat,
      if decide (dstbase + dstindex <= Z.of_nat k
                 < dstbase + dstindex + Z.of_nat n * dstWidth)
      then exists p, dest' !! k = Some p /\ lo - 1 <= p <= hi /\ 0 <= p
      else dest' !! k = dest !! k.
Proof.
  intros Hwidth.
  induction n as [|n IH]; intros dest dstindex ty dest' Hrun Hd Hdmax Hlow.
  - cbn in Hrun. injection Hrun as <-. split; [reflexivity|].
    intros k. case_decide; [lia | reflexivity].
  - cbn [rows] in Hrun.
    destruct (columns src srcbase srcWidth dstbase _ ax (Z.to_nat dstWidth)
                dest dstindex 0) as [[dest1 dstindex1]|] eqn:Hrow;
      [|discriminate].
    apply columns_range in Hrow; [|lia|rewrite Z2Nat.id by lia; nia|lia].
    rewrite Z2Nat.id in Hrow by lia.
    destruct Hrow as (Hlen1 & -> & Hvalue1).
    apply IH in Hrun; [|lia|nia|lia].
    destruct Hrun as (Hlen & Hvalue).
    split; [congruence|].
    intros k. specialize (Hvalue k). specialize (Hvalue1 k).
    repeat case_decide; try nia.
    + exact Hvalue.
    + rewrite Hvalue. exact Hvalue1.
    + rewrite Hvalue. exact Hvalue1.
Qed.
End DownsampleRange.

(** X22.  [DownsampleChannel] writes the destination window and nothing
    else, and what it writes are bytes within the range of the source:
    for source extents from 5 to 32771, a destination of at least one and
    at most [INT_MAX] pixels, and source bytes between [lo] and [hi]
    ([0 <= lo <= hi <= 255]), every cell of the window ends up between
    [lo - 1] and [hi] and not below 0, and every cell outside the window
    keeps its value. *)
Theorem DownsampleChannel_range
    (dest : list Z) (dstbase dstWidth dstHeight : Z)
    (src : list Z) (srcbase srcWidth srcHeight lo hi : Z) :
  5 <= srcWidth <= 32771 ->
  5 <= srcHeight <= 32771 ->
  0 <= srcbase ->
  srcbase + srcWidth * srcHeight <= Z.of_nat (length src) ->
  1 <= dstWidth -> 1 <= dstHeight ->
  dstWidth * dstHeight <= INT_MAX ->
  0 <= dstbase ->
  dstbase + dstWidth * dstHeight <= Z.of_nat (length dest) ->
  (forall (k : nat) (p : Z), src !! k = Some p -> lo <= p <= hi) ->
  0 <= lo -> lo <= hi -> hi <= 255 ->
  exists dest' : list Z,
    Thumbnail.DownsampleChannel dest dstbase dstWidth dstHeight
      src srcbase srcWidth srcHeight = Some dest' /\
    length dest' = length dest /\
    forall k : nat,
      if decide (dstbase <= Z.of_nat k < dstbase + dstWidth * dstHeight)
      then exists p, dest' !! k = Some p /\ lo - 1 <= p <= hi /\ 0 <= p
      else dest' !! k = dest !! k.
Proof.
  intros Hsw Hsh Hsb Hsrc Hdw Hdh Harea Hdb Hdest Hbounded Hlo Hle Hhi.
  destruct (DownsampleChannel_spec src srcbase srcWidth srcHeight Hsw Hsh
              Hsb Hsrc dest dstbase dstWidth dstHeight Hdw Hdh Harea Hdb
              Hdest) as (dest' & Hrun & Hlen & _).
  exists dest'. split; [exact Hrun|]. split; [exact Hlen|].
  unfold Thumbnail.DownsampleChannel in Hrun.
  destruct (div32 _ dstWidth) as [ax|]; [|discriminate].
  destruct (div32 _ dstHeight) as [ay|]; [|discriminate].
  apply (rows_range src srcbase srcWidth lo hi Hbounded Hlo Hle Hhi) in Hrun;
    rewrite ?Z2Nat.id by lia; try lia.
  destruct Hrun as [_ Hvalue]. intros k. specialize (Hvalue k).
  rewrite Z2Nat.id in Hvalue by lia.
  repeat case_decide; try nia; exact Hvalue.
Qed.

Lemma DownsampleChannel_range_witness :
  exists dest' : list Z,
    Thumbnail.DownsampleChannel [7; 7; 7; 7; 7] 1 2 1
      (replicate (Z.to_nat 36) 100) 0 6 6 = Some dest' /\
    length dest' = 5%nat /\
    dest' !! 0%nat = Some 7 /\ dest' !! 3%nat = Some 7.
Proof.
  destruct (DownsampleChannel_range [7; 7; 7; 7; 7] 1 2 1
              (replicate (Z.to_nat 36) 100) 0 6 6 100 100)
    as (dest' & Hrun & Hlen & Hvalue); try lia.
  - rewrite length_replicate. lia.
  - unfold INT_MAX. lia.
  - cbn. lia.
  - intros k p Hp. apply lookup_replicate in Hp. lia.
  - exists dest'. split; [exact Hrun|]. split; [exact Hlen|].
    split; [exact (Hvalue 0%nat) | exact (Hvalue 3%nat)].
Defined.

(** ** The thumbnail of a whole frame *)

Lemma CreateThumbnail_in_bounds_witness :
  exists thumbnail : Thumbnail.Image,
    Thumbnail.CreateThumbnail example_thumbnail example_source
    = Some thumbnail /\
    length (Thumbnail.data thumbnail) = 6%nat.
Proof.
  apply (CreateThumbnail_in_bounds example_thumbnail example_source).
  - reflexivity.
  - cbn. lia.
  - cbn. lia.
  - vm_compute. discriminate.
  - cbn. lia.
  - cbn. lia.
  - vm_compute. discriminate.
  - vm_compute. discriminate.
Defined.

(** ** Timer *)

Lemma tics_stack (starts : list Timer.timeval) :
  forall timer : Timer.t,
    Timer.m_timeStampStack (Timer.tics starts timer)
    = Timer.m_timeStampStack timer ++ starts /\
    Timer.m_startup (Timer.tics starts timer) = Timer.m_startup timer.
Proof.
  induction starts as [|now starts IH]; intros timer.
  - cbn. rewrite app_nil_r. auto.
  - cbn [Timer.tics fold_left]. destruct (IH (Timer.tic now timer)) as [Hs Hb].
    unfold Timer.tics in Hs, Hb. rewrite Hs, Hb. cbn.
    rewrite <- app_assoc. auto.
Qed.

Lemma tocs_fifo {double : Type} (milliseconds : Z -> Z -> double)
    (ends : list Timer.timeval) :
  forall (starts rest : list Timer.timeval) (startup : Timer.timeval),
    length starts = length ends ->
    Timer.tocs milliseconds ends
      {| Timer.m_startup := startup;
         Timer.m_timeStampStack := starts ++ rest |}
    = Some (zip_with
              (fun start now =>
                 milliseconds (sub32 (Timer.tv_sec now) (Timer.tv_sec start))
                   (sub32 (Timer.tv_usec now) (Timer.tv_usec start)))
              starts ends,
            {| Timer.m_startup := startup; Timer.m_timeStampStack := rest |}).
Proof.
  induction ends as [|now ends IH]; intros starts rest startup Hlen.
  - destruct starts; [reflexivity | discriminate].
  - destruct starts as [|start starts]; [discriminate|].
    cbn [Timer.tocs app]. unfold Timer.toc at 1.
    cbn [Timer.m_timeStampStack Timer.m_startup mbind option_bind].
    rewrite (IH starts rest startup) by (cbn in Hlen; lia).
    reflexivity.
Qed.

(** X23.  [toc] pairs with the oldest outstanding [tic], not with the
    last one: the time stamps are kept in a queue.  After [tic] has been
    called at the readings [starts], calls of [toc] at the readings [ends]
    return, in order, the time from the first [tic] to the first [toc],
    from the second [tic] to the second [toc], and so on; a [toc] with no
    [tic] outstanding reads the front of an empty queue. *)
Theorem toc_pairs_with_oldest_tic (double : Type)
    (milliseconds : Z -> Z -> double)
    (startup : Timer.timeval) (starts more ends : list Timer.timeval)
    (now : Timer.timeval) :
  length starts = length ends ->
  Timer.tocs milliseconds ends
    (Timer.tics (starts ++ more) (Timer.create startup))
  = Some (zip_with
            (fun start now =>
               milliseconds (sub32 (Timer.tv_sec now) (Timer.tv_sec start))
                 (sub32 (Timer.tv_usec now) (Timer.tv_usec start)))
            starts ends,
          Timer.tics more (Timer.create startup)) /\
  Timer.toc milliseconds now (Timer.create startup) = None.
Proof.
  intros Hlen. split; [|reflexivity].
  destruct (tics_stack (starts ++ more) (Timer.create startup)) as [Hs Hb].
  destruct (tics_stack more (Timer.create startup)) as [Hs' Hb'].
  destruct (Timer.tics (starts ++ more) (Timer.create startup))
    as [startup1 stack1].
  destruct (Timer.tics more (Timer.create startup)) as [startup2 stack2].
  cbn in Hs, Hb, Hs', Hb'. subst.
  apply (tocs_fifo milliseconds ends starts more startup Hlen).
Qed.

Lemma toc_pairs_with_oldest_tic_witness :
  Timer.tocs (fun seconds microseconds => seconds * 1000000 + microseconds)
    [Timer.MakeTimeval 13 0; Timer.MakeTimeval 14 0]
    (Timer.tics ([Timer.MakeTimeval 10 0; Timer.MakeTimeval 12 0] ++ [])
       (Timer.create (Timer.MakeTimeval 0 0)))
  = Some ([3000000; 2000000], Timer.create (Timer.MakeTimeval 0 0)).
Proof.
  exact (proj1 (toc_pairs_with_oldest_tic Z
                  (fun seconds microseconds => seconds * 1000000 + microseconds)
                  (Timer.MakeTimeval 0 0)
                  [Timer.MakeTimeval 10 0; Timer.MakeTimeval 12 0] []
                  [Timer.MakeTimeval 13 0; Timer.MakeTimeval 14 0]
                  (Timer.MakeTimeval 0 0) eq_refl)).
Defined.

(** ** Preview parameters *)

Lemma dispatch_preview_exposure (P : Platform)
    (sensor_frames : list Camera.ShotParams -> list Frame.t)
    (task : ParamSetRequest.t) (st : FCamInterface.t) :
  Z.land (ParamSetRequest.getId task) 65535
  = ParamSetRequest.PARAM_PREVIEW_EXPOSURE ->
  FCamInterface.dispatch sensor_frames task st
  = (v ← ParamSetRequest.float_at (ParamSetRequest.getData task) 0;
     Some (FCamInterface.set_state
             (Camera.set_preview (Camera.set_user (Camera.set_exposure v)))
             st)).
Proof. intros Hid. unfold FCamInterface.dispatch. rewrite Hid. reflexivity. Qed.

(** X24.  [getParamFloat] reports the exposure of the previous frame and
    takes no lock.  After a request has set the preview exposure to [v]
    and an iteration with the viewer active has ended, it returns [v] when
    automatic exposure is off, and when it is on the exposure
    [FCam::autoExpose] returned for the frame of that iteration, not [v].
    When the viewer is inactive the iteration ends without the copy and
    the value returned is the one from before the request.  The call
    returns even while [previousStateLock] is held, and leaves the state
    as it is. *)
Theorem preview_exposure_read_back (P : Platform)
    (sensor_frames : list Camera.ShotParams -> list Frame.t)
    (m : ParamGet.Estimates) (v : float) (s : ParamGet.t) :
  ParamGet.previousStateLock s = false ->
  0 <= v < 2 ^ 32 ->
  exists s1 s2 : ParamGet.t,
    ParamGet.after_request sensor_frames
      (ParamSetRequest.create ParamSetRequest.PARAM_PREVIEW_EXPOSURE
         (ParamSetRequest.bytes_of_word v)) s = Some s1 /\
    ParamGet.finish_iteration m s1 = ParamGet.Returns tt s2 /\
    (FCamInterface.isViewerActive (ParamGet.app s) = true ->
     ParamGet.getParamFloat ParamSetRequest.PARAM_PREVIEW_EXPOSURE s2
     = (if Camera.autoExposure
             (Camera.preview
                (FCamInterface.m_currentState
                   (FCamInterface.camera (ParamGet.app s))))
        then ParamGet.shot_exposure m
        else v, s2)) /\
    (FCamInterface.isViewerActive (ParamGet.app s) = false ->
     ParamGet.getParamFloat ParamSetRequest.PARAM_PREVIEW_EXPOSURE s2
     = (fst (ParamGet.getParamFloat ParamSetRequest.PARAM_PREVIEW_EXPOSURE s),
        s2)) /\
    forall held : bool,
      ParamGet.getParamFloat ParamSetRequest.PARAM_PREVIEW_EXPOSURE
        {| ParamGet.app := ParamGet.app s2;
           ParamGet.captureFps := ParamGet.captureFps s2;
           ParamGet.previousStateLock := held |}
      = (fst (ParamGet.getParamFloat ParamSetRequest.PARAM_PREVIEW_EXPOSURE s2),
         {| ParamGet.app := ParamGet.app s2;
            ParamGet.captureFps := ParamGet.captureFps s2;
            ParamGet.previousStateLock := held |}).
Proof.
  intros Hfree Hv. unfold ParamGet.after_request.
  rewrite dispatch_preview_exposure by reflexivity.
  cbn [ParamSetRequest.getData ParamSetRequest.create ParamSetRequest.m_data].
  unfold ParamSetRequest.float_at. rewrite word_at_bytes_of_word.
  rewrite Z.mod_small by exact Hv. cbn [mbind option_bind].
  destruct s as [a fps l]. cbn in Hfree. subst l.
  cbn [ParamGet.app ParamGet.captureFps ParamGet.previousStateLock] in *.
  match goal with
  | |- exists s1 s2, Some ?x = Some s1 /\ _ =>
      destruct (finish_iteration_spec m x eq_refl)
        as (s2 & Hfinish & Hfree2 & _ & Hskip & Hcopy)
  end.
  assert (Hget : forall s0 : ParamGet.t,
    ParamGet.getParamFloat ParamSetRequest.PARAM_PREVIEW_EXPOSURE s0
    = (let preview :=
         Camera.preview (FCamInterface.previousState (ParamGet.app s0)) in
       if Camera.autoExposure preview
       then Camera.exposure (Camera.evaluated preview)
       else Camera.exposure (Camera.user preview), s0)).
  { intros s0. reflexivity. }
  eexists. exists s2. split; [reflexivity|]. split; [exact Hfinish|].
  split; [|split].
  - intros Hactive. specialize (Hcopy Hactive). cbn [ParamGet.app] in Hcopy.
    rewrite Hget. cbv zeta. rewrite Hcopy, update_estimates_reported.
    reflexivity.
  - intros Hidle. rewrite (Hskip Hidle). rewrite !Hget. reflexivity.
  - intros held. rewrite !Hget. reflexivity.
Qed.

Lemma preview_exposure_read_back_witness :
  (exists s1 s2 : ParamGet.t,
     ParamGet.after_request (platform:=binary32_platform) example_sensor
       (ParamSetRequest.create ParamSetRequest.PARAM_PREVIEW_EXPOSURE
          (ParamSetRequest.bytes_of_word 1176256512))
       (example_app true false) = Some s1 /\
     ParamGet.finish_iteration example_estimates s1
     = ParamGet.Returns tt s2 /\
     ParamGet.getParamFloat ParamSetRequest.PARAM_PREVIEW_EXPOSURE s2
     = (1176256512, s2)) /\
  (exists s1 s2 : ParamGet.t,
     ParamGet.after_request (platform:=binary32_platform) example_sensor
       (ParamSetRequest.create ParamSetRequest.PARAM_PREVIEW_EXPOSURE
          (ParamSetRequest.bytes_of_word 1176256512))
       (example_app true true) = Some s1 /\
     ParamGet.finish_iteration example_estimates s1
     = ParamGet.Returns tt s2 /\
     ParamGet.getParamFloat ParamSetRequest.PARAM_PREVIEW_EXPOSURE s2
     = (1184645120, s2)) /\
  (exists s1 s2 : ParamGet.t,
     ParamGet.after_request (platform:=binary32_platform) example_sensor
       (ParamSetRequest.create ParamSetRequest.PARAM_PREVIEW_EXPOSURE
          (ParamSetRequest.bytes_of_word 1176256512))
       (example_app false false) = Some s1 /\
     ParamGet.finish_iteration example_estimates s1
     = ParamGet.Returns tt s2 /\
     ParamGet.getParamFloat ParamSetRequest.PARAM_PREVIEW_EXPOSURE s2
     = (0, s2)).
Proof.
  split; [|split].
  - destruct (preview_exposure_read_back binary32_platform example_sensor
                example_estimates 1176256512 (example_app true false)
                eq_refl ltac:(lia))
      as (s1 & s2 & Hrun & Hfinish & Hget & _).
    exists s1, s2. split; [exact Hrun|]. split; [exact Hfinish|].
    exact (Hget eq_refl).
  - destruct (preview_exposure_read_back binary32_platform example_sensor
                example_estimates 1176256512 (example_app true true)
                eq_refl ltac:(lia))
      as (s1 & s2 & Hrun & Hfinish & Hget & _).
    exists s1, s2. split; [exact Hrun|]. split; [exact Hfinish|].
    exact (Hget eq_refl).
  - destruct (preview_exposure_read_back binary32_platform example_sensor
                example_estimates 1176256512 (example_app false false)
                eq_refl ltac:(lia))
      as (s1 & s2 & Hrun & Hfinish & _ & Hget & _).
    exists s1, s2. split; [exact Hrun|]. split; [exact Hfinish|].
    exact (Hget eq_refl).
Defined.

(** ** A set written without a callback *)

Lemma dumpToFileSystem_without_callback_witness :
  exists events : list ImageSet.event,
    ImageSet.dumpToFileSystem (platform:=binary32_platform) example_set None
    = Some events /\
    ImageSet.invocations events = 0%nat.
Proof.
  exact (dumpToFileSystem_without_callback binary32_platform example_set
           example_set_well_formed).
Defined.
